(** * evolution-assistant: status synchronisation and fleet management

    A shallow embedding of the front-end logic of the WhatsApp assistant
    dashboard: the client landing page ([ClientLanding]), the QR pairing
    page ([QRAssistantPage]) and the administration panel ([AdminPanel]).

    React state is a record, every [setX] call is a record update applied in
    program order, [useRef] cells are fields of the same record.  The
    outside world (backend answers, the user's answer to [window.confirm])
    is an oracle that sees the history of observable events; every network
    request, timer and toast is appended to that history. *)

From stdpp Require Import base strings list gmap.
From Equations Require Import Equations.
From Stdlib Require Import Ascii NArith Lia.

Local Open Scope string_scope.
Local Open Scope list_scope.

(** ** JavaScript values *)

Module Js.

(** [s.includes(sub)] on strings. *)
Fixpoint includes (s sub : string) : bool :=
  String.prefix sub s ||
  match s with
  | EmptyString => false
  | String _ s' => includes s' sub
  end.

(** Truthiness of a value that is a string, [null] or [undefined]:
    only a non-empty string is truthy. *)
Definition truthy (v : option string) : bool :=
  match v with
  | Some s => negb (String.eqb s "")
  | None => false
  end.

(** [a || b] where both sides are nullable strings. *)
Definition or_else (a b : option string) : option string :=
  if truthy a then a else b.

(** [a || 'literal']. *)
Definition or_default (a : option string) (d : string) : string :=
  match a with
  | Some s => if String.eqb s "" then d else s
  | None => d
  end.

(** [s.length]: the number of UTF-16 code units of the text that the
    bytes of [s] encode in UTF-8.  A continuation byte adds nothing, the
    first byte of a four-byte sequence stands for a surrogate pair. *)
Definition units (c : ascii) : nat :=
  let n := nat_of_ascii c in
  if (n <? 128)%nat then 1
  else if (n <? 192)%nat then 0
  else if (n <? 240)%nat then 1
  else 2.

Fixpoint length (s : string) : nat :=
  match s with
  | EmptyString => 0
  | String c s' => units c + length s'
  end.

(** [n || 0] on an optional counter. *)
Definition or_zero (n : option nat) : nat := default 0 n.

(** [b || false] on an optional flag. *)
Definition or_false (b : option bool) : bool := default false b.

End Js.

(** ** The push channel

    Events delivered on [/ws]: [{clientId, status, phone?, qrCode?}]. *)

Module Ws.

Record PushEvent := mkPushEvent {
  clientId : string;
  status : string;
  phone : option string;
  qrCode : option string
}.

End Ws.

(** ** The backend as seen through axios *)

Module Http.

(** The part of an axios error the components look at:
    [err.response?.status], [err.response?.data?.detail], [err.code]
    and [err.message]. *)
Record AxiosError := mkAxiosError {
  response_status : option N;
  response_detail : option string;
  code : option string;
  message : option string
}.

Inductive Response (A : Type) :=
| Resolved (data : A)
| Rejected (err : AxiosError).
Arguments Resolved {A} data.
Arguments Rejected {A} err.

(** [GET /client/{uniqueUrl}/landing] *)
Record LandingData := mkLandingData {
  id : string;
  name : string;
  email : string;
  client_status : string;
  messageCount : option nat;
  pausedCount : option nat;
  globalPause : option bool;
  connected : bool;
  connected_phone : option string
}.

(** [GET /client/{clientId}/status] *)
Record StatusData := mkStatusData { status : string }.

(** [GET /client/{clientId}/qr] *)
Record QrData := mkQrData {
  qr : option string;
  error : option string;
  state : option string;
  qr_connected_phone : option string
}.

(** One element of [GET /admin/clients]. *)
Record ClientRecord := mkClientRecord {
  rec_id : string;
  rec_name : string;
  rec_email : string;
  rec_unique_url : string;
  rec_status : string;
  rec_connected_phone : option string
}.

(** Body of [POST /admin/clients]. *)
Record NewClient := mkNewClient {
  new_name : string;
  new_email : string;
  openai_api_key : string;
  openai_assistant_id : string
}.

Inductive Action := connect | disconnect.

Inductive Request :=
| GetLanding (unique_url : string)
| GetStatus (client_id : string)
| GetQr (client_id : string)
| PostToggle (client_id : string) (action : Action)
| GetClients
| PostClients (form : NewClient)
| DeleteClient (client_id : string)
| PutEmail (client_id : string) (new_email : string)
| PostResendEmail (client_id : string).

(** The questions put to the user through [window.confirm]. *)
Inductive Prompt :=
| ConfirmUnlink
| ConfirmDelete (clientName : string)
| ConfirmResend (clientEmail : string).

(** What an observer of the page sees happen, in order. *)
Inductive Event :=
| Net (r : Request)
| Sleep (ms : N)
| ToastError (msg : string)
| ToastSuccess (msg : string)
| Asked (p : Prompt)
| ShowError (msg : option string)
| DismissSuccessAfter (ms : N).

Definition History := list Event.

(** The outside world: each answer may depend on everything that
    happened before the question. *)
Record World := mkWorld {
  landing : History -> string -> Response LandingData;
  status_of : History -> string -> Response StatusData;
  qr_of : History -> string -> Response QrData;
  toggle : History -> string -> Action -> Response unit;
  clients : History -> Response (option (list ClientRecord));
  create : History -> NewClient -> Response unit;
  delete : History -> string -> Response unit;
  put_email : History -> string -> string -> Response unit;
  resend_email : History -> string -> Response unit;
  confirm : History -> Prompt -> bool
}.

(** The requests of a history, in the order they were sent. *)
Definition requests (h : History) : list Request :=
  omap (fun e => match e with Net r => Some r | _ => None end) h.

Definition isQrRequest (e : Event) : bool :=
  match e with Net (GetQr _) => true | _ => false end.

(** How many times the QR endpoint was asked. *)
Definition qrRequests (h : History) : nat :=
  length (List.filter isQrRequest h).

(** Total time spent in [setTimeout] waits that the code awaited. *)
Definition waited (h : History) : N :=
  foldr (fun e acc => match e with Sleep ms => ms + acc | _ => acc end)%N 0%N h.

End Http.

(** ** ClientLanding: the client-facing landing page *)

Module ClientLanding.

Record Client := mkClient {
  id : string;
  name : string;
  email : string;
  messageCount : nat;
  pausedCount : nat;
  globalPause : bool
}.

Record Whatsapp := mkWhatsapp {
  connected : bool;
  status : string;
  connected_phone : option string
}.

Record ClientData := mkClientData {
  client : Client;
  whatsapp : Whatsapp
}.

(** The [useState] cells of the component, the [retryCountRef] cell and
    the history of what the page did so far. *)
Record State := mkState {
  clientData : option ClientData;
  qrCode : option string;
  loading : bool;
  errorMessage : option string;
  refreshing : bool;
  retryCount : nat;
  history : Http.History
}.

Definition maxRetries : nat := 3.

Definition setClientData (v : option ClientData) (st : State) : State :=
  mkState v (qrCode st) (loading st) (errorMessage st) (refreshing st)
          (retryCount st) (history st).
Definition setQrCode (v : option string) (st : State) : State :=
  mkState (clientData st) v (loading st) (errorMessage st) (refreshing st)
          (retryCount st) (history st).
Definition setLoading (v : bool) (st : State) : State :=
  mkState (clientData st) (qrCode st) v (errorMessage st) (refreshing st)
          (retryCount st) (history st).
Definition setErrorMessage (v : option string) (st : State) : State :=
  mkState (clientData st) (qrCode st) (loading st) v (refreshing st)
          (retryCount st) (history st).
Definition setRefreshing (v : bool) (st : State) : State :=
  mkState (clientData st) (qrCode st) (loading st) (errorMessage st) v
          (retryCount st) (history st).
Definition setRetryCount (v : nat) (st : State) : State :=
  mkState (clientData st) (qrCode st) (loading st) (errorMessage st)
          (refreshing st) v (history st).
Definition record (e : Http.Event) (st : State) : State :=
  mkState (clientData st) (qrCode st) (loading st) (errorMessage st)
          (refreshing st) (retryCount st) (history st ++ [e]).

(** [clientData?.client?.id] *)
Definition currentClientId (st : State) : option string :=
  id ∘ client <$> clientData st.

(** The functional update of [socket.onmessage]:
    [{...prevData, whatsapp: {...prevData.whatsapp, status, connected, connected_phone}}]. *)
Definition mergePush (data : Ws.PushEvent) (prevData : ClientData) : ClientData :=
  mkClientData (client prevData)
    (mkWhatsapp
       (bool_decide (Ws.status data = "open"))
       (Ws.status data)
       (Js.or_else (Ws.phone data) (connected_phone (whatsapp prevData)))).

(** [socket.onmessage].  The handler is re-installed whenever
    [clientData?.client?.id] changes, so the identifier it compares with
    is the one of the state it updates. *)
Definition onmessage (data : Ws.PushEvent) (st : State) : State :=
  match clientData st with
  | Some prevData =>
      if bool_decide (Ws.clientId data = id (client prevData)) then
        let st1 :=
          if Js.truthy (Ws.qrCode data)
          then setErrorMessage None (setQrCode (Ws.qrCode data) st)
          else st in
        setClientData (Some (mergePush data prevData)) st1
      else st
  | None => st
  end.

Section Page.

(** [useParams().unique_url] (the router only yields non-empty segments)
    and the world the page talks to. *)
Variable unique_url : option string.
Variable world : Http.World.

Definition msgInvalidLink : string :=
  "Enlace inválido. Verifica la URL e intenta nuevamente.".
Definition msgNoQr : string :=
  "No se pudo cargar el código QR. Intenta de nuevo.".
Definition msgQrServer : string :=
  "Error al conectar con el servidor para obtener el QR".
Definition msgNotFound : string :=
  "Cliente no encontrado. Verifica que el enlace sea correcto o contacta a soporte.".
Definition msgUnauthorized : string :=
  "Acceso no autorizado. Contacta al administrador.".
Definition msgNoServer : string :=
  "No se pudo conectar con el servidor. Por favor intenta nuevamente.".
Definition msgUnknown : string :=
  "Error desconocido al conectar con el servidor.".

(** The message chosen by the outer [catch] from [err.response?.status]. *)
Definition messageFor (err : Http.AxiosError) : string :=
  match Http.response_status err with
  | Some 404%N => msgNotFound
  | Some 401%N => msgUnauthorized
  | _ => msgNoServer
  end.

(** The outer [catch (err)] block of [fetchClientData]. *)
Definition catchFetch (err : Http.AxiosError) (st : State) : State :=
  record (Http.ToastError (Js.or_default (Http.message err) msgUnknown))
    (setErrorMessage (Some (messageFor err)) (setQrCode None st)).

(** The [finally] block of [fetchClientData]. *)
Definition finallyFetch (st : State) : State :=
  setRefreshing false (setLoading false st).

Definition newClientData (c : Http.LandingData) (s : Http.StatusData) : ClientData :=
  mkClientData
    (mkClient (Http.id c) (Http.name c) (Http.email c)
              (Js.or_zero (Http.messageCount c))
              (Js.or_zero (Http.pausedCount c))
              (Js.or_false (Http.globalPause c)))
    (mkWhatsapp (Http.connected c) (Http.status s) (Http.connected_phone c)).

(** The update applied when the QR endpoint reports [state === 'open']. *)
Definition markOpen (q : Http.QrData) (prevData : option ClientData) : option ClientData :=
  (fun p => mkClientData (client p)
              (mkWhatsapp true "open" (Js.or_else (Http.qr_connected_phone q) None)))
  <$> prevData.

(** The QR endpoint answered. *)
Definition onQrResponse (q : Http.QrData) (st : State) : State :=
  if Js.truthy (Http.qr q) then
    setRetryCount 0 (setErrorMessage None (setQrCode (Http.qr q) st))
  else if bool_decide (Http.state q = Some "open") then
    setErrorMessage None (setQrCode None
      (setClientData (markOpen q (clientData st)) st))
  else
    setErrorMessage (Some (Js.or_default (Http.error q) msgNoQr))
      (setQrCode None st).

Definition qrErrorMsg (qrError : Http.AxiosError) : string :=
  Js.or_default (Http.response_detail qrError) msgQrServer.

(** The test that guards the retry, without the counter. *)
Definition instanceMissing (msg : string) : bool :=
  Js.includes msg "Instance" && Js.includes msg "does not exist".

Equations? fetchClientData (fetchQr : bool) (st : State) : State
  by wf (maxRetries - retryCount st) lt :=
fetchClientData fetchQr st :=
  match unique_url with
  | None =>
      setRefreshing false (setLoading false
        (setErrorMessage (Some msgInvalidLink) st))
  | Some url =>
      let st1 := setLoading true (setErrorMessage None st) in
      let st2 := record (Http.Net (Http.GetLanding url)) st1 in
      match Http.landing world (history st1) url with
      | Http.Rejected err => finallyFetch (catchFetch err st2)
      | Http.Resolved c =>
          let st3 := record (Http.Net (Http.GetStatus (Http.id c))) st2 in
          match Http.status_of world (history st2) (Http.id c) with
          | Http.Rejected err => finallyFetch (catchFetch err st3)
          | Http.Resolved s =>
              let st4 := setClientData (Some (newClientData c s)) st3 in
              if negb (bool_decide (Http.status s = "open")) && fetchQr then
                let st5 := record (Http.Net (Http.GetQr (Http.id c))) st4 in
                match Http.qr_of world (history st4) (Http.id c) with
                | Http.Resolved q => finallyFetch (onQrResponse q st5)
                | Http.Rejected qrError =>
                    let st6 :=
                      setErrorMessage (Some (qrErrorMsg qrError))
                        (setQrCode None st5) in
                    if instanceMissing (qrErrorMsg qrError) then
                      match lt_dec (retryCount st6) maxRetries with
                      | left _ =>
                          finallyFetch
                            (fetchClientData fetchQr
                               (record (Http.Sleep 2000%N)
                                  (setRetryCount (retryCount st6 + 1) st6)))
                      | right _ => finallyFetch st6
                      end
                    else finallyFetch st6
                end
              else
                let st5 := setQrCode None st4 in
                finallyFetch
                  (if bool_decide (Http.status s = "open")
                   then setErrorMessage None st5 else st5)
          end
      end
  end.
Proof. simpl in *. lia. Qed.

(** [handleRefresh] *)
Definition handleRefresh (st : State) : State :=
  setRefreshing false
    (fetchClientData true (setRetryCount 0 (setRefreshing true st))).

Definition msgNoClientId : string :=
  "No se encontró el ID del cliente. Intenta nuevamente.".
Definition msgUnlinked : string :=
  "✅ WhatsApp desvinculado exitosamente.".
Definition msgUnlinkFailed : string :=
  "Error al desvincular WhatsApp. Por favor intenta nuevamente.".

(** [handleDisconnectWhatsApp] *)
Definition handleDisconnectWhatsApp (st : State) : State :=
  match currentClientId st with
  | Some cid =>
      if String.eqb cid "" then record (Http.ToastError msgNoClientId) st
      else
        let st1 := record (Http.Asked Http.ConfirmUnlink) st in
        if negb (Http.confirm world (history st) Http.ConfirmUnlink) then st1
        else
          let st2 := setRefreshing true st1 in
          let st3 := record (Http.Net (Http.PostToggle cid Http.disconnect)) st2 in
          match Http.toggle world (history st2) cid Http.disconnect with
          | Http.Resolved _ =>
              setRefreshing false
                (fetchClientData true (record (Http.ToastSuccess msgUnlinked) st3))
          | Http.Rejected _ =>
              setRefreshing false (record (Http.ToastError msgUnlinkFailed) st3)
          end
  | None => record (Http.ToastError msgNoClientId) st
  end.

(** [loadData], run once by the mounting effect.  [fetchClientData]
    handles its own failures, so the [catch] of [loadData] is dead. *)
Definition loadData (st : State) : State :=
  setLoading false (fetchClientData true (setLoading true st)).

(** The state of a freshly mounted component. *)
Definition initial : State :=
  mkState None None true None false 0 [].

End Page.

End ClientLanding.

(** ** QRAssistantPage: the QR pairing page *)

Module QRAssistantPage.

Record Client := mkClient {
  id : string;
  name : string;
  email : string;
  status : string;
  messageCount : nat;
  pausedCount : nat;
  globalPause : bool
}.

Record Whatsapp := mkWhatsapp {
  connected : bool;
  wa_status : string;
  connected_phone : option string
}.

Record ClientData := mkClientData {
  client : Client;
  whatsapp : Whatsapp
}.

Record State := mkState {
  clientData : option ClientData;
  qrCode : option string;
  loading : bool;
  errorMessage : option string;
  refreshing : bool;
  retryCount : nat;
  history : Http.History
}.

Definition maxRetries : nat := 3.

Definition setClientData (v : option ClientData) (st : State) : State :=
  mkState v (qrCode st) (loading st) (errorMessage st) (refreshing st)
          (retryCount st) (history st).
Definition setQrCode (v : option string) (st : State) : State :=
  mkState (clientData st) v (loading st) (errorMessage st) (refreshing st)
          (retryCount st) (history st).
Definition setLoading (v : bool) (st : State) : State :=
  mkState (clientData st) (qrCode st) v (errorMessage st) (refreshing st)
          (retryCount st) (history st).
Definition setErrorMessage (v : option string) (st : State) : State :=
  mkState (clientData st) (qrCode st) (loading st) v (refreshing st)
          (retryCount st) (history st).
Definition setRefreshing (v : bool) (st : State) : State :=
  mkState (clientData st) (qrCode st) (loading st) (errorMessage st) v
          (retryCount st) (history st).
Definition setRetryCount (v : nat) (st : State) : State :=
  mkState (clientData st) (qrCode st) (loading st) (errorMessage st)
          (refreshing st) v (history st).
Definition record (e : Http.Event) (st : State) : State :=
  mkState (clientData st) (qrCode st) (loading st) (errorMessage st)
          (refreshing st) (retryCount st) (history st ++ [e]).

(** [clientData?.whatsapp?.connected] *)
Definition isConnected (cd : option ClientData) : bool :=
  match cd with
  | Some d => connected (whatsapp d)
  | None => false
  end.

(** A template literal prints a missing route parameter as [undefined]. *)
Definition inUrl (v : option string) : string := default "undefined" v.

Section Page.

Variable unique_url : option string.
Variable world : Http.World.

Definition msgNoQr : string := "No se pudo cargar el código QR.".
Definition msgServer : string := "Error al conectar con el servidor.".
Definition msgNotFound : string :=
  "Cliente no encontrado. Verifica que el enlace sea correcto o contacta al administrador (contacto@tiks.cl).".
Definition msgForbidden : string :=
  "Error de autenticación con el servidor de WhatsApp. Contacta al administrador.".
Definition msgStatus : string := "Error al verificar el estado.".
Definition msgUnknown : string :=
  "Error desconocido al conectar con el servidor.".

Definition errorMsg (error : Http.AxiosError) : string :=
  Js.or_default (Http.response_detail error) msgServer.

Definition instanceMissing (msg : string) : bool :=
  Js.includes msg "Instance" && Js.includes msg "does not exist".

(** The QR endpoint answered. *)
Definition onQrResponse (q : Http.QrData) (st : State) : State :=
  if Js.truthy (Http.qr q) then
    setRetryCount 0 (setErrorMessage None (setQrCode (Http.qr q) st))
  else
    setErrorMessage (Some (Js.or_default (Http.error q) msgNoQr))
      (setQrCode None st).

(** [fetchQRCode].  [captured] is the [clientData] the callback closed
    over when it was created; recursive calls go through the same
    closure. *)
Equations? fetchQRCode (captured : option ClientData) (instance_id : string)
  (st : State) : State by wf (maxRetries - retryCount st) lt :=
fetchQRCode captured instance_id st :=
  if isConnected captured then setQrCode None st
  else
    let st1 := setRefreshing true st in
    let st2 := record (Http.Net (Http.GetQr instance_id)) st1 in
    match Http.qr_of world (history st1) instance_id with
    | Http.Resolved q => setRefreshing false (onQrResponse q st2)
    | Http.Rejected error =>
        let st3 :=
          setErrorMessage (Some (errorMsg error)) (setQrCode None st2) in
        if instanceMissing (errorMsg error) then
          match lt_dec (retryCount st3) maxRetries with
          | left _ =>
              setRefreshing false
                (fetchQRCode captured instance_id
                   (record (Http.Sleep 2000%N)
                      (setRetryCount (retryCount st3 + 1) st3)))
          | right _ =>
              setRefreshing false
                (record (Http.ToastError (errorMsg error)) st3)
          end
        else
          setRefreshing false
            (record (Http.ToastError (errorMsg error)) st3)
    end.
Proof. simpl in *. lia. Qed.

Definition messageFor (error : Http.AxiosError) : string :=
  match Http.response_status error with
  | Some 404%N => msgNotFound
  | Some 403%N => msgForbidden
  | _ => msgStatus
  end.

(** The [catch] block of [fetchClientData]; the toast shows the
    [errorMessage] the callback closed over. *)
Definition catchFetch (capturedError : option string)
  (error : Http.AxiosError) (st : State) : State :=
  record (Http.ToastError (Js.or_default capturedError msgUnknown))
    (setErrorMessage (Some (messageFor error)) (setQrCode None st)).

Definition finallyFetch (st : State) : State :=
  setRefreshing false (setLoading false st).

Definition newClientData (c : Http.LandingData) (s : Http.StatusData) : ClientData :=
  mkClientData
    (mkClient (Http.id c) (Http.name c) (Http.email c)
              (Http.client_status c) 0 0 false)
    (mkWhatsapp (Http.connected c) (Http.status s)
                (Js.or_else (Http.connected_phone c) None)).

(** [fetchClientData].  The callback and the [fetchQRCode] it calls were
    created by the render that showed [st]. *)
Definition fetchClientData (st : State) : State :=
  let st1 := setLoading true (setRefreshing true st) in
  let st2 := record (Http.Net (Http.GetLanding (inUrl unique_url))) st1 in
  match Http.landing world (history st1) (inUrl unique_url) with
  | Http.Rejected error =>
      finallyFetch (catchFetch (errorMessage st) error st2)
  | Http.Resolved c =>
      let st3 := record (Http.Net (Http.GetStatus (Http.id c))) st2 in
      match Http.status_of world (history st2) (Http.id c) with
      | Http.Rejected error =>
          finallyFetch (catchFetch (errorMessage st) error st3)
      | Http.Resolved s =>
          let st4 :=
            setErrorMessage None
              (setClientData (Some (newClientData c s)) st3) in
          if negb (bool_decide (Http.status s = "open")) then
            finallyFetch (fetchQRCode (clientData st) (Http.id c) st4)
          else finallyFetch (setQrCode None st4)
      end
  end.

(** [handleRefresh] *)
Definition handleRefresh (st : State) : State :=
  fetchClientData (setRetryCount 0 (setRefreshing true st)).

Definition msgNoClientId : string :=
  "No se encontró el ID del cliente. Intenta nuevamente.".
Definition msgUnlinked : string :=
  "✅ WhatsApp desvinculado exitosamente.".
Definition msgUnlinkFailed : string := "Error al desvincular WhatsApp.".

(** [handleDisconnect] *)
Definition handleDisconnect (st : State) : State :=
  match id ∘ client <$> clientData st with
  | Some cid =>
      if String.eqb cid "" then record (Http.ToastError msgNoClientId) st
      else
        let st1 := record (Http.Asked Http.ConfirmUnlink) st in
        if negb (Http.confirm world (history st) Http.ConfirmUnlink) then st1
        else
          let st2 := setRefreshing true st1 in
          let st3 := record (Http.Net (Http.PostToggle cid Http.disconnect)) st2 in
          match Http.toggle world (history st2) cid Http.disconnect with
          | Http.Resolved _ =>
              setRefreshing false
                (fetchClientData (record (Http.ToastSuccess msgUnlinked) st3))
          | Http.Rejected error =>
              setRefreshing false
                (record (Http.ToastError
                   (Js.or_default (Http.response_detail error) msgUnlinkFailed)) st3)
          end
  | None => record (Http.ToastError msgNoClientId) st
  end.

(** The 25 s QR timer. *)
Definition qrTick (st : State) : State :=
  if isConnected (clientData st) then st
  else fetchQRCode (clientData st) (inUrl (id ∘ client <$> clientData st)) st.

Definition loadData (st : State) : State :=
  setLoading false (fetchClientData (setLoading true st)).

Definition initial : State :=
  mkState None None true None false 0 [].

End Page.

End QRAssistantPage.

(** ** Regular expressions, as [String.prototype.match] tests them

    Only what the e-mail pattern needs: character classes, sequence,
    alternative and iteration, matched against the whole input (the pattern
    is anchored with [^] and [$]). *)

Module Regex.

Inductive t :=
| Void
| Eps
| Class (p : ascii -> bool)
| Cat (r s : t)
| Alt (r s : t)
| Star (r : t).

Definition Plus (r : t) : t := Cat r (Star r).
Definition Opt (r : t) : t := Alt Eps r.

Fixpoint nullable (r : t) : bool :=
  match r with
  | Void => false
  | Eps => true
  | Class _ => false
  | Cat r s => nullable r && nullable s
  | Alt r s => nullable r || nullable s
  | Star _ => true
  end.

(** Brzozowski derivative. *)
Fixpoint deriv (c : ascii) (r : t) : t :=
  match r with
  | Void => Void
  | Eps => Void
  | Class p => if p c then Eps else Void
  | Cat r s =>
      if nullable r then Alt (Cat (deriv c r) s) (deriv c s)
      else Cat (deriv c r) s
  | Alt r s => Alt (deriv c r) (deriv c s)
  | Star r => Cat (deriv c r) (Star r)
  end.

Fixpoint matches (r : t) (s : string) : bool :=
  match s with
  | EmptyString => nullable r
  | String c s' => matches (deriv c r) s'
  end.

Definition between (lo hi c : ascii) : bool :=
  (nat_of_ascii lo <=? nat_of_ascii c)%nat && (nat_of_ascii c <=? nat_of_ascii hi)%nat.

(** [\w] *)
Definition word (c : ascii) : bool :=
  (between "a" "z" c || between "A" "Z" c || between "0" "9" c
   || Ascii.eqb c "_")%char.

(** [[\w-.]] *)
Definition wordDashDot (c : ascii) : bool :=
  (word c || Ascii.eqb c "-" || Ascii.eqb c ".")%char.

(** [[\w-]] *)
Definition wordDash (c : ascii) : bool :=
  (word c || Ascii.eqb c "-")%char.

Definition chr (a : ascii) : t := Class (Ascii.eqb a).

(** [/^[\w-.]+@([\w-]+\.)+[\w-]{2,4}$/] *)
Definition email : t :=
  Cat (Plus (Class wordDashDot))
    (Cat (chr "@"%char)
       (Cat (Plus (Cat (Plus (Class wordDash)) (chr "."%char)))
          (Cat (Class wordDash)
             (Cat (Class wordDash)
                (Cat (Opt (Class wordDash)) (Opt (Class wordDash))))))).

End Regex.

(** ** AdminPanel: the fleet view *)

Module AdminPanel.

(** An element of [clients]: the backend record with [instance_id] added. *)
Record ClientRow := mkClientRow {
  id : string;
  instance_id : string;
  name : string;
  email : string;
  unique_url : string;
  status : string;
  connected_phone : option string
}.

(** The [useState] cells the modelled operations touch, and the history.
    ([chats], [threads], [qrData] and the flags of their modals are only
    used by the secondary views.) *)
Record State := mkState {
  clients : list ClientRow;
  loadingStates : gmap string bool;
  error : option string;
  formError : option string;
  successMessage : option string;
  showAddForm : bool;
  showEditEmailForm : bool;
  editingClient : option ClientRow;
  newEmail : string;
  history : Http.History
}.

Definition setClients (v : list ClientRow) (st : State) : State :=
  mkState v (loadingStates st) (error st) (formError st) (successMessage st)
    (showAddForm st) (showEditEmailForm st) (editingClient st) (newEmail st)
    (history st).
Definition setLoadingState (key : string) (v : bool) (st : State) : State :=
  mkState (clients st) (<[key := v]> (loadingStates st)) (error st)
    (formError st) (successMessage st) (showAddForm st)
    (showEditEmailForm st) (editingClient st) (newEmail st) (history st).
Definition setFormError (v : option string) (st : State) : State :=
  mkState (clients st) (loadingStates st) (error st) v (successMessage st)
    (showAddForm st) (showEditEmailForm st) (editingClient st) (newEmail st)
    (history st).
Definition setSuccessMessage (v : option string) (st : State) : State :=
  mkState (clients st) (loadingStates st) (error st) (formError st) v
    (showAddForm st) (showEditEmailForm st) (editingClient st) (newEmail st)
    (history st).
Definition setShowAddForm (v : bool) (st : State) : State :=
  mkState (clients st) (loadingStates st) (error st) (formError st)
    (successMessage st) v (showEditEmailForm st) (editingClient st)
    (newEmail st) (history st).
Definition setShowEditEmailForm (v : bool) (st : State) : State :=
  mkState (clients st) (loadingStates st) (error st) (formError st)
    (successMessage st) (showAddForm st) v (editingClient st) (newEmail st)
    (history st).
Definition setEditingClient (v : option ClientRow) (st : State) : State :=
  mkState (clients st) (loadingStates st) (error st) (formError st)
    (successMessage st) (showAddForm st) (showEditEmailForm st) v
    (newEmail st) (history st).
Definition setNewEmail (v : string) (st : State) : State :=
  mkState (clients st) (loadingStates st) (error st) (formError st)
    (successMessage st) (showAddForm st) (showEditEmailForm st)
    (editingClient st) v (history st).
Definition record (e : Http.Event) (st : State) : State :=
  mkState (clients st) (loadingStates st) (error st) (formError st)
    (successMessage st) (showAddForm st) (showEditEmailForm st)
    (editingClient st) (newEmail st) (history st ++ [e]).

(** [setError(v)]: the banner changes, which the history notes. *)
Definition setError (v : option string) (st : State) : State :=
  record (Http.ShowError v)
    (mkState (clients st) (loadingStates st) v (formError st)
       (successMessage st) (showAddForm st) (showEditEmailForm st)
       (editingClient st) (newEmail st) (history st)).

(** [setSuccessMessage(msg); setTimeout(() => setSuccessMessage(null), 3000)] *)
Definition notifySuccess (msg : string) (st : State) : State :=
  record (Http.DismissSuccessAfter 3000%N) (setSuccessMessage (Some msg) st).

(** The update of [socket.onmessage] on one row. *)
Definition mergePush (data : Ws.PushEvent) (client : ClientRow) : ClientRow :=
  if bool_decide (instance_id client = Ws.clientId data) then
    mkClientRow (id client) (instance_id client) (name client) (email client)
      (unique_url client) (Ws.status data) (Ws.phone data)
  else client.

(** [socket.onmessage] *)
Definition onmessage (data : Ws.PushEvent) (st : State) : State :=
  setClients (mergePush data <$> clients st) st.

(** The detail of a caught error, or the fallback text. *)
Definition detailOr (error : Http.AxiosError) (fallback : string) : string :=
  Js.or_default (Http.response_detail error) fallback.

Section Requests.

Context {A : Type}.
Variable retries : nat.
Variable delay : N.
Variable req : Http.Request.
Variable answer : Http.History -> Http.Response A.

(** The body of the [for] loop of [fetchWithRetry], over the values [i]
    still to come.  [None] is the [undefined] returned when the loop
    runs out. *)
Fixpoint attempts (indices : list nat) (st : State) : option (Http.Response A) * State :=
  match indices with
  | [] => (None, st)
  | i :: rest =>
      let st1 := record (Http.Net req) st in
      match answer (history st) with
      | Http.Resolved data => (Some (Http.Resolved data), st1)
      | Http.Rejected error =>
          if (i <? retries - 1)%nat
             && bool_decide (Http.code error = Some "ERR_NETWORK")
          then attempts rest (record (Http.Sleep delay) st1)
          else (Some (Http.Rejected error), st1)
      end
  end.

End Requests.

(** [fetchWithRetry(url, options)] with its default [retries = 3] and
    [delay = 1000]. *)
Definition fetchWithRetry {A} (req : Http.Request)
  (answer : Http.History -> Http.Response A) (st : State)
  : option (Http.Response A) * State :=
  attempts 3 1000%N req answer (seq 0 3) st.

Section Panel.

Variable world : Http.World.

Definition rowOf (client : Http.ClientRecord) : ClientRow :=
  mkClientRow (Http.rec_id client) (Http.rec_id client)
    (Http.rec_name client) (Http.rec_email client)
    (Http.rec_unique_url client) (Http.rec_status client)
    (Http.rec_connected_phone client).

Definition msgNoClients : string := "No se pudieron cargar los clientes".

(** [fetchClients].  An [undefined] response makes [response.data]
    raise, which the same [catch] handles. *)
Definition fetchClients (st : State) : State :=
  let st1 := setError None (setLoadingState "fetchClients" true st) in
  let '(response, st2) := fetchWithRetry Http.GetClients (Http.clients world) st1 in
  setLoadingState "fetchClients" false
    match response with
    | Some (Http.Resolved data) => setClients (rowOf <$> default [] data) st2
    | Some (Http.Rejected error) => setError (Some (detailOr error msgNoClients)) st2
    | None => setError (Some msgNoClients) st2
    end.

Definition verb (is_active : bool) : string :=
  if is_active then "activar" else "desactivar".
Definition participle (is_active : bool) : string :=
  if is_active then "activado" else "desactivado".
Definition actionOf (is_active : bool) : Http.Action :=
  if is_active then Http.connect else Http.disconnect.

(** [toggleClient] *)
Definition toggleClient (instance_id : string) (is_active : bool) (st : State) : State :=
  let key := "toggle-" +:+ instance_id in
  let st1 := setError None (setLoadingState key true st) in
  let '(response, st2) :=
    fetchWithRetry (Http.PostToggle instance_id (actionOf is_active))
      (fun h => Http.toggle world h instance_id (actionOf is_active)) st1 in
  setLoadingState key false
    match response with
    | Some (Http.Rejected error) =>
        fetchClients
          (setError
             (Some (detailOr error ("No se pudo " +:+ verb is_active +:+ " el cliente")))
             st2)
    | _ =>
        notifySuccess ("Cliente " +:+ participle is_active +:+ " exitosamente!")
          (fetchClients st2)
    end.

Definition msgDeleted : string := "Cliente eliminado exitosamente!".
Definition msgNotDeleted : string := "No se pudo eliminar el cliente".

(** [deleteClient] *)
Definition deleteClient (iid clientName : string) (st : State) : State :=
  let st0 := record (Http.Asked (Http.ConfirmDelete clientName)) st in
  if negb (Http.confirm world (history st) (Http.ConfirmDelete clientName)) then st0
  else
    let key := "delete-" +:+ iid in
    let st1 := setError None (setLoadingState key true st0) in
    let '(response, st2) :=
      fetchWithRetry (Http.DeleteClient iid)
        (fun h => Http.delete world h iid) st1 in
    setLoadingState key false
      match response with
      | Some (Http.Rejected error) =>
          fetchClients (setError (Some (detailOr error msgNotDeleted)) st2)
      | _ =>
          notifySuccess msgDeleted
            (setClients
               (filter (fun client => instance_id client ≠ iid) (clients st2))
               st2)
      end.

Definition msgBadEmail : string :=
  "Por favor, ingrese un correo electrónico válido".
Definition msgEmailUpdated : string := "Email actualizado exitosamente!".
Definition msgEmailNotUpdated : string := "No se pudo actualizar el email".

(** [updateClientEmail].  [editingClient] and [newEmail] are the values
    of the render that installed the handler. *)
Definition updateClientEmail (st : State) : State :=
  match editingClient st with
  | Some editing =>
      if negb (Regex.matches Regex.email (newEmail st)) then
        setError (Some msgBadEmail) st
      else
        let key := "updateEmail-" +:+ instance_id editing in
        let st1 := setError None (setLoadingState key true st) in
        let '(response, st2) :=
          fetchWithRetry (Http.PutEmail (instance_id editing) (newEmail st))
            (fun h => Http.put_email world h (instance_id editing) (newEmail st))
            st1 in
        setLoadingState key false
          match response with
          | Some (Http.Rejected error) =>
              setError (Some (detailOr error msgEmailNotUpdated)) st2
          | _ =>
              notifySuccess msgEmailUpdated
                (fetchClients
                   (setNewEmail ""
                      (setEditingClient None (setShowEditEmailForm false st2))))
          end
  | None => setError (Some msgBadEmail) st
  end.

Definition msgNotResent : string := "No se pudo reenviar el email".

(** [resendEmail] *)
Definition resendEmail (instance_id clientEmail : string) (st : State) : State :=
  let st0 := record (Http.Asked (Http.ConfirmResend clientEmail)) st in
  if negb (Http.confirm world (history st) (Http.ConfirmResend clientEmail)) then st0
  else
    let key := "resendEmail-" +:+ instance_id in
    let st1 := setError None (setLoadingState key true st0) in
    let '(response, st2) :=
      fetchWithRetry (Http.PostResendEmail instance_id)
        (fun h => Http.resend_email world h instance_id) st1 in
    setLoadingState key false
      match response with
      | Some (Http.Rejected error) =>
          setError (Some (detailOr error msgNotResent)) st2
      | _ =>
          notifySuccess ("Email reenviado exitosamente a " +:+ clientEmail) st2
      end.

End Panel.

(** *** The create-client form

    [validateForm], [handleSubmit] and the modal read the identifier
    [formData] and call [setFormData].  What an identifier evaluates to
    depends on the bindings in scope, so these definitions take the scope
    as a parameter; [bindings] below is the scope the file gives them. *)

Inductive JsError :=
| ReferenceError (ident : string)
| RequestFailed (error : Http.AxiosError)
| TypeError.

Inductive Outcome (A : Type) :=
| Returned (v : A) (st : State)
| Threw (e : JsError) (st : State).
Arguments Returned {A} v st.
Arguments Threw {A} e st.

Definition M (A : Type) : Type := State -> Outcome A.

Definition ret {A} (v : A) : M A := fun st => Returned v st.
Definition throw {A} (e : JsError) : M A := fun st => Threw e st.
Definition bind {A B} (m : M A) (k : A -> M B) : M B :=
  fun st =>
    match m st with
    | Returned v st' => k v st'
    | Threw e st' => Threw e st'
    end.
Definition exec (f : State -> State) : M unit := fun st => Returned tt (f st).

(** [try { body } catch (error) { handler error }] *)
Definition tryCatch {A} (body : M A) (handler : JsError -> M A) : M A :=
  fun st =>
    match body st with
    | Returned v st' => Returned v st'
    | Threw e st' => handler e st'
    end.

(** [... finally { cleanup }] *)
Definition finally {A} (body : M A) (cleanup : State -> State) : M A :=
  fun st =>
    match body st with
    | Returned v st' => Returned v (cleanup st')
    | Threw e st' => Threw e (cleanup st')
    end.

Notation "x <- m ;; k" := (bind m (fun x => k))
  (at level 100, m at next level, right associativity, only parsing).
Notation "m ;;; k" := (bind m (fun _ => k))
  (at level 100, right associativity, only parsing).

(** The state left behind, whichever way the operation ended. *)
Definition stateOf {A} (o : Outcome A) : State :=
  match o with
  | Returned _ st => st
  | Threw _ st => st
  end.

(** [error.response?.data?.detail] of whatever was caught. *)
Definition detailOf (e : JsError) : option string :=
  match e with
  | RequestFailed error => Http.response_detail error
  | _ => None
  end.

Inductive View :=
| ErrorView (msg : string)
| LoadingView
| MainView (addClientModal : option Http.NewClient).

Section CreateClient.

Variable world : Http.World.
Variable scope : list string.

(** Evaluation of the identifier [x], whose binding (if there is one)
    holds [v]. *)
Definition identifier {A} (x : string) (v : A) : M A :=
  if bool_decide (x ∈ scope) then ret v else throw (ReferenceError x).

Definition msgNameTooShort : string :=
  "El nombre debe tener al menos 3 caracteres".
Definition msgNoApiKey : string := "La clave de API de OpenAI es requerida".
Definition msgNoAssistant : string :=
  "El ID del asistente de OpenAI es requerido".
Definition msgCreated : string :=
  "Cliente creado exitosamente! Email enviado.".
Definition msgNotCreated : string :=
  "Error al crear el cliente. Por favor, verifica los datos e intenta de nuevo.".

(** [validateForm]; [form] is what the form fields hold. *)
Definition validateForm (form : Http.NewClient) : M bool :=
  formData <- identifier "formData" form ;;
  if negb (Regex.matches Regex.email (Http.new_email formData)) then
    exec (setFormError (Some msgBadEmail)) ;;; ret false
  else
    formData <- identifier "formData" form ;;
    if (Js.length (Http.new_name formData) <? 3)%nat then
      exec (setFormError (Some msgNameTooShort)) ;;; ret false
    else
      formData <- identifier "formData" form ;;
      if String.eqb (Http.openai_api_key formData) "" then
        exec (setFormError (Some msgNoApiKey)) ;;; ret false
      else
        formData <- identifier "formData" form ;;
        if String.eqb (Http.openai_assistant_id formData) "" then
          exec (setFormError (Some msgNoAssistant)) ;;; ret false
        else ret true.

(** [await fetchWithRetry(url, { method: 'POST', data: formData })] *)
Definition postClient (form : Http.NewClient) : M unit :=
  formData <- identifier "formData" form ;;
  fun st =>
    match fetchWithRetry (Http.PostClients formData)
            (fun h => Http.create world h formData) st with
    | (Some (Http.Rejected error), st') => Threw (RequestFailed error) st'
    | (_, st') => Returned tt st'
    end.

(** [handleSubmit] *)
Definition handleSubmit (form : Http.NewClient) : M unit :=
  exec (setFormError None) ;;;
  valid <- validateForm form ;;
  if negb valid then ret tt
  else
    exec (setLoadingState "createClient" true) ;;;
    finally
      (tryCatch
         (postClient form ;;;
          identifier "setFormData" tt ;;;
          exec (setShowAddForm false) ;;;
          exec (fetchClients world) ;;;
          exec (notifySuccess msgCreated))
         (fun error =>
            exec (setFormError (Some (Js.or_default (detailOf error) msgNotCreated)))))
      (setLoadingState "createClient" false).

(** The part of the component's render that decides whether the
    add-client modal is drawn, and with which field values. *)
Definition render (form : Http.NewClient) : M View :=
  fun st =>
    let fetching := bool_decide (loadingStates st !! "fetchClients" = Some true) in
    if Js.truthy (error st) && negb fetching then
      Returned (ErrorView (default "" (error st))) st
    else if fetching && bool_decide (clients st = []) then
      Returned LoadingView st
    else if showAddForm st then
      (formData <- identifier "formData" form ;; ret (MainView (Some formData))) st
    else Returned (MainView None) st.

End CreateClient.

(** Every identifier the module and the component body bind: the imports,
    the [useState] pairs, and the constants and functions of the body, in
    source order. *)
Definition bindings : list string :=
  [ "React"; "useState"; "useEffect"; "useCallback"; "useRef"; "axios";
    "AlertCircle"; "CheckCircle"; "User"; "Mail"; "Bot"; "Trash2"; "Power";
    "PowerOff"; "Plus"; "Edit"; "Send"; "MessageSquare"; "List"; "Key";
    "AdminPanel";
    "clients"; "setClients"; "loadingStates"; "setLoadingStates";
    "error"; "setError"; "formError"; "setFormError";
    "successMessage"; "setSuccessMessage"; "showAddForm"; "setShowAddForm";
    "showEditEmailForm"; "setShowEditEmailForm"; "showChats"; "setShowChats";
    "showQR"; "setShowQR"; "showThreads"; "setShowThreads";
    "editingClient"; "setEditingClient"; "newEmail"; "setNewEmail";
    "chats"; "setChats"; "threads"; "setThreads"; "qrData"; "setQrData";
    "backendUrl"; "useDebounce"; "fetchWithRetry"; "fetchClients";
    "fetchChats"; "fetchThreads"; "fetchQR"; "validateForm"; "handleSubmit";
    "toggleClient"; "deleteClient"; "updateClientEmail"; "resendEmail";
    "debouncedFetchChats"; "debouncedFetchThreads"; "debouncedFetchQR";
    "debouncedToggleClient"; "debouncedDeleteClient"; "debouncedResendEmail";
    "openEditEmailForm"; "getStatusVariant"; "getStatusIcon" ].

Definition initial : State :=
  mkState [] ∅ None None None false false None "" [].

End AdminPanel.

(** ** AdminPanel: how a row is drawn and edited *)

Module AdminRows.

Inductive Icon := CheckCircle | PowerOff | AlertCircle.

(** [getStatusVariant] *)
Definition getStatusVariant (status : string) : string :=
  if bool_decide (status = "open") || bool_decide (status = "active")
  then "bg-success text-white"
  else if bool_decide (status = "close") || bool_decide (status = "inactive")
  then "bg-danger text-white"
  else if bool_decide (status = "connecting")
          || bool_decide (status = "awaiting_scan")
  then "bg-warning text-dark"
  else "bg-secondary text-white".

(** [getStatusIcon] *)
Definition getStatusIcon (status : string) : Icon :=
  if bool_decide (status = "open") || bool_decide (status = "active")
  then CheckCircle
  else if bool_decide (status = "close") || bool_decide (status = "inactive")
  then PowerOff
  else AlertCircle.

(** The test of the row's action column:
    [client.status === 'open' || client.status === 'active']. *)
Definition shownActive (client : AdminPanel.ClientRow) : bool :=
  bool_decide (AdminPanel.status client = "open")
  || bool_decide (AdminPanel.status client = "active").

(** [loadingStates[`toggle-${client.instance_id}`]], as a condition. *)
Definition toggling (st : AdminPanel.State) (client : AdminPanel.ClientRow) : bool :=
  default false
    (AdminPanel.loadingStates st !! ("toggle-" +:+ AdminPanel.instance_id client)).

(** The toggle button of a row: its label, whether it is disabled, and
    the [is_active] argument its click passes to the debounced
    [toggleClient]. *)
Record ToggleButton := mkToggleButton {
  label : string;
  disabled : bool;
  argument : bool
}.

Definition toggleButton (st : AdminPanel.State) (client : AdminPanel.ClientRow)
  : ToggleButton :=
  if shownActive client then
    mkToggleButton (if toggling st client then "Procesando..." else "Desactivar")
      (toggling st client) false
  else
    mkToggleButton (if toggling st client then "Procesando..." else "Activar")
      (toggling st client) true.

(** The click on that button, once the debounce delay has passed. *)
Definition clickToggle (world : Http.World) (client : AdminPanel.ClientRow)
  (st : AdminPanel.State) : AdminPanel.State :=
  AdminPanel.toggleClient world (AdminPanel.instance_id client)
    (argument (toggleButton st client)) st.

(** The WhatsApp column: the phone, or [No conectado]. *)
Definition phoneCell (client : AdminPanel.ClientRow) : string :=
  Js.or_default (AdminPanel.connected_phone client) "No conectado".

(** The three counters above the table. *)
Definition totalClients (st : AdminPanel.State) : nat :=
  length (AdminPanel.clients st).
Definition connectedClients (st : AdminPanel.State) : nat :=
  length (filter (fun c => shownActive c = true) (AdminPanel.clients st)).
Definition whatsappConnected (st : AdminPanel.State) : nat :=
  length (filter (fun c => Js.truthy (AdminPanel.connected_phone c) = true)
                 (AdminPanel.clients st)).

(** [openEditEmailForm] *)
Definition openEditEmailForm (client : AdminPanel.ClientRow)
  (st : AdminPanel.State) : AdminPanel.State :=
  AdminPanel.setShowEditEmailForm true
    (AdminPanel.setNewEmail (AdminPanel.email client)
       (AdminPanel.setEditingClient (Some client) st)).

(** Typing in the new-address field: [onChange] calls [setNewEmail]. *)
Definition typeNewEmail (value : string) (st : AdminPanel.State) : AdminPanel.State :=
  AdminPanel.setNewEmail value st.

End AdminRows.

(** ** Badge *)

Module Badge.

Definition badgeVariants : gmap string string :=
  list_to_map
    [ ("default", "badge bg-primary text-white");
      ("secondary", "badge bg-secondary text-white");
      ("destructive", "badge bg-danger text-white");
      ("outline", "badge border border-dark text-dark") ].

(** [badgeVariants] is an object literal, so a lookup that misses its own
    keys continues in [Object.prototype]. *)
Definition objectPrototype : list string :=
  [ "constructor"; "__defineGetter__"; "__defineSetter__"; "hasOwnProperty";
    "__lookupGetter__"; "__lookupSetter__"; "isPrototypeOf";
    "propertyIsEnumerable"; "toString"; "valueOf"; "__proto__";
    "toLocaleString" ].

Inductive Property :=
| Own (classes : string)
| Inherited (name : string).

(** [badgeVariants[variant]] *)
Definition get (variant : string) : option Property :=
  match badgeVariants !! variant with
  | Some classes => Some (Own classes)
  | None =>
      if bool_decide (variant ∈ objectPrototype) then Some (Inherited variant)
      else None
  end.

(** The [className] of the [span]: a text, or the printed form of an
    inherited property followed by a text. *)
Inductive ClassName :=
| Text (s : string)
| TextOf (inherited : string) (rest : string).

(** [Badge]; [variant] defaults to ["default"] when it is not passed. *)
Definition Badge (className variant : option string) : ClassName :=
  let rest := " " +:+ Js.or_default className "" in
  match get (default "default" variant) with
  | Some (Own classes) =>
      Text (Js.or_default (Some classes) "badge bg-primary text-white" +:+ rest)
  | Some (Inherited name) => TextOf name rest
  | None => Text ("badge bg-primary text-white" +:+ rest)
  end.

End Badge.

(** ** ConnectionStatus *)

Module ConnectionStatus.

Record User := mkUser {
  name : string;
  phone : option string
}.

Record View := mkView {
  dot : string;
  statusText : string;
  statusClass : string;
  assistantDot : string;
  assistantText : string;
  assistantClass : string;
  pendingBadge : option Badge.ClassName
}.

Definition isConnected (status : string) : bool := bool_decide (status = "open").
Definition isConnecting (status : string) : bool :=
  bool_decide (status = "connecting").
Definition isPending (status : string) : bool := bool_decide (status = "pending").
Definition isDisconnected (status : string) : bool :=
  negb (isConnected status) && negb (isConnecting status)
  && negb (isPending status).

(** [connectedUser?.phone || 'Número desconocido'] *)
Definition phoneOf (connectedUser : option User) : string :=
  Js.or_default (connectedUser ≫= phone) "Número desconocido".

Definition ConnectionStatus (status : string) (connectedUser : option User) : View :=
  mkView
    (if isConnected status then "bg-success"
     else if isConnecting status then "bg-warning"
     else if isPending status then "bg-warning" else "bg-danger")
    (if isConnected status then "Conectado (" +:+ phoneOf connectedUser +:+ ")"
     else if isConnecting status then "Conectando..."
     else if isPending status
     then "Pendiente de activación (escanea el código QR)"
     else "Desconectado")
    (if isConnected status then "text-success"
     else if isConnecting status then "text-warning"
     else if isPending status then "text-warning" else "text-danger")
    (if isConnected status then "bg-success" else "bg-danger")
    (if isConnected status then "Activo"
     else if isPending status then "Pendiente" else "Inactivo")
    (if isConnected status then "text-success" else "text-danger")
    (if isPending status then Some (Badge.Badge None (Some "warning")) else None).

End ConnectionStatus.

(** ** QRCodeDisplay *)

Module QRCodeDisplay.

Inductive View :=
| Closed (msg : string)
| Generating
| Scan (heading : string) (src : string)
| Unavailable (msg : string).

Definition msgClosed : string :=
  "La conexión a WhatsApp está cerrada. Intenta actualizar el estado.".
Definition msgUnavailable : string :=
  "No se puede mostrar el código QR en este estado.".
Definition headingPending : string :=
  "Escanea este código para activar tu cuenta".
Definition headingOther : string :=
  "Escanea este código para activar tu asistente".

(** [status === 'connecting' || status === 'pending' || status === 'disconnected'] *)
Definition scannable (status : string) : bool :=
  bool_decide (status = "connecting") || bool_decide (status = "pending")
  || bool_decide (status = "disconnected").

Definition QRCodeDisplay (qrCode : option string) (status : string)
  (errorMessage : option string) : View :=
  if bool_decide (status = "close") then
    Closed (Js.or_default errorMessage msgClosed)
  else if scannable status && negb (Js.truthy qrCode) then Generating
  else if scannable status && Js.truthy qrCode then
    Scan (if bool_decide (status = "pending") then headingPending
          else headingOther)
         (default "" qrCode)
  else Unavailable (Js.or_default errorMessage msgUnavailable).

End QRCodeDisplay.

(** ** AssistantInfo *)

Module AssistantInfo.

Inductive Icon := Info | Smartphone | Wifi | WifiOff.

Record StatusMessage := mkStatusMessage {
  icon : Icon;
  title : string;
  message : string;
  alertClass : string
}.

(** [getStatusMessage], over the two props of the component;
    [clientStatus] is [None] when the prop is not passed. *)
Definition getStatusMessage (status : string) (clientStatus : option string)
  : StatusMessage :=
  if bool_decide (clientStatus = Some "pending") then
    mkStatusMessage Info "Servicio Pendiente"
      "El servicio está en estado pendiente. Escanea el código QR para activarlo."
      "alert-warning text-yellow-800 bg-yellow-50 border-yellow-200"
  else if bool_decide (status = "connecting") then
    mkStatusMessage Smartphone "Listo para Conectar"
      "Escanea el código QR para activar tu asistente y comenzar a responder mensajes automáticamente."
      "alert-info text-blue-800 bg-blue-50 border-blue-200"
  else if bool_decide (status = "open") then
    mkStatusMessage Wifi "Asistente Activo"
      "Tu asistente está conectado y respondiendo mensajes en WhatsApp 24/7."
      "alert-success text-green-800 bg-green-50 border-green-200"
  else if bool_decide (status = "close") then
    mkStatusMessage WifiOff "Conexión Cerrada"
      "La conexión a WhatsApp está cerrada. Intenta actualizar el estado o contacta a soporte (contacto@tiks.cl)."
      "alert-danger text-red-800 bg-red-50 border-red-200"
  else
    mkStatusMessage Info "Personalización"
      "Puedes personalizar las respuestas del asistente para que se adapte a tu negocio y estilo de comunicación."
      "alert-info text-blue-800 bg-blue-50 border-blue-200".

End AssistantInfo.

(** ** What ClientLanding draws

    The [return] of the component, reduced to the parts that depend on
    the state: the heading, the error banner, the status display, the
    alert under it, the QR panel or the connected card, and the notice of
    [AssistantInfo]. *)

Module ClientLandingView.

Import ClientLanding.

Inductive StatusAlert := AssistantActive | ConnectingWhatsApp | ConnectionClosed | ReadyToConnect.

Record Button := mkButton {
  disabled : bool;
  label : string
}.

Inductive Panel :=
| QrPanel (display : QRCodeDisplay.View)
| ConnectedCard (unlink : Button).

Record Main := mkMain {
  heading : string;
  errorBanner : option string;
  connection : ConnectionStatus.View;
  alert : StatusAlert;
  panel : Panel;
  info : AssistantInfo.StatusMessage
}.

Inductive View :=
| Loading
| Page (main : Main).

(** [clientData?.whatsapp?.status] *)
Definition statusOf (st : State) : option string :=
  status ∘ whatsapp <$> clientData st.

(** [clientData?.whatsapp?.status || 'disconnected'] *)
Definition shownStatus (st : State) : string :=
  Js.or_default (statusOf st) "disconnected".

(** [clientData?.whatsapp?.connected || clientData?.whatsapp?.status === 'open'] *)
Definition connectedOrOpen (st : State) : bool :=
  default false (connected ∘ whatsapp <$> clientData st)
  || bool_decide (statusOf st = Some "open").

Definition connectedUser (st : State) : ConnectionStatus.User :=
  ConnectionStatus.mkUser
    (Js.or_default (name ∘ client <$> clientData st) "Desconocido")
    (Some (Js.or_default (clientData st ≫= connected_phone ∘ whatsapp)
             "Número desconocido")).

Definition render (st : State) : View :=
  if loading st then Loading
  else
    Page (mkMain
      (Js.or_default (name ∘ client <$> clientData st) "Cargando...")
      (if Js.truthy (errorMessage st) then errorMessage st else None)
      (ConnectionStatus.ConnectionStatus (shownStatus st) (Some (connectedUser st)))
      (if connectedOrOpen st then AssistantActive
       else if bool_decide (statusOf st = Some "connecting") then ConnectingWhatsApp
       else if bool_decide (statusOf st = Some "close") then ConnectionClosed
       else ReadyToConnect)
      (if connectedOrOpen st then
         ConnectedCard
           (mkButton (refreshing st || negb (Js.truthy (currentClientId st)))
              (if refreshing st then "Desvinculando..."
               else "Desvincular WhatsApp"))
       else QrPanel (QRCodeDisplay.QRCodeDisplay (qrCode st) (shownStatus st) None))
      (AssistantInfo.getStatusMessage (shownStatus st) None)).

End ClientLandingView.

(** ** What QRAssistantPage draws

    The four screens of the component and, of the main one, the parts
    that depend on the state. *)

Module QRAssistantPageView.

Import QRAssistantPage.

Record Button := mkButton {
  disabled : bool;
  label : string
}.

Inductive Panel :=
| ConnectedCard (note : string) (disconnect : Button)
| QrPanel (display : QRCodeDisplay.View) (refresh : Button).

Record Main := mkMain {
  connection : ConnectionStatus.View;
  errorBanner : option string;
  panel : Panel;
  info : AssistantInfo.StatusMessage
}.

Inductive View :=
| InvalidLink
| Loading
| ErrorScreen (msg : string) (retry : Button)
| Page (main : Main).

Definition msgPendingClient : string :=
  "El cliente está en estado pendiente. Escanea el código QR para activar.".

(** The note of the connected card.  The [whatsapp] object this page
    builds has neither [globalPause] nor [pausedCount], so the test is
    never true and the count is always the fallback 0. *)
Definition noteConnected : string :=
  "Responderá automáticamente a TODOS los mensajes de WhatsApp. Conversaciones pausadas: 0".

(** [clientData?.whatsapp?.status || 'disconnected'] *)
Definition shownStatus (st : State) : string :=
  Js.or_default (wa_status ∘ whatsapp <$> clientData st) "disconnected".

(** [clientData?.client?.status] *)
Definition clientStatus (st : State) : option string :=
  status ∘ client <$> clientData st.

Definition connectedUser (st : State) : ConnectionStatus.User :=
  ConnectionStatus.mkUser
    (Js.or_default (name ∘ client <$> clientData st) "Desconocido")
    (Some (Js.or_default (clientData st ≫= connected_phone ∘ whatsapp)
             "Número desconocido")).

Definition render (unique_url : option string) (st : State) : View :=
  if negb (Js.truthy unique_url) then InvalidLink
  else if loading st then Loading
  else if Js.truthy (errorMessage st)
          && bool_decide (clientData st = None) then
    ErrorScreen (default "" (errorMessage st))
      (mkButton (refreshing st)
         (if refreshing st then "Verificando..." else "Intentar de nuevo"))
  else
    Page (mkMain
      (ConnectionStatus.ConnectionStatus (shownStatus st) (Some (connectedUser st)))
      (if Js.truthy (errorMessage st) then errorMessage st else None)
      (if isConnected (clientData st) then
         ConnectedCard noteConnected
           (mkButton (refreshing st)
              (if refreshing st then "Desconectando..."
               else "Desconectar WhatsApp"))
       else
         QrPanel
           (QRCodeDisplay.QRCodeDisplay (qrCode st) (shownStatus st)
              (if bool_decide (clientStatus st = Some "pending")
               then Some msgPendingClient else errorMessage st))
           (mkButton (refreshing st)
              (if refreshing st then "Verificando..." else "Actualizar Estado")))
      (AssistantInfo.getStatusMessage (shownStatus st)
         (Some (Js.or_default (clientStatus st) "pending")))).

End QRAssistantPageView.

(** ** useDebounce

    [timeoutRef.current] holds the timer set by the last call: the
    arguments it will pass to [fn] and the time remaining.  The events of the
    hook's life are the calls of the debounced function, the passing of
    time, and the timer going off, which can only happen once its time is
    up and which a later call prevents by [clearTimeout]. *)

Module Debounce.

Section Hook.

Context {A : Type}.
Variable delay : N.

Definition Ref : Type := option (A * N).

Inductive Event :=
| Call (args : A)
| Elapse (ms : N)
| Fire.

(** One event: the new [timeoutRef] and the arguments [fn] was called
    with, if it was.  [None] when the event cannot happen. *)
Definition step (ref : Ref) (e : Event) : option (Ref * option A) :=
  match e with
  | Call args => Some (Some (args, delay), None)
  | Elapse ms =>
      Some ((fun timer => (timer.1, (timer.2 - ms)%N)) <$> ref, None)
  | Fire =>
      match ref with
      | Some (args, remaining) =>
          if (remaining =? 0)%N then Some (None, Some args) else None
      | None => None
      end
  end.

(** A sequence of events: the final [timeoutRef] and the calls of [fn],
    in order. *)
Fixpoint run (ref : Ref) (events : list Event) : option (Ref * list A) :=
  match events with
  | [] => Some (ref, [])
  | e :: rest =>
      match step ref e with
      | Some (ref', out) =>
          match run ref' rest with
          | Some (ref'', outs) => Some (ref'', option_list out ++ outs)
          | None => None
          end
      | None => None
      end
  end.

Definition isCall (e : Event) : bool :=
  match e with Call _ => true | _ => false end.

End Hook.

Arguments Ref A : clear implicits.
Arguments Event A : clear implicits.

End Debounce.

(** ** The debounced buttons of a row

    [debouncedToggleClient = useDebounce(toggleClient, 300)] is one
    function, and one timer, for all rows. *)

Module AdminClicks.

Definition debounceDelay : N := 300.

(** The click on the toggle button of a row, as the panel in state [st]
    draws it. *)
Definition toggleClick (st : AdminPanel.State) (client : AdminPanel.ClientRow)
  : Debounce.Event (string * bool)%type :=
  Debounce.Call
    (AdminPanel.instance_id client,
     AdminRows.argument (AdminRows.toggleButton st client)).

(** The calls of [toggleClient] that a sequence of clicks, waits and
    timer events leads to. *)
Definition debouncedToggleClient (events : list (Debounce.Event (string * bool)%type))
  : option (list (string * bool)) :=
  snd <$> Debounce.run debounceDelay None events.

End AdminClicks.

(** ** The QR modal of the admin panel

    [fetchQR] and the two state cells it writes, [qrData] and [showQR],
    next to the state of the panel. *)

Module AdminQr.

Record QrData := mkQrData {
  qr : option string;
  error : option string
}.

Record State := mkState {
  panel : AdminPanel.State;
  qrData : QrData;
  showQR : option string
}.

Definition msgNoQr : string := "No se pudo cargar el código QR".

Definition initial : State :=
  mkState AdminPanel.initial (mkQrData None None) None.

Section Panel.

Variable world : Http.World.


End Panel.



End AdminQr.

(** * Vocabulary of the properties *)

(** The invariant of the connection state: no QR code is held while the
    status is [open]. *)
Definition qrClearedWhenOpen (st : ClientLanding.State) : Prop :=
  forall cd, ClientLanding.clientData st = Some cd ->
    ClientLanding.status (ClientLanding.whatsapp cd) = "open" ->
    ClientLanding.qrCode st = None.

(** Repeated rounds of events, [k] times over. *)
Definition rounds (k : nat) (round : list Http.Event) : list Http.Event :=
  mjoin (replicate k round).

(** One failed attempt followed by the wait before the next. *)
Definition qrRound (instance_id : string) : list Http.Event :=
  [Http.Net (Http.GetQr instance_id); Http.Sleep 2000%N].

(** One pass of the landing page through its three requests, and the
    wait that follows a failed QR step. *)
Definition landingPass (url : string) (c : Http.LandingData) : list Http.Event :=
  [Http.Net (Http.GetLanding url); Http.Net (Http.GetStatus (Http.id c));
   Http.Net (Http.GetQr (Http.id c))].

Definition landingRound (url : string) (c : Http.LandingData) : list Http.Event :=
  landingPass url c ++ [Http.Sleep 2000%N].

(** What a request costs when the backend turns it down every time:
    one attempt, or three with a second between them when the failure is
    a network error. *)
Definition failedAttempts (req : Http.Request) (err : Http.AxiosError)
  : list Http.Event :=
  if bool_decide (Http.code err = Some "ERR_NETWORK") then
    [Http.Net req; Http.Sleep 1000%N; Http.Net req; Http.Sleep 1000%N;
     Http.Net req]
  else [Http.Net req].

(** An admin panel state with further events in its history. *)
Definition after (events : list Http.Event) (st : AdminPanel.State)
  : AdminPanel.State :=
  AdminPanel.mkState (AdminPanel.clients st) (AdminPanel.loadingStates st)
    (AdminPanel.error st) (AdminPanel.formError st)
    (AdminPanel.successMessage st) (AdminPanel.showAddForm st)
    (AdminPanel.showEditEmailForm st) (AdminPanel.editingClient st)
    (AdminPanel.newEmail st) (AdminPanel.history st ++ events).

(** How a request ends that is awaited through [fetchWithRetry] when the
    history is [h]: the answer that ended the attempts. *)
Definition awaited {A} (req : Http.Request)
  (answer : Http.History -> Http.Response A) (h : Http.History)
  : option (Http.Response A) :=
  (AdminPanel.fetchWithRetry req answer (after h AdminPanel.initial)).1.

Arguments awaited {A} req answer h : simpl never.

(** What the four checks of [validateForm] decide, for a form that can be
    read. *)
Definition firstComplaint (form : Http.NewClient) : option string :=
  if negb (Regex.matches Regex.email (Http.new_email form)) then
    Some AdminPanel.msgBadEmail
  else if (Js.length (Http.new_name form) <? 3)%nat then
    Some AdminPanel.msgNameTooShort
  else if String.eqb (Http.openai_api_key form) "" then
    Some AdminPanel.msgNoApiKey
  else if String.eqb (Http.openai_assistant_id form) "" then
    Some AdminPanel.msgNoAssistant
  else None.

(** * Sample states and backends *)

(** The landing page, looking at client [c1] while the QR code is shown. *)
Definition pairing : ClientLanding.State :=
  ClientLanding.mkState
    (Some (ClientLanding.mkClientData
             (ClientLanding.mkClient "c1" "Acme" "acme@example.cl" 0 0 false)
             (ClientLanding.mkWhatsapp false "connecting" (Some "56911112222"))))
    (Some "data:image/png;base64,AAAA") false None false 0 [].

(** The landing page of a paired client, before a refresh. *)
Definition linked : ClientLanding.State :=
  ClientLanding.mkState
    (Some (ClientLanding.mkClientData
             (ClientLanding.mkClient "c1" "Acme" "acme@example.cl" 12 0 false)
             (ClientLanding.mkWhatsapp true "open" (Some "56911112222"))))
    None false None false 0 [].

(** The fleet view with two rows, and an event for the first of them. *)
Definition fleet : AdminPanel.State :=
  AdminPanel.mkState
    [ AdminPanel.mkClientRow "c1" "c1" "Acme" "acme@example.cl" "acme-law"
        "open" (Some "56911112222");
      AdminPanel.mkClientRow "c2" "c2" "Bravo" "bravo@example.cl" "bravo"
        "connecting" None ]
    ∅ None None None false false None "" [].

(** The add-client modal was opened from the empty panel. *)
Definition addingClient : AdminPanel.State :=
  AdminPanel.setShowAddForm true AdminPanel.initial.

Definition acmeForm : Http.NewClient :=
  Http.mkNewClient "Bufete Legal XYZ" "legal@example.cl" "sk-test" "asst_1".

(** A backend that knows client [acme-law] as [c1], reports it as
    [connecting], and whose QR endpoint fails with [qrFailure] on the first
    [failures] requests it sees. *)
Definition acme : Http.LandingData :=
  Http.mkLandingData "c1" "Acme" "acme@example.cl" "pending" None None None
    false None.

Definition instanceNotReady : Http.AxiosError :=
  Http.mkAxiosError (Some 500%N) (Some "Instance c1 does not exist") None
    (Some "Request failed with status code 500").

Definition gatewayDown : Http.AxiosError :=
  Http.mkAxiosError (Some 502%N) (Some "Bad gateway") None
    (Some "Request failed with status code 502").

Definition backend (qrFailure : Http.AxiosError) (failures : option nat) : Http.World :=
  Http.mkWorld
    (fun _ _ => Http.Resolved acme)
    (fun _ _ => Http.Resolved (Http.mkStatusData "connecting"))
    (fun h _ =>
       match failures with
       | Some n =>
           if decide (Http.qrRequests h < n) then Http.Rejected qrFailure
           else Http.Resolved (Http.mkQrData (Some "data:image/png;base64,BBBB") None None None)
       | None => Http.Rejected qrFailure
       end)
    (fun _ _ _ => Http.Resolved tt)
    (fun _ => Http.Resolved (Some []))
    (fun _ _ => Http.Resolved tt)
    (fun _ _ => Http.Resolved tt)
    (fun _ _ _ => Http.Resolved tt)
    (fun _ _ => Http.Resolved tt)
    (fun _ _ => true).

(** A backend that does not know the slug. *)
Definition notFound : Http.AxiosError :=
  Http.mkAxiosError (Some 404%N) (Some "Client not found") None
    (Some "Request failed with status code 404").

Definition nowhere : Http.World :=
  Http.mkWorld
    (fun _ _ => Http.Rejected notFound)
    (fun _ _ => Http.Rejected notFound)
    (fun _ _ => Http.Rejected notFound)
    (fun _ _ _ => Http.Rejected notFound)
    (fun _ => Http.Rejected notFound)
    (fun _ _ => Http.Rejected notFound)
    (fun _ _ => Http.Rejected notFound)
    (fun _ _ _ => Http.Rejected notFound)
    (fun _ _ => Http.Rejected notFound)
    (fun _ _ => false).

(** A backend whose QR endpoint answers every request, with no code and
    the missing-instance message in the body of the answer. *)
Definition notReadyInBody : Http.World :=
  Http.mkWorld
    (fun _ _ => Http.Resolved acme)
    (fun _ _ => Http.Resolved (Http.mkStatusData "connecting"))
    (fun _ _ =>
       Http.Resolved
         (Http.mkQrData None (Some "Instance c1 does not exist") None None))
    (fun _ _ _ => Http.Resolved tt)
    (fun _ => Http.Resolved (Some []))
    (fun _ _ => Http.Resolved tt)
    (fun _ _ => Http.Resolved tt)
    (fun _ _ _ => Http.Resolved tt)
    (fun _ _ => Http.Resolved tt)
    (fun _ _ => true).

(** The two clients of [fleet], as the backend lists them. *)
Definition fleetRecords : list Http.ClientRecord :=
  [ Http.mkClientRecord "c1" "Acme" "acme@example.cl" "acme-law" "open"
      (Some "56911112222");
    Http.mkClientRecord "c2" "Bravo" "bravo@example.cl" "bravo" "connecting"
      None ].

(** A backend that lists them and turns every change down with a 502. *)
Definition frozen : Http.World :=
  Http.mkWorld
    (fun _ _ => Http.Rejected notFound)
    (fun _ _ => Http.Rejected notFound)
    (fun _ _ => Http.Rejected notFound)
    (fun _ _ _ => Http.Rejected gatewayDown)
    (fun _ => Http.Resolved (Some fleetRecords))
    (fun _ _ => Http.Rejected gatewayDown)
    (fun _ _ => Http.Rejected gatewayDown)
    (fun _ _ _ => Http.Rejected gatewayDown)
    (fun _ _ => Http.Rejected gatewayDown)
    (fun _ _ => true).

(** A backend behind a bad line: the first attempt at anything is lost
    in the network, later ones reach a gateway that is down; the list is
    empty. *)
Definition offline : Http.AxiosError :=
  Http.mkAxiosError None None (Some "ERR_NETWORK") (Some "Network Error").

Definition flaky : Http.World :=
  let answer {A} (h : Http.History) : Http.Response A :=
    if decide (length (Http.requests h) = 0) then Http.Rejected offline
    else Http.Rejected gatewayDown in
  Http.mkWorld
    (fun h _ => answer h)
    (fun h _ => answer h)
    (fun h _ => answer h)
    (fun h _ _ => answer h)
    (fun h => answer h)
    (fun h _ => answer h)
    (fun h _ => answer h)
    (fun h _ _ => answer h)
    (fun h _ => answer h)
    (fun _ _ => true).

(** A backend whose list is lost in the network at the first attempt and
    arrives at the second. *)
Definition recovering : Http.World :=
  Http.mkWorld
    (fun _ _ => Http.Rejected notFound)
    (fun _ _ => Http.Rejected notFound)
    (fun _ _ => Http.Rejected notFound)
    (fun _ _ _ => Http.Resolved tt)
    (fun h =>
       if decide (length (Http.requests h) = 0) then Http.Rejected offline
       else Http.Resolved (Some fleetRecords))
    (fun _ _ => Http.Resolved tt)
    (fun _ _ => Http.Resolved tt)
    (fun _ _ _ => Http.Resolved tt)
    (fun _ _ => Http.Resolved tt)
    (fun _ _ => true).

(** A user who declines every confirmation. *)
Definition declining (w : Http.World) : Http.World :=
  Http.mkWorld (Http.landing w) (Http.status_of w) (Http.qr_of w) (Http.toggle w)
    (Http.clients w) (Http.create w) (Http.delete w) (Http.put_email w)
    (Http.resend_email w) (fun _ _ => false).

(** A user who accepts every confirmation. *)
Definition accepting (w : Http.World) : Http.World :=
  Http.mkWorld (Http.landing w) (Http.status_of w) (Http.qr_of w) (Http.toggle w)
    (Http.clients w) (Http.create w) (Http.delete w) (Http.put_email w)
    (Http.resend_email w) (fun _ _ => true).

(** * Vocabulary of the further properties *)

(** Every row carries its record's identifier as [instance_id]. *)
Definition rowsMirrorIds (st : AdminPanel.State) : Prop :=
  Forall (fun row => AdminPanel.instance_id row = AdminPanel.id row)
         (AdminPanel.clients st).

(** A backend that lists [records] but turns every change down. *)
Definition readOnly (records : list Http.ClientRecord) : Http.World :=
  Http.mkWorld
    (fun _ _ => Http.Rejected notFound)
    (fun _ _ => Http.Rejected notFound)
    (fun _ _ => Http.Rejected notFound)
    (fun _ _ _ => Http.Rejected gatewayDown)
    (fun _ => Http.Resolved (Some records))
    (fun _ _ => Http.Rejected gatewayDown)
    (fun _ _ => Http.Rejected gatewayDown)
    (fun _ _ _ => Http.Rejected gatewayDown)
    (fun _ _ => Http.Rejected gatewayDown)
    (fun _ _ => true).

Definition bravoRecord : Http.ClientRecord :=
  Http.mkClientRecord "c2" "Bravo" "bravo@example.cl" "bravo" "open"
    (Some "56977778888").

(** [clientData?.whatsapp?.connected_phone] on the landing page. *)
Definition landingPhone (st : ClientLanding.State) : option string :=
  match ClientLanding.clientData st with
  | Some cd => ClientLanding.connected_phone (ClientLanding.whatsapp cd)
  | None => None
  end.

(** The QR page of a paired client. *)
Definition qrPageLinked : QRAssistantPage.State :=
  QRAssistantPage.mkState
    (Some (QRAssistantPage.mkClientData
             (QRAssistantPage.mkClient "c1" "Acme" "acme@example.cl" "active"
                0 0 false)
             (QRAssistantPage.mkWhatsapp true "open" (Some "56911112222"))))
    None false None false 0 [].

(** The time that a series of waits adds up to. *)
Definition elapsed (waits : list N) : N := foldr N.add 0%N waits.

(** What a pattern denotes: the strings it matches from start to end. *)
Inductive lang : Regex.t -> string -> Prop :=
| lang_eps : lang Regex.Eps ""
| lang_class p c : p c = true -> lang (Regex.Class p) (String c "")
| lang_cat r s u v : lang r u -> lang s v -> lang (Regex.Cat r s) (u +:+ v)
| lang_alt_l r s u : lang r u -> lang (Regex.Alt r s) u
| lang_alt_r r s u : lang s u -> lang (Regex.Alt r s) u
| lang_star_nil r : lang (Regex.Star r) ""
| lang_star_more r u v :
    lang r u -> lang (Regex.Star r) v -> lang (Regex.Star r) (u +:+ v).

(** Every character of a string is in a class. *)
Fixpoint allOf (p : ascii -> bool) (s : string) : bool :=
  match s with
  | EmptyString => true
  | String c s' => p c && allOf p s'
  end.

(** A label of a domain: one or more of [[\w-]]. *)
Definition isLabel (l : string) : Prop :=
  l ≠ "" /\ allOf Regex.wordDash l = true.

(** The labels of a domain, each followed by its dot. *)
Definition dotted (labels : list string) : string :=
  foldr (fun l rest => l +:+ "." +:+ rest) "" labels.

(** The addresses the e-mail pattern lets through: a local part of
    [[\w-.]], an at sign, one or more dotted labels, and a last label of
    two to four characters. *)
Definition emailShape (s : string) : Prop :=
  exists name labels tld,
    s = name +:+ "@" +:+ dotted labels +:+ tld
    /\ name ≠ "" /\ allOf Regex.wordDashDot name = true
    /\ labels ≠ [] /\ Forall isLabel labels
    /\ allOf Regex.wordDash tld = true
    /\ 2 <= String.length tld <= 4.

(** * Properties *)

(** ** Push events *)

Section PushEvents.

Import ClientLanding.

Lemma landing_ignores_other_client data st :
  currentClientId st ≠ Some (Ws.clientId data) -> onmessage data st = st.
Proof.
  unfold onmessage, currentClientId.
  destruct (clientData st) as [prevData|] eqn:Hcd; [|done].
  simpl. intros Hne. case_bool_decide as Heq; [|done].
  exfalso. apply Hne. by rewrite Heq.
Qed.

Lemma admin_row_of_other_client data (row : AdminPanel.ClientRow) :
  AdminPanel.instance_id row ≠ Ws.clientId data ->
  AdminPanel.mergePush data row = row.
Proof. unfold AdminPanel.mergePush. intros Hne. by case_bool_decide. Qed.

End PushEvents.

(** C3.  A push event whose [clientId] is not the identifier of the client
    on display changes nothing: on the landing page the whole state stays
    as it is; in the admin panel every row of another client keeps its
    place and its content, and when no row belongs to the event's client
    the whole state stays as it is. *)
Theorem push_for_other_client_ignored :
  (forall (data : Ws.PushEvent) (st : ClientLanding.State),
      ClientLanding.currentClientId st ≠ Some (Ws.clientId data) ->
      ClientLanding.onmessage data st = st)
  /\ (forall (data : Ws.PushEvent) (st : AdminPanel.State) (i : nat)
        (row : AdminPanel.ClientRow),
      AdminPanel.clients st !! i = Some row ->
      AdminPanel.instance_id row ≠ Ws.clientId data ->
      AdminPanel.clients (AdminPanel.onmessage data st) !! i = Some row)
  /\ (forall (data : Ws.PushEvent) (st : AdminPanel.State),
      Forall (fun row => AdminPanel.instance_id row ≠ Ws.clientId data)
             (AdminPanel.clients st) ->
      AdminPanel.onmessage data st = st).
Proof.
  split; [exact landing_ignores_other_client|split].
  - intros data st i row Hrow Hne. simpl.
    rewrite list_lookup_fmap, Hrow. simpl.
    by rewrite admin_row_of_other_client.
  - intros data st Hall. unfold AdminPanel.onmessage.
    assert (AdminPanel.mergePush data <$> AdminPanel.clients st
            = AdminPanel.clients st) as ->.
    { induction Hall as [|row rows Hrow _ IH]; [done|].
      rewrite fmap_cons, IH. by rewrite admin_row_of_other_client. }
    by destruct st.
Qed.

Lemma push_for_other_client_ignored_witness :
  ClientLanding.onmessage
    (Ws.mkPushEvent "c2" "open" (Some "56933334444") (Some "data:new")) pairing
  = pairing
  /\ AdminPanel.clients
       (AdminPanel.onmessage (Ws.mkPushEvent "c1" "close" None None) fleet) !! 1
     = Some (AdminPanel.mkClientRow "c2" "c2" "Bravo" "bravo@example.cl" "bravo"
               "connecting" None)
  /\ AdminPanel.onmessage (Ws.mkPushEvent "c3" "open" None None) fleet = fleet.
Proof.
  destruct push_for_other_client_ignored as (Hlanding & Hrow & Hfleet).
  split; [|split].
  - apply Hlanding. vm_compute. discriminate.
  - apply Hrow; [reflexivity|]. vm_compute. discriminate.
  - apply Hfleet. repeat constructor; vm_compute; discriminate.
Defined.

(** ** Merging a push event for the client on display *)

(** The merge of the landing page, field by field.  JavaScript's [||] and
    [if] test truthiness, so an empty [phone] or [qrCode] counts as
    missing. *)
Lemma landing_merge (data : Ws.PushEvent) (st : ClientLanding.State)
  (cd : ClientLanding.ClientData) :
  ClientLanding.clientData st = Some cd ->
  Ws.clientId data = ClientLanding.id (ClientLanding.client cd) ->
  ClientLanding.onmessage data st
  = ClientLanding.mkState
      (Some (ClientLanding.mkClientData (ClientLanding.client cd)
               (ClientLanding.mkWhatsapp
                  (bool_decide (Ws.status data = "open"))
                  (Ws.status data)
                  (if Js.truthy (Ws.phone data) then Ws.phone data
                   else ClientLanding.connected_phone (ClientLanding.whatsapp cd)))))
      (if Js.truthy (Ws.qrCode data) then Ws.qrCode data
       else ClientLanding.qrCode st)
      (ClientLanding.loading st)
      (if Js.truthy (Ws.qrCode data) then None
       else ClientLanding.errorMessage st)
      (ClientLanding.refreshing st)
      (ClientLanding.retryCount st)
      (ClientLanding.history st).
Proof.
  intros Hcd Hid. unfold ClientLanding.onmessage. rewrite Hcd.
  rewrite bool_decide_eq_true_2 by done.
  unfold ClientLanding.mergePush, Js.or_else.
  by destruct (Js.truthy (Ws.qrCode data)).
Qed.

(** C4, as the code has it.  For a push event of the client on display,
    the landing page ends with the event's status, [connected] equal to
    [status = 'open'], the event's phone when it is a non-empty string and
    the previous phone otherwise; a non-empty QR payload replaces [qrCode]
    and clears the error message, and without one both stay as they were.
    Nothing else changes. *)
Theorem push_merge_for_viewed_client (data : Ws.PushEvent)
  (st : ClientLanding.State) (cd : ClientLanding.ClientData) :
  ClientLanding.clientData st = Some cd ->
  Ws.clientId data = ClientLanding.id (ClientLanding.client cd) ->
  let st' := ClientLanding.onmessage data st in
  (exists cd',
      ClientLanding.clientData st' = Some cd'
      /\ ClientLanding.client cd' = ClientLanding.client cd
      /\ ClientLanding.status (ClientLanding.whatsapp cd') = Ws.status data
      /\ ClientLanding.connected (ClientLanding.whatsapp cd')
         = bool_decide (Ws.status data = "open")
      /\ ClientLanding.connected_phone (ClientLanding.whatsapp cd')
         = match Ws.phone data with
           | Some p => if String.eqb p "" then
                         ClientLanding.connected_phone (ClientLanding.whatsapp cd)
                       else Some p
           | None => ClientLanding.connected_phone (ClientLanding.whatsapp cd)
           end)
  /\ match Ws.qrCode data with
     | Some q =>
         if String.eqb q "" then
           ClientLanding.qrCode st' = ClientLanding.qrCode st
           /\ ClientLanding.errorMessage st' = ClientLanding.errorMessage st
         else
           ClientLanding.qrCode st' = Some q
           /\ ClientLanding.errorMessage st' = None
     | None =>
         ClientLanding.qrCode st' = ClientLanding.qrCode st
         /\ ClientLanding.errorMessage st' = ClientLanding.errorMessage st
     end
  /\ ClientLanding.loading st' = ClientLanding.loading st
  /\ ClientLanding.refreshing st' = ClientLanding.refreshing st
  /\ ClientLanding.retryCount st' = ClientLanding.retryCount st
  /\ ClientLanding.history st' = ClientLanding.history st.
Proof.
  intros Hcd Hid st'. subst st'. rewrite (landing_merge data st cd Hcd Hid).
  simpl. split.
  - eexists. split; [reflexivity|]. simpl. repeat split.
    destruct (Ws.phone data) as [p|]; simpl; [|done].
    by destruct (String.eqb p "").
  - split; [|done].
    destruct (Ws.qrCode data) as [q|]; simpl; [|done].
    by destruct (String.eqb q "").
Qed.

Lemma push_merge_for_viewed_client_witness :
  let st' :=
    ClientLanding.onmessage
      (Ws.mkPushEvent "c1" "open" (Some "56955556666") None) pairing in
  ClientLanding.connected_phone <$>
    (ClientLanding.whatsapp <$> ClientLanding.clientData st')
  = Some (Some "56955556666")
  /\ ClientLanding.history st' = [].
Proof.
  destruct (push_merge_for_viewed_client
              (Ws.mkPushEvent "c1" "open" (Some "56955556666") None) pairing
              (ClientLanding.mkClientData
                 (ClientLanding.mkClient "c1" "Acme" "acme@example.cl" 0 0 false)
                 (ClientLanding.mkWhatsapp false "connecting" (Some "56911112222")))
              eq_refl eq_refl)
    as ((cd' & Hcd' & _ & _ & _ & Hphone) & _ & _ & _ & _ & Hhist).
  split; [|exact Hhist].
  rewrite Hcd'. simpl. by rewrite Hphone.
Defined.

(** C4 as the claim words it fails: an event that carries a phone, the
    empty string, leaves the previous phone in place. *)
Lemma push_with_empty_phone_keeps_previous :
  let data := Ws.mkPushEvent "c1" "close" (Some "") None in
  let st' := ClientLanding.onmessage data pairing in
  Ws.clientId data = "c1"
  /\ Ws.phone data = Some ""
  /\ ClientLanding.connected_phone <$>
       (ClientLanding.whatsapp <$> ClientLanding.clientData st')
     = Some (Some "56911112222")
  /\ ClientLanding.connected_phone <$>
       (ClientLanding.whatsapp <$> ClientLanding.clientData st')
     ≠ Some (Ws.phone data).
Proof. vm_compute. repeat split. discriminate. Qed.

(** The admin panel takes the event's phone as it comes: an event without
    one empties the row's [connected_phone]. *)
Lemma admin_push_without_phone_clears_phone :
  AdminPanel.connected_phone <$>
    (AdminPanel.clients
       (AdminPanel.onmessage (Ws.mkPushEvent "c1" "close" None None) fleet) !! 0)
  = Some None.
Proof. reflexivity. Qed.

(** ** The invariant: no QR code while the status is [open] *)

Section LandingInvariant.

Import ClientLanding.

Variable world : Http.World.

Lemma cleared_qr_satisfies_invariant st :
  qrCode st = None -> qrClearedWhenOpen st.
Proof. by intros Hqr cd _ _. Qed.

Lemma finallyFetch_keeps_invariant st :
  qrClearedWhenOpen st -> qrClearedWhenOpen (finallyFetch st).
Proof. intros Hinv cd Hcd Hopen. simpl in *. by apply (Hinv cd). Qed.

Lemma onQrResponse_keeps_invariant q st cd :
  clientData st = Some cd -> status (whatsapp cd) ≠ "open" ->
  qrClearedWhenOpen (onQrResponse q st).
Proof.
  intros Hcd Hopen. unfold onQrResponse.
  repeat case_match; try by apply cleared_qr_satisfies_invariant.
  intros cd' Hcd' Hopen'. simpl in *. congruence.
Qed.

(** Every path of [fetchClientData] leaves the invariant in place: it
    either clears the QR code or stores one next to a status that is
    not [open]. *)
Lemma fetchClientData_keeps_invariant unique_url fetchQr st :
  qrClearedWhenOpen st ->
  qrClearedWhenOpen (fetchClientData unique_url world fetchQr st).
Proof.
  funelim (fetchClientData unique_url world fetchQr st). clear Heqcall.
  intros Hinv.
  repeat case_match; subst;
    try (apply finallyFetch_keeps_invariant);
    try (by apply cleared_qr_satisfies_invariant).
  - eapply onQrResponse_keeps_invariant; [reflexivity|]. simpl.
    intros Hopen. by rewrite (bool_decide_eq_true_2 _ Hopen) in *.
  - eapply H; [done..|]. by apply cleared_qr_satisfies_invariant.
  - intros cd Hcd Hopen. simpl in *. by apply (Hinv cd).
Qed.

Lemma loadData_keeps_invariant unique_url st :
  qrClearedWhenOpen st -> qrClearedWhenOpen (loadData unique_url world st).
Proof.
  intros Hinv. unfold loadData.
  assert (qrClearedWhenOpen
            (fetchClientData unique_url world true (setLoading true st))) as Hfetch.
  { apply fetchClientData_keeps_invariant.
    intros cd Hcd Hopen. simpl in *. by apply (Hinv cd). }
  intros cd Hcd Hopen. simpl in *. by apply (Hfetch cd).
Qed.

End LandingInvariant.

(** C2 at the push merge: from a state that satisfies the invariant, an
    [open] event for the client on display yields status [open] with the
    old QR code still held; a later event that leaves [open] without a new
    payload puts that old code back on display. *)
Theorem push_open_keeps_stale_qr :
  let st' := ClientLanding.onmessage (Ws.mkPushEvent "c1" "open" None None) pairing in
  let st'' := ClientLanding.onmessage (Ws.mkPushEvent "c1" "connecting" None None) st' in
  qrClearedWhenOpen pairing
  /\ ClientLanding.status <$>
       (ClientLanding.whatsapp <$> ClientLanding.clientData st')
     = Some "open"
  /\ ClientLanding.qrCode st' = Some "data:image/png;base64,AAAA"
  /\ ~ qrClearedWhenOpen st'
  /\ ClientLanding.status <$>
       (ClientLanding.whatsapp <$> ClientLanding.clientData st'')
     = Some "connecting"
  /\ ClientLanding.qrCode st'' = Some "data:image/png;base64,AAAA".
Proof.
  simpl. split; [|split; [|split; [|split; [|split]]]].
  - intros cd Hcd Hopen. vm_compute in Hcd. injection Hcd as <-. discriminate.
  - reflexivity.
  - reflexivity.
  - intros Hinv. specialize (Hinv _ eq_refl eq_refl). discriminate.
  - reflexivity.
  - reflexivity.
Qed.

(** ** Retrying the QR fetch *)

Lemma rounds_S k round : rounds (S k) round = (round ++ rounds k round).
Proof. reflexivity. Qed.

Lemma qrRequests_app h1 h2 :
  Http.qrRequests (h1 ++ h2) = Http.qrRequests h1 + Http.qrRequests h2.
Proof. unfold Http.qrRequests. by rewrite List.filter_app, length_app. Qed.

Lemma qrRequests_cons e h :
  Http.qrRequests (e :: h)
  = (if Http.isQrRequest e then 1 else 0) + Http.qrRequests h.
Proof. unfold Http.qrRequests. simpl. by destruct (Http.isQrRequest e). Qed.

Lemma qrRequests_nil : Http.qrRequests [] = 0.
Proof. reflexivity. Qed.

Lemma requests_app h1 h2 :
  Http.requests (h1 ++ h2) = (Http.requests h1 ++ Http.requests h2).
Proof. apply omap_app. Qed.

Section QrPageRetry.

Import QRAssistantPage.

Variable world : Http.World.

Lemma fetchQRCode_exhausts captured instance_id error st :
  isConnected captured = false ->
  (forall h, Http.qr_of world h instance_id = Http.Rejected error) ->
  instanceMissing (errorMsg error) = true ->
  let st' := fetchQRCode world captured instance_id st in
  history st'
  = (history st
     ++ rounds (maxRetries - retryCount st) (qrRound instance_id)
     ++ [Http.Net (Http.GetQr instance_id); Http.ToastError (errorMsg error)])
  /\ errorMessage st' = Some (errorMsg error)
  /\ qrCode st' = None
  /\ retryCount st' = retryCount st `max` maxRetries
  /\ clientData st' = clientData st.
Proof.
  cbv zeta. funelim (fetchQRCode world captured instance_id st). clear Heqcall.
  intros Hcaptured Hfail Hmissing.
  rewrite Hcaptured, Hfail, Hmissing. simpl.
  destruct (lt_dec (retryCount st) maxRetries) as [Hlt|Hge]; simpl.
  - destruct (H error Hlt error Hcaptured Hfail Hmissing)
      as (Hhist & Herr & Hqr & Hcount & Hdata).
    simpl in *. rewrite Hhist, Herr, Hqr, Hcount, Hdata.
    replace (maxRetries - retryCount st) with (S (maxRetries - (retryCount st + 1))) by lia.
    rewrite rounds_S. unfold qrRound at 2. simpl.
    rewrite <- !app_assoc. simpl. repeat split. lia.
  - replace (maxRetries - retryCount st) with 0 by lia.
    simpl. rewrite <- !app_assoc. repeat split. lia.
Qed.

Lemma fetchQRCode_other_error captured instance_id error st :
  isConnected captured = false ->
  Http.qr_of world (history st) instance_id = Http.Rejected error ->
  instanceMissing (errorMsg error) = false ->
  let st' := fetchQRCode world captured instance_id st in
  history st'
  = (history st
     ++ [Http.Net (Http.GetQr instance_id); Http.ToastError (errorMsg error)])
  /\ errorMessage st' = Some (errorMsg error)
  /\ qrCode st' = None
  /\ retryCount st' = retryCount st.
Proof.
  cbv zeta. funelim (fetchQRCode world captured instance_id st). clear Heqcall H.
  intros Hcaptured Hfail Hother.
  simpl. rewrite Hcaptured, Hfail, Hother. simpl.
  rewrite <- !app_assoc. by repeat split.
Qed.

(** Whatever the backend answers, one call asks the QR endpoint at most
    once more than the retries the counter still allows. *)
Lemma fetchQRCode_attempts_bounded captured instance_id st :
  Http.qrRequests (history (fetchQRCode world captured instance_id st))
  <= Http.qrRequests (history st) + 1 + (maxRetries - retryCount st).
Proof.
  funelim (fetchQRCode world captured instance_id st). clear Heqcall.
  repeat case_match; simpl in *;
    try (unfold onQrResponse; repeat case_match; simpl);
    rewrite ?qrRequests_app, ?qrRequests_cons, ?qrRequests_nil; simpl; try lia.
  etrans; [by eapply H|]. simpl.
  rewrite ?qrRequests_app, ?qrRequests_cons, ?qrRequests_nil. simpl. lia.
Qed.

Lemma fetchQRCode_answered_once captured instance_id q st :
  isConnected captured = false ->
  Http.qr_of world (history st) instance_id = Http.Resolved q ->
  history (fetchQRCode world captured instance_id st)
  = history st ++ [Http.Net (Http.GetQr instance_id)]
  /\ errorMessage (fetchQRCode world captured instance_id st)
     = (if Js.truthy (Http.qr q) then None
        else Some (Js.or_default (Http.error q) msgNoQr))
  /\ retryCount (fetchQRCode world captured instance_id st)
     = (if Js.truthy (Http.qr q) then 0 else retryCount st).
Proof.
  funelim (fetchQRCode world captured instance_id st). clear Heqcall H.
  intros -> Hq. simpl. rewrite Hq. unfold onQrResponse.
  by destruct (Js.truthy (Http.qr q)).
Qed.

End QrPageRetry.

Section LandingRetry.

Import ClientLanding.

Variable world : Http.World.

Lemma fetchClientData_exhausts unique_url fetchQr url c s qrError st :
  unique_url = Some url -> fetchQr = true ->
  (forall h, Http.landing world h url = Http.Resolved c) ->
  (forall h, Http.status_of world h (Http.id c) = Http.Resolved s) ->
  Http.status s ≠ "open" ->
  (forall h, Http.qr_of world h (Http.id c) = Http.Rejected qrError) ->
  instanceMissing (qrErrorMsg qrError) = true ->
  history (fetchClientData unique_url world fetchQr st)
  = history st
    ++ rounds (maxRetries - retryCount st) (landingRound url c)
    ++ landingPass url c
  /\ errorMessage (fetchClientData unique_url world fetchQr st)
     = Some (qrErrorMsg qrError)
  /\ qrCode (fetchClientData unique_url world fetchQr st) = None
  /\ clientData (fetchClientData unique_url world fetchQr st)
     = Some (newClientData c s)
  /\ retryCount (fetchClientData unique_url world fetchQr st)
     = retryCount st `max` maxRetries.
Proof.
  funelim (fetchClientData unique_url world fetchQr st). clear Heqcall.
  intros -> -> Hlanding Hstatus Hopen Hqr Hmissing.
  rewrite Hlanding, Hstatus, (bool_decide_eq_false_2 _ Hopen), Hqr, Hmissing.
  simpl.
  destruct (lt_dec (retryCount st) maxRetries) as [Hlt|Hge]; simpl.
  - destruct (H url c s qrError Hlt url c s qrError eq_refl eq_refl
                Hlanding Hstatus Hopen Hqr Hmissing)
      as (Hhist & Herr & Hcode & Hdata & Hcount).
    simpl in *. rewrite Hhist, Herr, Hcode, Hdata, Hcount.
    replace (maxRetries - retryCount st)
      with (S (maxRetries - (retryCount st + 1))) by lia.
    rewrite rounds_S. unfold landingRound at 2, landingPass at 2.
    rewrite <- !app_assoc. simpl. repeat split. lia.
  - replace (maxRetries - retryCount st) with 0 by lia.
    simpl. unfold landingPass. rewrite <- !app_assoc. repeat split. lia.
Qed.

Lemma fetchClientData_other_error unique_url fetchQr url c s qrError st :
  unique_url = Some url -> fetchQr = true ->
  Http.landing world (history st) url = Http.Resolved c ->
  Http.status_of world (history st ++ [Http.Net (Http.GetLanding url)]) (Http.id c)
  = Http.Resolved s ->
  Http.status s ≠ "open" ->
  Http.qr_of world
    (history st ++ [Http.Net (Http.GetLanding url);
                    Http.Net (Http.GetStatus (Http.id c))])
    (Http.id c)
  = Http.Rejected qrError ->
  instanceMissing (qrErrorMsg qrError) = false ->
  history (fetchClientData unique_url world fetchQr st)
  = history st ++ landingPass url c
  /\ errorMessage (fetchClientData unique_url world fetchQr st)
     = Some (qrErrorMsg qrError)
  /\ qrCode (fetchClientData unique_url world fetchQr st) = None
  /\ clientData (fetchClientData unique_url world fetchQr st)
     = Some (newClientData c s)
  /\ retryCount (fetchClientData unique_url world fetchQr st) = retryCount st.
Proof.
  funelim (fetchClientData unique_url world fetchQr st). clear Heqcall H.
  intros -> -> Hlanding Hstatus Hopen Hqr Hother. simpl.
  rewrite Hlanding, Hstatus, (bool_decide_eq_false_2 _ Hopen). simpl.
  rewrite <- app_assoc. simpl. rewrite Hqr, Hother. simpl.
  unfold landingPass. rewrite <- !app_assoc. by repeat split.
Qed.

Lemma fetchClientData_attempts_bounded unique_url fetchQr st :
  Http.qrRequests (history (fetchClientData unique_url world fetchQr st))
  <= Http.qrRequests (history st) + 1 + (maxRetries - retryCount st).
Proof.
  funelim (fetchClientData unique_url world fetchQr st). clear Heqcall.
  repeat case_match; simpl in *;
    try (unfold onQrResponse; repeat case_match; simpl);
    rewrite ?qrRequests_app, ?qrRequests_cons, ?qrRequests_nil; simpl; try lia.
  etrans; [by eapply H|]. simpl.
  rewrite ?qrRequests_app, ?qrRequests_cons, ?qrRequests_nil. simpl. lia.
Qed.

Lemma fetchClientData_answered_once unique_url fetchQr url c s q st :
  unique_url = Some url -> fetchQr = true ->
  Http.landing world (history st) url = Http.Resolved c ->
  Http.status_of world (history st ++ [Http.Net (Http.GetLanding url)]) (Http.id c)
  = Http.Resolved s ->
  Http.status s ≠ "open" ->
  Http.qr_of world
    (history st ++ [Http.Net (Http.GetLanding url);
                    Http.Net (Http.GetStatus (Http.id c))])
    (Http.id c)
  = Http.Resolved q ->
  history (fetchClientData unique_url world fetchQr st)
  = history st ++ landingPass url c
  /\ (Js.truthy (Http.qr q) = false -> Http.state q ≠ Some "open" ->
      errorMessage (fetchClientData unique_url world fetchQr st)
      = Some (Js.or_default (Http.error q) msgNoQr)
      /\ retryCount (fetchClientData unique_url world fetchQr st)
         = retryCount st).
Proof.
  funelim (fetchClientData unique_url world fetchQr st). clear Heqcall H.
  intros -> -> Hlanding Hstatus Hopen Hqr. simpl.
  rewrite Hlanding, Hstatus, (bool_decide_eq_false_2 _ Hopen). simpl.
  rewrite <- app_assoc. simpl. rewrite Hqr. unfold onQrResponse, landingPass.
  split.
  - repeat case_match; simpl; by rewrite <- ?app_assoc.
  - intros -> Hstate. by rewrite (bool_decide_eq_false_2 _ Hstate).
Qed.

End LandingRetry.

(** C1, as the code has it.  A QR request that keeps being rejected with
    a backend detail containing [Instance] and [does not exist] is tried
    again after a wait of 2000 ms, as long as the retry counter is below 3:
    from a fresh counter that is exactly 3 further attempts, never more,
    and after the last one the error is shown.  A rejection with any other
    detail is shown at once, with no wait and no further attempt.  On the
    QR page a retry repeats the QR request; on the landing page it repeats
    the whole fetch.  Whatever the backend answers, one call asks the QR
    endpoint at most four times.  A QR request that is answered is never
    tried again: an error text in the body of the answer is shown at once,
    whatever it says, and the retry counter is left alone. *)
Theorem qr_fetch_bounded_retry (world : Http.World) :
  (forall captured instance_id error st,
      QRAssistantPage.isConnected captured = false ->
      (forall h, Http.qr_of world h instance_id = Http.Rejected error) ->
      QRAssistantPage.instanceMissing (QRAssistantPage.errorMsg error) = true ->
      let st' := QRAssistantPage.fetchQRCode world captured instance_id st in
      let k := QRAssistantPage.maxRetries - QRAssistantPage.retryCount st in
      k <= 3
      /\ (QRAssistantPage.retryCount st = 0 -> k = 3)
      /\ QRAssistantPage.history st'
         = QRAssistantPage.history st
           ++ rounds k (qrRound instance_id)
           ++ [Http.Net (Http.GetQr instance_id);
               Http.ToastError (QRAssistantPage.errorMsg error)]
      /\ QRAssistantPage.errorMessage st' = Some (QRAssistantPage.errorMsg error))
  /\ (forall captured instance_id error st,
      QRAssistantPage.isConnected captured = false ->
      Http.qr_of world (QRAssistantPage.history st) instance_id
      = Http.Rejected error ->
      QRAssistantPage.instanceMissing (QRAssistantPage.errorMsg error) = false ->
      let st' := QRAssistantPage.fetchQRCode world captured instance_id st in
      QRAssistantPage.history st'
      = QRAssistantPage.history st
        ++ [Http.Net (Http.GetQr instance_id);
            Http.ToastError (QRAssistantPage.errorMsg error)]
      /\ QRAssistantPage.errorMessage st' = Some (QRAssistantPage.errorMsg error))
  /\ (forall url c s qrError st,
      (forall h, Http.landing world h url = Http.Resolved c) ->
      (forall h, Http.status_of world h (Http.id c) = Http.Resolved s) ->
      Http.status s ≠ "open" ->
      (forall h, Http.qr_of world h (Http.id c) = Http.Rejected qrError) ->
      ClientLanding.instanceMissing (ClientLanding.qrErrorMsg qrError) = true ->
      let st' := ClientLanding.fetchClientData (Some url) world true st in
      let k := ClientLanding.maxRetries - ClientLanding.retryCount st in
      k <= 3
      /\ (ClientLanding.retryCount st = 0 -> k = 3)
      /\ ClientLanding.history st'
         = ClientLanding.history st
           ++ rounds k (landingRound url c) ++ landingPass url c
      /\ ClientLanding.errorMessage st' = Some (ClientLanding.qrErrorMsg qrError))
  /\ (forall url c s qrError st,
      Http.landing world (ClientLanding.history st) url = Http.Resolved c ->
      Http.status_of world
        (ClientLanding.history st ++ [Http.Net (Http.GetLanding url)]) (Http.id c)
      = Http.Resolved s ->
      Http.status s ≠ "open" ->
      Http.qr_of world
        (ClientLanding.history st
         ++ [Http.Net (Http.GetLanding url); Http.Net (Http.GetStatus (Http.id c))])
        (Http.id c)
      = Http.Rejected qrError ->
      ClientLanding.instanceMissing (ClientLanding.qrErrorMsg qrError) = false ->
      let st' := ClientLanding.fetchClientData (Some url) world true st in
      ClientLanding.history st' = ClientLanding.history st ++ landingPass url c
      /\ ClientLanding.errorMessage st' = Some (ClientLanding.qrErrorMsg qrError))
  /\ (forall captured instance_id st,
      Http.qrRequests
        (QRAssistantPage.history
           (QRAssistantPage.fetchQRCode world captured instance_id st))
      <= Http.qrRequests (QRAssistantPage.history st) + 4)
  /\ (forall unique_url fetchQr st,
      Http.qrRequests
        (ClientLanding.history
           (ClientLanding.fetchClientData unique_url world fetchQr st))
      <= Http.qrRequests (ClientLanding.history st) + 4)
  /\ (forall captured instance_id q st,
      QRAssistantPage.isConnected captured = false ->
      Http.qr_of world (QRAssistantPage.history st) instance_id
      = Http.Resolved q ->
      let st' := QRAssistantPage.fetchQRCode world captured instance_id st in
      QRAssistantPage.history st'
      = QRAssistantPage.history st ++ [Http.Net (Http.GetQr instance_id)]
      /\ (Js.truthy (Http.qr q) = false ->
          QRAssistantPage.errorMessage st'
          = Some (Js.or_default (Http.error q) QRAssistantPage.msgNoQr)
          /\ QRAssistantPage.retryCount st' = QRAssistantPage.retryCount st))
  /\ (forall url c s q st,
      Http.landing world (ClientLanding.history st) url = Http.Resolved c ->
      Http.status_of world
        (ClientLanding.history st ++ [Http.Net (Http.GetLanding url)]) (Http.id c)
      = Http.Resolved s ->
      Http.status s ≠ "open" ->
      Http.qr_of world
        (ClientLanding.history st
         ++ [Http.Net (Http.GetLanding url); Http.Net (Http.GetStatus (Http.id c))])
        (Http.id c)
      = Http.Resolved q ->
      let st' := ClientLanding.fetchClientData (Some url) world true st in
      ClientLanding.history st' = ClientLanding.history st ++ landingPass url c
      /\ (Js.truthy (Http.qr q) = false -> Http.state q ≠ Some "open" ->
          ClientLanding.errorMessage st'
          = Some (Js.or_default (Http.error q) ClientLanding.msgNoQr)
          /\ ClientLanding.retryCount st' = ClientLanding.retryCount st)).
Proof.
  split; [|split; [|split; [|split; [|split; [|split; [|split]]]]]].
  - intros captured instance_id error st Hcaptured Hfail Hmissing. simpl.
    destruct (fetchQRCode_exhausts world captured instance_id error st
                Hcaptured Hfail Hmissing) as (Hhist & Herr & _).
    unfold QRAssistantPage.maxRetries in *.
    repeat split; [lia|intros ->; reflexivity|exact Hhist|exact Herr].
  - intros captured instance_id error st Hcaptured Hfail Hother. simpl.
    destruct (fetchQRCode_other_error world captured instance_id error st
                Hcaptured Hfail Hother) as (Hhist & Herr & _).
    by split.
  - intros url c s qrError st Hlanding Hstatus Hopen Hqr Hmissing. simpl.
    destruct (fetchClientData_exhausts world (Some url) true url c s qrError st
                eq_refl eq_refl Hlanding Hstatus Hopen Hqr Hmissing)
      as (Hhist & Herr & _).
    unfold ClientLanding.maxRetries in *.
    repeat split; [lia|intros ->; reflexivity|exact Hhist|exact Herr].
  - intros url c s qrError st Hlanding Hstatus Hopen Hqr Hother. simpl.
    destruct (fetchClientData_other_error world (Some url) true url c s qrError st
                eq_refl eq_refl Hlanding Hstatus Hopen Hqr Hother)
      as (Hhist & Herr & _).
    by split.
  - intros captured instance_id st.
    pose proof (fetchQRCode_attempts_bounded world captured instance_id st).
    unfold QRAssistantPage.maxRetries in *. lia.
  - intros unique_url fetchQr st.
    pose proof (fetchClientData_attempts_bounded world unique_url fetchQr st).
    unfold ClientLanding.maxRetries in *. lia.
  - intros captured instance_id q st Hcaptured Hq. simpl.
    destruct (fetchQRCode_answered_once world captured instance_id q st
                Hcaptured Hq) as (Hhist & Herr & Hcount).
    split; [exact Hhist|]. intros Hnone. rewrite Hnone in Herr, Hcount.
    by split.
  - intros url c s q st Hlanding Hstatus Hopen Hq. simpl.
    exact (fetchClientData_answered_once world (Some url) true url c s q st
             eq_refl eq_refl Hlanding Hstatus Hopen Hq).
Qed.

Lemma qr_fetch_bounded_retry_witness :
  QRAssistantPage.history
    (QRAssistantPage.fetchQRCode (backend instanceNotReady None) None "c1"
       QRAssistantPage.initial)
  = [ Http.Net (Http.GetQr "c1"); Http.Sleep 2000%N;
      Http.Net (Http.GetQr "c1"); Http.Sleep 2000%N;
      Http.Net (Http.GetQr "c1"); Http.Sleep 2000%N;
      Http.Net (Http.GetQr "c1");
      Http.ToastError "Instance c1 does not exist" ]
  /\ QRAssistantPage.history
       (QRAssistantPage.fetchQRCode (backend gatewayDown None) None "c1"
          QRAssistantPage.initial)
     = [ Http.Net (Http.GetQr "c1"); Http.ToastError "Bad gateway" ]
  /\ ClientLanding.errorMessage
       (ClientLanding.fetchClientData (Some "acme-law")
          (backend instanceNotReady None) true ClientLanding.initial)
     = Some "Instance c1 does not exist"
  /\ ClientLanding.history
       (ClientLanding.fetchClientData (Some "acme-law")
          (backend gatewayDown None) true ClientLanding.initial)
     = landingPass "acme-law" acme.
Proof.
  split; [|split; [|split]].
  - destruct (proj1 (qr_fetch_bounded_retry (backend instanceNotReady None))
                None "c1" instanceNotReady QRAssistantPage.initial
                eq_refl (fun _ => eq_refl) eq_refl) as (_ & _ & Hhist & _).
    exact Hhist.
  - destruct (proj1 (proj2 (qr_fetch_bounded_retry (backend gatewayDown None)))
                None "c1" gatewayDown QRAssistantPage.initial
                eq_refl eq_refl eq_refl) as (Hhist & _).
    exact Hhist.
  - destruct (proj1 (proj2 (proj2 (qr_fetch_bounded_retry (backend instanceNotReady None))))
                "acme-law" acme (Http.mkStatusData "connecting") instanceNotReady
                ClientLanding.initial
                (fun _ => eq_refl) (fun _ => eq_refl) ltac:(discriminate)
                (fun _ => eq_refl) eq_refl) as (_ & _ & _ & Herr).
    exact Herr.
  - destruct (proj1 (proj2 (proj2 (proj2 (qr_fetch_bounded_retry
                (backend gatewayDown None)))))
                "acme-law" acme (Http.mkStatusData "connecting") gatewayDown
                ClientLanding.initial
                eq_refl eq_refl ltac:(discriminate) eq_refl eq_refl) as (Hhist & _).
    exact Hhist.
Defined.

(** C1 as the claim words it fails: a QR fetch that fails with the
    missing-instance message in the body of an answered request is not
    tried again.  On both pages there is one QR request, no wait, and the
    message is shown. *)
Lemma qr_error_in_answer_is_not_retried :
  let landing :=
    ClientLanding.fetchClientData (Some "acme-law") notReadyInBody true
      ClientLanding.initial in
  let page :=
    QRAssistantPage.fetchQRCode notReadyInBody None "c1" QRAssistantPage.initial in
  ClientLanding.instanceMissing "Instance c1 does not exist" = true
  /\ ClientLanding.errorMessage landing = Some "Instance c1 does not exist"
  /\ Http.qrRequests (ClientLanding.history landing) = 1
  /\ Http.waited (ClientLanding.history landing) = 0%N
  /\ QRAssistantPage.errorMessage page = Some "Instance c1 does not exist"
  /\ Http.qrRequests (QRAssistantPage.history page) = 1
  /\ Http.waited (QRAssistantPage.history page) = 0%N.
Proof. vm_compute. done. Qed.

(** The retry at work: the QR request is rejected with the
    missing-instance detail twice and then answered.  The page ends without
    an error, showing the QR code, after waiting 4000 ms. *)
Example qr_ready_on_third_attempt :
  let st' :=
    ClientLanding.loadData (Some "acme-law") (backend instanceNotReady (Some 2))
      ClientLanding.initial in
  ClientLanding.errorMessage st' = None
  /\ ClientLanding.qrCode st' = Some "data:image/png;base64,BBBB"
  /\ Http.waited (ClientLanding.history st') = 4000%N
  /\ ClientLanding.loading st' = false.
Proof. vm_compute. done. Qed.

(** ** The three steps of a fetch *)

Section LandingSteps.

Import ClientLanding.

Variable world : Http.World.

Lemma state_ext (a b : State) :
  clientData a = clientData b -> qrCode a = qrCode b ->
  loading a = loading b -> errorMessage a = errorMessage b ->
  refreshing a = refreshing b -> retryCount a = retryCount b ->
  history a = history b -> a = b.
Proof. destruct a, b. simpl. by intros -> -> -> -> -> -> ->. Qed.

(** Two states are compared field by field, so that each chain of
    record updates is only followed for the field at hand. *)
Ltac run :=
  apply state_ext; simpl; rewrite <- ?app_assoc; simpl.




Lemma history_grows unique_url fetchQr st :
  history st `prefix_of` history (fetchClientData unique_url world fetchQr st).
Proof.
  funelim (fetchClientData unique_url world fetchQr st). clear Heqcall.
  repeat case_match; simpl in *;
    try (unfold onQrResponse; repeat case_match; simpl);
    rewrite <- ?app_assoc; try reflexivity; try by apply prefix_app_r.
  etrans; [|by eapply H]. simpl.
  rewrite <- ?app_assoc. by apply prefix_app_r.
Qed.


End LandingSteps.

Section QrPageSteps.

Import QRAssistantPage.

Variable unique_url : option string.
Variable world : Http.World.




End QrPageSteps.




(** ** Unlinking WhatsApp *)

Section QrPageHistory.

Import QRAssistantPage.

Variable unique_url : option string.
Variable world : Http.World.

Lemma fetchQRCode_history_grows captured instance_id st :
  history st `prefix_of` history (fetchQRCode world captured instance_id st).
Proof.
  funelim (fetchQRCode world captured instance_id st). clear Heqcall.
  repeat case_match; simpl in *;
    try (unfold onQrResponse; repeat case_match; simpl);
    rewrite <- ?app_assoc; try reflexivity; try by apply prefix_app_r.
  etrans; [|by eapply H]. simpl.
  rewrite <- ?app_assoc. by apply prefix_app_r.
Qed.

Lemma qr_page_history_grows st :
  history st `prefix_of` history (fetchClientData unique_url world st).
Proof.
  unfold fetchClientData.
  repeat case_match; simpl;
    rewrite <- ?app_assoc; try by apply prefix_app_r.
  etrans; [|apply fetchQRCode_history_grows]. simpl.
  rewrite <- ?app_assoc. by apply prefix_app_r.
Qed.

End QrPageHistory.

(** C9, for the two client-facing pages.  When the user declines the
    confirmation, unlinking sends nothing.  Whenever unlinking sends
    anything, the user was asked first and accepted, and the first thing
    sent after the question is the disconnect request. *)
Theorem unlink_waits_for_confirmation (unique_url : option string)
  (world : Http.World) :
  (forall st,
      let st' := ClientLanding.handleDisconnectWhatsApp unique_url world st in
      (Http.confirm world (ClientLanding.history st) Http.ConfirmUnlink = false ->
       Http.requests (ClientLanding.history st')
       = Http.requests (ClientLanding.history st))
      /\ (Http.requests (ClientLanding.history st')
          ≠ Http.requests (ClientLanding.history st) ->
          Http.confirm world (ClientLanding.history st) Http.ConfirmUnlink = true
          /\ exists cid rest,
              ClientLanding.history st'
              = ClientLanding.history st
                ++ Http.Asked Http.ConfirmUnlink
                   :: Http.Net (Http.PostToggle cid Http.disconnect) :: rest))
  /\ (forall st,
      let st' := QRAssistantPage.handleDisconnect unique_url world st in
      (Http.confirm world (QRAssistantPage.history st) Http.ConfirmUnlink = false ->
       Http.requests (QRAssistantPage.history st')
       = Http.requests (QRAssistantPage.history st))
      /\ (Http.requests (QRAssistantPage.history st')
          ≠ Http.requests (QRAssistantPage.history st) ->
          Http.confirm world (QRAssistantPage.history st) Http.ConfirmUnlink = true
          /\ exists cid rest,
              QRAssistantPage.history st'
              = QRAssistantPage.history st
                ++ Http.Asked Http.ConfirmUnlink
                   :: Http.Net (Http.PostToggle cid Http.disconnect) :: rest)).
Proof.
  split.
  - intros st. simpl. unfold ClientLanding.handleDisconnectWhatsApp.
    destruct (ClientLanding.currentClientId st) as [cid|]; simpl;
      [|split; [intros _|intros Hsent; exfalso; apply Hsent];
        rewrite requests_app, app_nil_r; reflexivity].
    destruct (String.eqb cid ""); simpl;
      [split; [intros _|intros Hsent; exfalso; apply Hsent];
        rewrite requests_app, app_nil_r; reflexivity|].
    destruct (Http.confirm world (ClientLanding.history st) Http.ConfirmUnlink);
      simpl;
      [|split; [intros _|intros Hsent; exfalso; apply Hsent];
        rewrite requests_app, app_nil_r; reflexivity].
    split; [discriminate|]. intros _. split; [reflexivity|].
    exists cid.
    destruct (Http.toggle world _ cid Http.disconnect) as [[]|err]; simpl.
    + destruct (history_grows world unique_url true
                  (ClientLanding.record (Http.ToastSuccess ClientLanding.msgUnlinked)
                     (ClientLanding.record
                        (Http.Net (Http.PostToggle cid Http.disconnect))
                        (ClientLanding.setRefreshing true
                           (ClientLanding.record (Http.Asked Http.ConfirmUnlink) st)))))
        as [more Hmore].
      rewrite Hmore. simpl. rewrite <- !app_assoc. simpl. by eexists.
    + rewrite <- !app_assoc. simpl. by eexists.
  - intros st. simpl. unfold QRAssistantPage.handleDisconnect.
    destruct (QRAssistantPage.id ∘ QRAssistantPage.client
                <$> QRAssistantPage.clientData st) as [cid|]; simpl;
      [|split; [intros _|intros Hsent; exfalso; apply Hsent];
        rewrite requests_app, app_nil_r; reflexivity].
    destruct (String.eqb cid ""); simpl;
      [split; [intros _|intros Hsent; exfalso; apply Hsent];
        rewrite requests_app, app_nil_r; reflexivity|].
    destruct (Http.confirm world (QRAssistantPage.history st) Http.ConfirmUnlink);
      simpl;
      [|split; [intros _|intros Hsent; exfalso; apply Hsent];
        rewrite requests_app, app_nil_r; reflexivity].
    split; [discriminate|]. intros _. split; [reflexivity|].
    exists cid.
    destruct (Http.toggle world _ cid Http.disconnect) as [[]|err]; simpl.
    + destruct (qr_page_history_grows unique_url world
                  (QRAssistantPage.record
                     (Http.ToastSuccess QRAssistantPage.msgUnlinked)
                     (QRAssistantPage.record
                        (Http.Net (Http.PostToggle cid Http.disconnect))
                        (QRAssistantPage.setRefreshing true
                           (QRAssistantPage.record (Http.Asked Http.ConfirmUnlink) st)))))
        as [more Hmore].
      rewrite Hmore. simpl. rewrite <- !app_assoc. simpl. by eexists.
    + rewrite <- !app_assoc. simpl. by eexists.
Qed.

Lemma unlink_waits_for_confirmation_witness :
  Http.requests
    (ClientLanding.history
       (ClientLanding.handleDisconnectWhatsApp (Some "acme-law")
          (declining (backend gatewayDown None)) linked))
  = []
  /\ Http.requests
       (ClientLanding.history
          (ClientLanding.handleDisconnectWhatsApp (Some "acme-law")
             (backend gatewayDown None) linked))
     = [Http.PostToggle "c1" Http.disconnect; Http.GetLanding "acme-law";
        Http.GetStatus "c1"; Http.GetQr "c1"]
  /\ Http.confirm (backend gatewayDown None) (ClientLanding.history linked)
       Http.ConfirmUnlink = true.
Proof.
  split; [|split; [reflexivity|]].
  - apply (proj1 (proj1 (unlink_waits_for_confirmation (Some "acme-law")
                           (declining (backend gatewayDown None))) linked)).
    reflexivity.
  - apply (proj2 (proj1 (unlink_waits_for_confirmation (Some "acme-law")
                           (backend gatewayDown None)) linked)).
    vm_compute. discriminate.
Defined.

(** C9 as the claim words it fails: in the admin panel, deactivating a
    client sends the disconnect request although nobody was asked, here with
    a user who would have declined. *)
Lemma admin_toggle_sends_without_asking :
  let st' :=
    AdminPanel.toggleClient (declining (backend gatewayDown None)) "c1" false fleet in
  Http.requests (AdminPanel.history st')
  = [Http.PostToggle "c1" Http.disconnect; Http.GetClients]
  /\ Forall (fun e => forall p, e ≠ Http.Asked p) (AdminPanel.history st').
Proof.
  vm_compute. split; [reflexivity|].
  repeat constructor; discriminate.
Qed.

(** ** Fleet operations *)

Section Fleet.

Import AdminPanel.

Variable world : Http.World.

Lemma state_eq (a b : State) :
  clients a = clients b -> loadingStates a = loadingStates b ->
  error a = error b -> formError a = formError b ->
  successMessage a = successMessage b -> showAddForm a = showAddForm b ->
  showEditEmailForm a = showEditEmailForm b ->
  editingClient a = editingClient b -> newEmail a = newEmail b ->
  history a = history b -> a = b.
Proof. destruct a, b. simpl. by intros -> -> -> -> -> -> -> -> -> ->. Qed.

Lemma fetchWithRetry_rejected {A} req (answer : Http.History -> Http.Response A)
  err st :
  (forall h, answer h = Http.Rejected err) ->
  fetchWithRetry req answer st
  = (Some (Http.Rejected err), after (failedAttempts req err) st).
Proof.
  intros Hanswer. unfold fetchWithRetry, failedAttempts. simpl.
  rewrite !Hanswer.
  case_bool_decide; simpl; (f_equal; apply state_eq; simpl; try done);
    by rewrite <- ?app_assoc.
Qed.


Lemma after_after events more st :
  after more (after events st) = after (events ++ more) st.
Proof. apply state_eq; simpl; try done. by rewrite <- app_assoc. Qed.

Lemma after_nil st : after [] st = st.
Proof. apply state_eq; simpl; try done. by rewrite app_nil_r. Qed.

(** Whatever the backend answers, the loop only adds attempts and waits
    to the history, and it starts with an attempt. *)
Lemma attempts_after {A} retries delay req
  (answer : Http.History -> Http.Response A) indices st :
  exists events,
    (attempts retries delay req answer indices st).2 = after events st
    /\ Forall (fun e => e = Http.Net req \/ e = Http.Sleep delay) events
    /\ (indices ≠ [] -> exists more, events = Http.Net req :: more).
Proof.
  revert st. induction indices as [|i rest IH]; intros st; simpl.
  - exists []. by rewrite after_nil.
  - destruct (answer (history st)) as [data|err]; simpl.
    + exists [Http.Net req]. split; [done|]. split; [|by eexists].
      constructor; [by left|done].
    + destruct (_ && _); simpl.
      * destruct (IH (record (Http.Sleep delay) (record (Http.Net req) st)))
          as (events & Hstate & Hall & _).
        exists (Http.Net req :: Http.Sleep delay :: events).
        rewrite Hstate. split; [|split].
        -- apply state_eq; simpl; try done. by rewrite <- !app_assoc.
        -- constructor; [by left|]. constructor; [by right|done].
        -- by eexists.
      * exists [Http.Net req]. split; [done|]. split; [|by eexists].
        constructor; [by left|done].
Qed.

Lemma fetchWithRetry_after {A} req (answer : Http.History -> Http.Response A) st :
  exists more,
    (fetchWithRetry req answer st).2 = after (Http.Net req :: more) st
    /\ Http.requests more = replicate (length (Http.requests more)) req.
Proof.
  destruct (attempts_after 3 1000%N req answer (seq 0 3) st)
    as (events & Hstate & Hall & Hfirst).
  destruct Hfirst as [more ->]; [done|].
  exists more. split; [done|].
  apply Forall_cons_1 in Hall as [_ Hall].
  clear Hstate. induction Hall as [|e events [->| ->] _ IH]; simpl; [done|..].
  - by rewrite <- IH.
  - done.
Qed.

(** The outcome of the loop depends on the state through its history
    only. *)
Lemma attempts_history_only {A} retries delay req
  (answer : Http.History -> Http.Response A) indices st st' :
  history st = history st' ->
  (attempts retries delay req answer indices st).1
  = (attempts retries delay req answer indices st').1.
Proof.
  revert st st'. induction indices as [|i rest IH]; intros st st' Hsame; simpl;
    [done|].
  rewrite <- Hsame. destruct (answer (history st)) as [data|err]; [done|].
  destruct (_ && _); [|done]. apply IH. simpl. by rewrite Hsame.
Qed.

Lemma fetchWithRetry_awaited {A} req (answer : Http.History -> Http.Response A) st :
  (fetchWithRetry req answer st).1 = awaited req answer (history st).
Proof. unfold awaited, fetchWithRetry. by apply attempts_history_only. Qed.

(** The loop ends with the answer to its last attempt, which is the
    first, second or third. *)
Lemma fetchWithRetry_last_answer {A} req
  (answer : Http.History -> Http.Response A) st :
  exists k,
    k <= 2
    /\ fetchWithRetry req answer st
       = (Some (answer (history st ++ rounds k [Http.Net req; Http.Sleep 1000%N])),
          after (rounds k [Http.Net req; Http.Sleep 1000%N] ++ [Http.Net req]) st).
Proof.
  unfold fetchWithRetry. simpl.
  destruct (answer (history st)) as [data|err] eqn:H1; simpl.
  { exists 0. split; [lia|]. unfold rounds. simpl. by rewrite app_nil_r, H1. }
  case_bool_decide as Hnet1; simpl; cycle 1.
  { exists 0. split; [lia|]. unfold rounds. simpl. by rewrite app_nil_r, H1. }
  match goal with
  | |- context [answer ?h] => destruct (answer h) as [data|err2] eqn:H2
  end; simpl; rewrite <- !app_assoc in H2; simpl in H2.
  { exists 1. split; [lia|]. unfold rounds. simpl. rewrite H2. f_equal.
    apply state_eq; simpl; try done. by rewrite <- !app_assoc. }
  case_bool_decide as Hnet2; simpl; cycle 1.
  { exists 1. split; [lia|]. unfold rounds. simpl. rewrite H2. f_equal.
    apply state_eq; simpl; try done. by rewrite <- !app_assoc. }
  exists 2. split; [lia|]. unfold rounds. simpl.
  rewrite <- !app_assoc. simpl.
  match goal with
  | |- context [answer ?h] => destruct (answer h) as [data|err3]
  end; simpl; f_equal; apply state_eq; simpl; try done;
    by rewrite <- !app_assoc.
Qed.

Lemma awaited_last_answer {A} req (answer : Http.History -> Http.Response A) h :
  exists k,
    k <= 2
    /\ awaited req answer h
       = Some (answer (h ++ rounds k [Http.Net req; Http.Sleep 1000%N])).
Proof.
  unfold awaited.
  destruct (fetchWithRetry_last_answer req answer (after h initial))
    as (k & Hk & ->).
  by exists k.
Qed.

(** An awaited request always ends, in an answer or in a rejection. *)
Lemma awaited_ends {A} req (answer : Http.History -> Http.Response A) h :
  is_Some (awaited req answer h).
Proof. destruct (awaited_last_answer req answer h) as (k & _ & ->). by eexists. Qed.

(** What the loop adds to the history: attempts and waits, an attempt
    first. *)
Lemma fetchWithRetry_events {A} req (answer : Http.History -> Http.Response A) st :
  exists more,
    (fetchWithRetry req answer st).2 = after (Http.Net req :: more) st
    /\ Forall (fun e => e = Http.Net req \/ e = Http.Sleep 1000%N) more.
Proof.
  destruct (attempts_after 3 1000%N req answer (seq 0 3) st)
    as (events & Hstate & Hall & Hfirst).
  destruct Hfirst as [more ->]; [done|].
  exists more. split; [done|]. by apply Forall_cons_1 in Hall as [_ Hall].
Qed.

Lemma fetchWithRetry_call {A} req (answer : Http.History -> Http.Response A) st :
  exists more,
    fetchWithRetry req answer st
    = (awaited req answer (history st), after (Http.Net req :: more) st)
    /\ Forall (fun e => e = Http.Net req \/ e = Http.Sleep 1000%N) more.
Proof.
  destruct (fetchWithRetry_events req answer st) as (more & Hstate & Hall).
  exists more. split; [|done].
  rewrite <- fetchWithRetry_awaited, <- Hstate.
  by destruct (fetchWithRetry req answer st).
Qed.



Lemma attempts_requests req (more : list Http.Event) :
  Forall (fun e => e = Http.Net req \/ e = Http.Sleep 1000%N) more ->
  exists n, Http.requests more = replicate n req.
Proof.
  induction 1 as [|e more [->| ->] _ [n IH]]; simpl.
  - by exists 0.
  - exists (S n). by rewrite IH.
  - by exists n.
Qed.

(** A list refresh starts by clearing the banner and asking for the list,
    and asks for nothing else. *)
Lemma fetchClients_history st :
  exists more,
    history (fetchClients world st)
    = history st ++ Http.ShowError None :: Http.Net Http.GetClients :: more
    /\ Forall (fun r => r = Http.GetClients) (Http.requests more).
Proof.
  unfold fetchClients.
  destruct (fetchWithRetry_after Http.GetClients (Http.clients world)
              (setError None (setLoadingState "fetchClients" true st)))
    as (more & Hstate & Hreq).
  destruct (fetchWithRetry _ _ _) as [response st2]. simpl in Hstate. subst st2.
  assert (Forall (fun r => r = Http.GetClients) (Http.requests more)) as Hall.
  { rewrite Hreq. by apply Forall_replicate. }
  destruct response as [[data|err]|]; simpl; rewrite <- ?app_assoc; simpl.
  - by exists more.
  - exists (more ++ [Http.ShowError (Some (detailOr err msgNoClients))]).
    split; [done|].
    rewrite requests_app. simpl. by rewrite app_nil_r.
  - exists (more ++ [Http.ShowError (Some msgNoClients)]).
    split; [done|].
    rewrite requests_app. simpl. by rewrite app_nil_r.
Qed.

End Fleet.

Section FleetFailures.

Import AdminPanel.

Variable world : Http.World.





Lemma failedAttempts_only req err r :
  r ≠ req -> Http.Net r ∉ failedAttempts req err.
Proof.
  intros Hne Hin. unfold failedAttempts in Hin.
  case_bool_decide;
    repeat (apply elem_of_cons in Hin as [Hin|Hin]; [congruence|]);
    by apply elem_of_nil in Hin.
Qed.

End FleetFailures.




(** ** Deleting a client *)

Section DeleteRow.

Import AdminPanel.

Variable world : Http.World.

(** What a list refresh leaves, by the answer that its request ends
    with. *)
Lemma fetchClients_awaited st :
  let response :=
    awaited Http.GetClients (Http.clients world)
      (history st ++ [Http.ShowError None]) in
  clients (fetchClients world st)
  = match response with
    | Some (Http.Resolved data) => rowOf <$> default [] data
    | _ => clients st
    end
  /\ error (fetchClients world st)
     = match response with
       | Some (Http.Resolved _) => None
       | Some (Http.Rejected err) => Some (detailOr err msgNoClients)
       | None => Some msgNoClients
       end
  /\ successMessage (fetchClients world st) = successMessage st
  /\ loadingStates (fetchClients world st) !! "fetchClients" = Some false
  /\ exists more,
      history (fetchClients world st)
      = history st ++ Http.ShowError None :: Http.Net Http.GetClients :: more.
Proof.
  simpl. unfold fetchClients.
  match goal with
  | |- context [fetchWithRetry ?req ?answer ?s] =>
      destruct (fetchWithRetry_call req answer s) as (more & -> & Hall)
  end.
  simpl.
  destruct (awaited _ _ _) as [[data|err]|]; simpl;
    (split; [done|split; [done|split; [done|split; [apply lookup_insert_eq|]]]]);
    rewrite <- ?app_assoc; simpl; by eexists.
Qed.

Lemma rowOf_filter iid (records : list Http.ClientRecord) :
  rowOf <$> filter (fun r => Http.rec_id r ≠ iid) records
  = filter (fun client => instance_id client ≠ iid) (rowOf <$> records).
Proof.
  induction records as [|r records IH]; [done|]. rewrite fmap_cons.
  destruct (decide (Http.rec_id r = iid)) as [Heq|Hne].
  - rewrite filter_cons_False by (intros Hne; by apply Hne).
    rewrite filter_cons_False by (simpl; intros Hne; by apply Hne).
    exact IH.
  - rewrite filter_cons_True by exact Hne.
    rewrite filter_cons_True by exact Hne.
    rewrite fmap_cons. by f_equal.
Qed.

(** A delete that went through the question and was refused: the rows are
    those that the refresh that follows brings, or the previous ones. *)
Lemma delete_refused iid clientName err st :
  Http.confirm world (history st) (Http.ConfirmDelete clientName) = true ->
  awaited (Http.DeleteClient iid) (fun h => Http.delete world h iid)
    (history st ++ [Http.Asked (Http.ConfirmDelete clientName); Http.ShowError None])
  = Some (Http.Rejected err) ->
  exists h,
    (history st
     ++ [Http.Asked (Http.ConfirmDelete clientName); Http.ShowError None;
         Http.Net (Http.DeleteClient iid)]) `prefix_of` h
    /\ last h = Some (Http.ShowError None)
    /\ Http.ShowError (Some (detailOr err msgNotDeleted)) ∈ h
    /\ (forall data,
          awaited Http.GetClients (Http.clients world) h
          = Some (Http.Resolved data) ->
          clients (deleteClient world iid clientName st) = rowOf <$> default [] data
          /\ error (deleteClient world iid clientName st) = None)
    /\ (forall err',
          awaited Http.GetClients (Http.clients world) h
          = Some (Http.Rejected err') ->
          clients (deleteClient world iid clientName st) = clients st
          /\ error (deleteClient world iid clientName st)
             = Some (detailOr err' msgNoClients)).
Proof.
  intros Hyes Hfail. unfold deleteClient. rewrite Hyes. simpl.
  match goal with
  | |- context [fetchWithRetry ?req ?answer ?s] =>
      destruct (fetchWithRetry_call req answer s) as (more & -> & Hall)
  end.
  simpl. rewrite <- ?app_assoc. simpl. rewrite Hfail.
  match goal with
  | |- context [fetchClients world ?s] =>
      destruct (fetchClients_awaited s) as (Hrows & Herror & _);
      exists (history s ++ [Http.ShowError None])
  end.
  simpl in *. rewrite <- ?app_assoc in *. simpl in *.
  split; [by apply prefix_app, prefix_cons, prefix_cons, prefix_cons, prefix_nil|].
  split.
  { rewrite !app_comm_cons, app_assoc.
    change (?l ++ [?a; ?b]) with (l ++ [a] ++ [b]).
    rewrite !app_assoc. apply last_snoc. }
  split.
  { apply elem_of_app. right. do 3 (apply elem_of_cons; right).
    apply elem_of_app. right. apply elem_of_cons. by left. }
  split.
  - intros data Hdata. rewrite Hdata in Hrows, Herror. by rewrite Hrows, Herror.
  - intros err' Herr'. rewrite Herr' in Hrows, Herror. by rewrite Hrows, Herror.
Qed.

(** C10, as the code has it.  The removal is not optimistic: nothing is
    removed before the backend has answered.  A delete the user declines
    leaves the rows alone and sends nothing.  When the user confirms and
    the backend accepts the delete, the local list becomes the previous
    list without the rows of that client, the other rows staying in their
    order, and no refresh is made; if the rows were those of the backend's
    list, a later refresh that brings that list without the deleted client
    gives the local list again, and one that brings part of it gives a list
    contained in the local one.  When the backend refuses the delete,
    nothing is removed locally: the rows are those of the refresh that
    follows, or the previous rows if that refresh fails too. *)
Theorem delete_removes_exactly (iid clientName : string) (st : State) :
  let st' := deleteClient world iid clientName st in
  let asked :=
    history st
    ++ [Http.Asked (Http.ConfirmDelete clientName); Http.ShowError None] in
  (Http.confirm world (history st) (Http.ConfirmDelete clientName) = false ->
   clients st' = clients st
   /\ Http.requests (history st') = Http.requests (history st))
  /\ (Http.confirm world (history st) (Http.ConfirmDelete clientName) = true ->
      awaited (Http.DeleteClient iid) (fun h => Http.delete world h iid) asked
      = Some (Http.Resolved tt) ->
      clients st' = filter (fun client => instance_id client ≠ iid) (clients st)
      /\ (forall client,
            client ∈ clients st'
            <-> client ∈ clients st /\ instance_id client ≠ iid)
      /\ clients st' `sublist_of` clients st
      /\ (exists n,
            Http.requests (history st')
            = Http.requests (history st) ++ replicate (S n) (Http.DeleteClient iid))
      /\ (forall before,
            clients st = rowOf <$> before ->
            (awaited Http.GetClients (Http.clients world)
               (history st' ++ [Http.ShowError None])
             = Some (Http.Resolved
                       (Some (filter (fun r => Http.rec_id r ≠ iid) before))) ->
             clients (fetchClients world st') = clients st')
            /\ (forall listed,
                  awaited Http.GetClients (Http.clients world)
                    (history st' ++ [Http.ShowError None])
                  = Some (Http.Resolved (Some listed)) ->
                  listed ⊆ filter (fun r => Http.rec_id r ≠ iid) before ->
                  clients (fetchClients world st') ⊆ clients st')))
  /\ (Http.confirm world (history st) (Http.ConfirmDelete clientName) = true ->
      forall err,
        awaited (Http.DeleteClient iid) (fun h => Http.delete world h iid) asked
        = Some (Http.Rejected err) ->
        exists h,
          (asked ++ [Http.Net (Http.DeleteClient iid)]) `prefix_of` h
          /\ (forall data,
                awaited Http.GetClients (Http.clients world) h
                = Some (Http.Resolved data) ->
                clients st' = rowOf <$> default [] data)
          /\ (forall err',
                awaited Http.GetClients (Http.clients world) h
                = Some (Http.Rejected err') ->
                clients st' = clients st)).
Proof.
  simpl. split; [|split].
  - intros Hno. unfold deleteClient. rewrite Hno. simpl.
    split; [done|]. rewrite requests_app. simpl. by rewrite app_nil_r.
  - intros Hyes Hdeleted.
    assert (clients (deleteClient world iid clientName st)
            = filter (fun client => instance_id client ≠ iid) (clients st)
            /\ exists n,
                Http.requests (history (deleteClient world iid clientName st))
                = Http.requests (history st)
                  ++ replicate (S n) (Http.DeleteClient iid))
      as (Hclients & Hrequests).
    { unfold deleteClient. rewrite Hyes. simpl.
      match goal with
      | |- context [fetchWithRetry ?req ?answer ?s] =>
          destruct (fetchWithRetry_call req answer s) as (more & -> & Hall)
      end.
      simpl. rewrite <- ?app_assoc. simpl. rewrite Hdeleted. simpl.
      split; [done|].
      destruct (attempts_requests _ _ Hall) as [n Hn]. exists n.
      rewrite <- ?app_assoc, !requests_app. simpl.
      by rewrite Hn, app_nil_r. }
    split; [exact Hclients|]. rewrite Hclients.
    split; [intros client; rewrite list_elem_of_filter; tauto|].
    split; [apply sublist_filter|]. split; [exact Hrequests|].
    intros before Hsync.
    destruct (fetchClients_awaited (deleteClient world iid clientName st))
      as (Hrows & _).
    simpl in Hrows. rewrite Hrows. split.
    + intros ->. simpl. by rewrite rowOf_filter, Hsync.
    + intros listed -> Hlisted. simpl. rewrite Hsync, <- rowOf_filter.
      intros row (r & -> & Hr)%list_elem_of_fmap.
      apply list_elem_of_fmap. exists r. split; [done|]. by apply Hlisted.
  - intros Hyes err Hfail.
    destruct (delete_refused iid clientName err st Hyes Hfail)
      as (h & Hprefix & _ & _ & Hok & Hko).
    exists h. split; [by rewrite <- app_assoc|]. split.
    + intros data Hdata. by destruct (Hok data Hdata).
    + intros err' Herr'. by destruct (Hko err' Herr').
Qed.

End DeleteRow.

Lemma delete_removes_exactly_witness :
  AdminPanel.clients
    (AdminPanel.deleteClient (backend gatewayDown None) "c1" "Acme" fleet)
  = [ AdminPanel.mkClientRow "c2" "c2" "Bravo" "bravo@example.cl" "bravo"
        "connecting" None ]
  /\ AdminPanel.clients (AdminPanel.deleteClient flaky "c1" "Acme" fleet)
     = AdminPanel.clients fleet.
Proof.
  split.
  - apply (proj1 (proj2 (delete_removes_exactly (backend gatewayDown None)
                           "c1" "Acme" fleet)) eq_refl eq_refl).
  - destruct (proj2 (proj2 (delete_removes_exactly flaky "c1" "Acme" fleet))
                eq_refl gatewayDown eq_refl) as (h & Hprefix & _ & Hkept).
    apply (Hkept gatewayDown).
    destruct (awaited_last_answer Http.GetClients (Http.clients flaky) h)
      as (k & _ & ->).
    destruct Hprefix as [rest ->]. unfold flaky. simpl. reflexivity.
Defined.

(** C10 as the claim words it fails: a delete that the user confirmed and
    the backend refused leaves the row in the list, and so does the refresh
    that follows. *)
Lemma refused_delete_keeps_the_row :
  let st' := AdminPanel.deleteClient frozen "c1" "Acme" fleet in
  Http.DeleteClient "c1" ∈ Http.requests (AdminPanel.history st')
  /\ AdminPanel.clients fleet = AdminPanel.rowOf <$> fleetRecords
  /\ AdminPanel.clients st' = AdminPanel.clients fleet
  /\ AdminPanel.clients st'
     ≠ filter (fun client => AdminPanel.instance_id client ≠ "c1")
         (AdminPanel.clients fleet).
Proof.
  vm_compute. split; [by apply elem_of_cons; left|].
  split; [reflexivity|]. split; [reflexivity|]. discriminate.
Qed.

(** ** Creating a client *)

Section CreateForm.

Import AdminPanel.

Variable world : Http.World.

Lemma formData_unbound : "formData" ∉ bindings.
Proof. refine (bool_decide_unpack _ _). vm_compute. exact I. Qed.

Lemma setFormData_unbound : "setFormData" ∉ bindings.
Proof. refine (bool_decide_unpack _ _). vm_compute. exact I. Qed.

Lemma identifier_unbound {A} scope x (v : A) st :
  x ∉ scope -> identifier scope x v st = Threw (ReferenceError x) st.
Proof. intros Hx. unfold identifier. by rewrite bool_decide_eq_false_2. Qed.

Lemma identifier_bound {A} scope x (v : A) st :
  x ∈ scope -> identifier scope x v st = Returned v st.
Proof. intros Hx. unfold identifier. by rewrite bool_decide_eq_true_2. Qed.

Lemma validateForm_unbound scope form st :
  "formData" ∉ scope ->
  validateForm scope form st = Threw (ReferenceError "formData") st.
Proof.
  intros Hx. unfold validateForm, bind. by rewrite identifier_unbound.
Qed.

Lemma handleSubmit_unbound scope form st :
  "formData" ∉ scope ->
  handleSubmit world scope form st
  = Threw (ReferenceError "formData") (setFormError None st).
Proof.
  intros Hx. unfold handleSubmit, bind, exec.
  by rewrite validateForm_unbound.
Qed.

(** Were [formData] bound, a form that fails a check would stop
    [handleSubmit] with that check's message and nothing sent. *)
Lemma handleSubmit_rejects_when_bound scope form st msg :
  "formData" ∈ scope ->
  firstComplaint form = Some msg ->
  handleSubmit world scope form st = Returned tt (setFormError (Some msg) st).
Proof.
  intros Hx Hcomplaint.
  unfold handleSubmit, validateForm, bind, exec, ret, firstComplaint in *.
  rewrite identifier_bound by done.
  destruct (negb (Regex.matches _ _)); simpl;
    [injection Hcomplaint as <-; f_equal; by apply state_eq|].
  rewrite identifier_bound by done.
  destruct (Js.length _ <? 3)%nat; simpl;
    [injection Hcomplaint as <-; f_equal; by apply state_eq|].
  rewrite identifier_bound by done.
  destruct (String.eqb (Http.openai_api_key form) ""); simpl;
    [injection Hcomplaint as <-; f_equal; by apply state_eq|].
  rewrite identifier_bound by done.
  destruct (String.eqb (Http.openai_assistant_id form) ""); simpl;
    [injection Hcomplaint as <-; f_equal; by apply state_eq|].
  discriminate Hcomplaint.
Qed.

End CreateForm.

(** C7.  Neither [formData] nor [setFormData] is bound anywhere in the
    component.  Every submission of the create-client form therefore ends
    in a [ReferenceError] raised by the first check of [validateForm],
    after [setFormError(null)] and with nothing sent; and whenever the
    render gets as far as the add-client modal with [showAddForm] set, it
    raises the same error instead of drawing it. *)
Theorem create_client_raises_reference_error :
  ("formData" ∉ AdminPanel.bindings)
  /\ ("setFormData" ∉ AdminPanel.bindings)
  /\ (forall form st,
        AdminPanel.validateForm AdminPanel.bindings form st
        = AdminPanel.Threw (AdminPanel.ReferenceError "formData") st)
  /\ (forall world form st,
        AdminPanel.handleSubmit world AdminPanel.bindings form st
        = AdminPanel.Threw (AdminPanel.ReferenceError "formData")
            (AdminPanel.setFormError None st)
        /\ AdminPanel.history
             (AdminPanel.stateOf
                (AdminPanel.handleSubmit world AdminPanel.bindings form st))
           = AdminPanel.history st)
  /\ (forall form st,
        AdminPanel.showAddForm st = true ->
        AdminPanel.render AdminPanel.bindings form st
        = AdminPanel.Threw (AdminPanel.ReferenceError "formData") st
        \/ (exists msg,
              AdminPanel.render AdminPanel.bindings form st
              = AdminPanel.Returned (AdminPanel.ErrorView msg) st)
        \/ AdminPanel.render AdminPanel.bindings form st
           = AdminPanel.Returned AdminPanel.LoadingView st).
Proof.
  split; [exact formData_unbound|]. split; [exact setFormData_unbound|].
  split; [|split].
  - intros form st. apply validateForm_unbound, formData_unbound.
  - intros world form st.
    rewrite (handleSubmit_unbound world _ form st formData_unbound).
    by split.
  - intros form st Hshown. unfold AdminPanel.render.
    destruct (_ && _); [right; left; by eexists|].
    destruct (_ && _); [by right; right|].
    rewrite Hshown. left. unfold AdminPanel.bind.
    by rewrite (identifier_unbound _ _ _ _ formData_unbound).
Qed.

Lemma create_client_raises_reference_error_witness :
  AdminPanel.render AdminPanel.bindings acmeForm addingClient
  = AdminPanel.Threw (AdminPanel.ReferenceError "formData") addingClient.
Proof.
  destruct (proj2 (proj2 (proj2 (proj2 create_client_raises_reference_error)))
              acmeForm addingClient eq_refl) as [Hthrown|[[msg Herror]|Hloading]].
  - exact Hthrown.
  - discriminate Herror.
  - discriminate Hloading.
Defined.

(** C6 on the component as written; the defect is the one of C7.  In the
    loaded panel the main view is drawn, with its add-client button.  A
    click on that button sets [showAddForm], and the next render raises
    [ReferenceError] instead of drawing the form, whatever the fields would
    hold: there is no form to fill in or to submit, so no input is ever
    validated and no validation message is ever shown.  The handler of the
    form raises the same error before its first check, with [formError]
    left empty and nothing sent.  The four checks are written, though:
    with [formData] bound, a form that fails one stops the submission with
    that check's message and nothing sent. *)
Theorem add_client_form_is_never_validated :
  (forall form,
      AdminPanel.render AdminPanel.bindings form fleet
      = AdminPanel.Returned (AdminPanel.MainView None) fleet)
  /\ (forall form,
        AdminPanel.render AdminPanel.bindings form
          (AdminPanel.setShowAddForm true fleet)
        = AdminPanel.Threw (AdminPanel.ReferenceError "formData")
            (AdminPanel.setShowAddForm true fleet))
  /\ (forall world form st,
        let outcome :=
          AdminPanel.handleSubmit world AdminPanel.bindings form st in
        outcome
        = AdminPanel.Threw (AdminPanel.ReferenceError "formData")
            (AdminPanel.setFormError None st)
        /\ AdminPanel.formError (AdminPanel.stateOf outcome) = None
        /\ AdminPanel.history (AdminPanel.stateOf outcome)
           = AdminPanel.history st)
  /\ (forall world scope form st msg,
        "formData" ∈ scope ->
        firstComplaint form = Some msg ->
        AdminPanel.handleSubmit world scope form st
        = AdminPanel.Returned tt (AdminPanel.setFormError (Some msg) st)).
Proof.
  split; [|split; [|split]].
  - intros form. reflexivity.
  - intros form. unfold AdminPanel.render. simpl. unfold AdminPanel.bind.
    by rewrite (identifier_unbound _ _ _ _ formData_unbound).
  - intros world form st. simpl.
    by rewrite (handleSubmit_unbound world _ form st formData_unbound).
  - intros world scope form st msg Hbound Hcomplaint.
    by apply handleSubmit_rejects_when_bound.
Qed.

Lemma add_client_form_is_never_validated_witness :
  AdminPanel.handleSubmit (backend gatewayDown None)
    ("formData" :: AdminPanel.bindings)
    (Http.mkNewClient "Ñu" "legal@example.cl" "sk-test" "asst_1") addingClient
  = AdminPanel.Returned tt
      (AdminPanel.setFormError (Some AdminPanel.msgNameTooShort) addingClient).
Proof.
  apply (proj2 (proj2 (proj2 add_client_form_is_never_validated))).
  - apply elem_of_cons. by left.
  - vm_compute. reflexivity.
Defined.

(** * Further properties *)

(** ** Requests with retry *)

Section RetryLoop.

Import AdminPanel.

(** [fetchWithRetry] never comes back empty-handed.  It makes between one
    and three attempts at the same request, one second apart, and gives up
    early only on an answer or on an error that is not a network error. *)
Theorem fetchWithRetry_three_attempts {A} (req : Http.Request)
  (answer : Http.History -> Http.Response A) (st : State) :
  exists n outcome,
    1 <= n <= 3
    /\ fetchWithRetry req answer st
       = (Some outcome,
          after (rounds (n - 1) [Http.Net req; Http.Sleep 1000%N] ++ [Http.Net req]) st)
    /\ (n < 3 ->
        forall err, outcome = Http.Rejected err ->
                    Http.code err ≠ Some "ERR_NETWORK").
Proof.
  unfold fetchWithRetry. simpl.
  destruct (answer (history st)) as [data|err] eqn:H1; simpl.
  { exists 1, (Http.Resolved data). split; [lia|]. split; [done|]. done. }
  case_bool_decide as Hnet1; simpl; cycle 1.
  { exists 1, (Http.Rejected err). split; [lia|]. split; [done|].
    intros _ err' [= <-]. done. }
  match goal with
  | |- context [answer ?h] => destruct (answer h) as [data|err2] eqn:H2
  end; simpl.
  { exists 2, (Http.Resolved data). split; [lia|]. split; [|done].
    f_equal. apply state_eq; simpl; try done. by rewrite <- !app_assoc. }
  case_bool_decide as Hnet2; simpl; cycle 1.
  { exists 2, (Http.Rejected err2). split; [lia|]. split.
    - f_equal. apply state_eq; simpl; try done. by rewrite <- !app_assoc.
    - intros _ err' [= <-]. done. }
  match goal with
  | |- context [answer ?h] => destruct (answer h) as [data|err3] eqn:H3
  end; simpl.
  { exists 3, (Http.Resolved data). split; [lia|]. split; [|lia].
    f_equal. apply state_eq; simpl; try done. by rewrite <- !app_assoc. }
  exists 3, (Http.Rejected err3). split; [lia|]. split; [|lia].
  f_equal. apply state_eq; simpl; try done. by rewrite <- !app_assoc.
Qed.

End RetryLoop.

(** ** Refreshing the client list *)

Section ListRefresh.

Import AdminPanel.

Variable world : Http.World.

Lemma fetchClients_cases st :
  exists response events,
    fetchClients world st
    = setLoadingState "fetchClients" false
        match response with
        | Some (Http.Resolved data) =>
            setClients (rowOf <$> default [] data)
              (after events (setError None (setLoadingState "fetchClients" true st)))
        | Some (Http.Rejected err) =>
            setError (Some (detailOr err msgNoClients))
              (after events (setError None (setLoadingState "fetchClients" true st)))
        | None =>
            setError (Some msgNoClients)
              (after events (setError None (setLoadingState "fetchClients" true st)))
        end.
Proof.
  unfold fetchClients.
  destruct (fetchWithRetry_after Http.GetClients (Http.clients world)
              (setError None (setLoadingState "fetchClients" true st)))
    as (more & Hstate & _).
  destruct (fetchWithRetry _ _ _) as [response st2]. simpl in Hstate. subst st2.
  by exists response, (Http.Net Http.GetClients :: more).
Qed.

Lemma rowOf_mirrors records :
  Forall (fun row => instance_id row = id row) (rowOf <$> records).
Proof. apply Forall_fmap, Forall_true. by intros r. Qed.

Lemma fetchClients_replaces_or_keeps (st : State) :
  let st' := fetchClients world st in
  loadingStates st' !! "fetchClients" = Some false
  /\ ((exists records,
          clients st' = rowOf <$> records /\ error st' = None
          /\ rowsMirrorIds st')
      \/ (clients st' = clients st /\ exists msg, error st' = Some msg)).
Proof.
  simpl. destruct (fetchClients_cases st) as (response & events & ->).
  split; [apply lookup_insert_eq|].
  destruct response as [[data|err]|]; simpl.
  - left. exists (default [] data). repeat split. apply rowOf_mirrors.
  - right. split; [done|by eexists].
  - right. split; [done|by eexists].
Qed.

(** A refresh asks for the list up to three times and goes by the answer
    to the last of these requests, whichever attempt that is.  If that
    answer is a list, the rows become exactly the rows of that list, each
    carrying its record's identifier as [instance_id], and the error is
    cleared; an answer whose body is not an array empties the list.  If it
    is a refusal, the rows stay as they were and the backend's detail (or
    the fixed text) is shown.  Either way the [fetchClients] loading flag
    ends up off. *)
Theorem fetchClients_outcome (st : State) :
  let st' := fetchClients world st in
  let start := history st ++ [Http.ShowError None] in
  let response := awaited Http.GetClients (Http.clients world) start in
  loadingStates st' !! "fetchClients" = Some false
  /\ (exists k,
        k <= 2
        /\ response
           = Some (Http.clients world
                     (start ++ rounds k [Http.Net Http.GetClients; Http.Sleep 1000%N]))
        /\ Http.requests (history st')
           = Http.requests (history st) ++ replicate (S k) Http.GetClients)
  /\ (forall data,
        response = Some (Http.Resolved data) ->
        clients st' = rowOf <$> default [] data
        /\ (data = None -> clients st' = [])
        /\ error st' = None
        /\ rowsMirrorIds st')
  /\ (forall err,
        response = Some (Http.Rejected err) ->
        clients st' = clients st
        /\ error st' = Some (detailOr err msgNoClients)).
Proof.
  simpl.
  destruct (fetchClients_awaited world st) as (Hrows & Herror & _ & Hflag & _).
  simpl in Hrows, Herror.
  split; [exact Hflag|]. split; [|split].
  - unfold fetchClients.
    match goal with
    | |- context [fetchWithRetry ?req ?answer ?s] =>
        destruct (fetchWithRetry_last_answer req answer s) as (k & Hk & Hcall);
        pose proof (fetchWithRetry_awaited req answer s) as Hresponse;
        rewrite Hcall in *
    end.
    simpl in Hresponse. exists k. split; [exact Hk|]. split; [by rewrite Hresponse|].
    assert (Http.requests (rounds k [Http.Net Http.GetClients; Http.Sleep 1000%N])
            = replicate k Http.GetClients) as Hrounds.
    { clear. induction k as [|k IH]; [done|].
      rewrite rounds_S, requests_app, IH. done. }
    destruct (Http.clients world _) as [data|err]; simpl;
      rewrite <- ?app_assoc, !requests_app; simpl;
      rewrite ?requests_app, Hrounds; simpl; rewrite ?app_nil_r;
      by rewrite replicate_cons_app.
  - intros data Hdata. rewrite Hdata in Hrows, Herror.
    rewrite Hrows. split; [done|]. split; [by intros ->|]. split; [done|].
    unfold rowsMirrorIds. rewrite Hrows. apply rowOf_mirrors.
  - intros err Herr. rewrite Herr in Hrows, Herror. by split.
Qed.

End ListRefresh.

Lemma fetchClients_outcome_witness :
  AdminPanel.clients (AdminPanel.fetchClients recovering AdminPanel.initial)
  = AdminPanel.rowOf <$> fleetRecords
  /\ AdminPanel.clients (AdminPanel.fetchClients nowhere fleet)
     = AdminPanel.clients fleet.
Proof.
  split.
  - destruct (proj1 (proj2 (proj2 (fetchClients_outcome recovering
                                     AdminPanel.initial)))
                (Some fleetRecords) eq_refl) as (Hrows & _).
    exact Hrows.
  - destruct (proj2 (proj2 (proj2 (fetchClients_outcome nowhere fleet)))
                notFound eq_refl) as (Hrows & _).
    exact Hrows.
Defined.

(** ** What a toggle or a delete leaves behind *)

Section FleetOutcomes.

Import AdminPanel.

Variable world : Http.World.


Lemma fetchClients_rejected err st :
  (forall h, Http.clients world h = Http.Rejected err) ->
  fetchClients world st
  = setLoadingState "fetchClients" false
      (setError (Some (detailOr err msgNoClients))
         (after (failedAttempts Http.GetClients err)
            (setError None (setLoadingState "fetchClients" true st)))).
Proof.
  intros Hfail. unfold fetchClients.
  by rewrite (fetchWithRetry_rejected _ _ err).
Qed.

(** What a refresh that ends an operation leaves behind. *)
Lemma refresh_decides key s :
  let st' := setLoadingState key false (fetchClients world s) in
  let h := history s ++ [Http.ShowError None] in
  loadingStates st' !! key = Some false
  /\ (exists m,
        Http.requests (history st')
        = Http.requests (history s) ++ replicate (S m) Http.GetClients)
  /\ (forall data,
        awaited Http.GetClients (Http.clients world) h
        = Some (Http.Resolved data) ->
        error st' = None /\ clients st' = rowOf <$> default [] data)
  /\ (forall err',
        awaited Http.GetClients (Http.clients world) h
        = Some (Http.Rejected err') ->
        error st' = Some (detailOr err' msgNoClients)
        /\ clients st' = clients s)
  /\ successMessage st' = successMessage s.
Proof.
  simpl.
  destruct (fetchClients_awaited world s) as (Hrows & Herror & Hnotice & _ & _).
  simpl in Hrows, Herror.
  split; [apply lookup_insert_eq|]. split; [|split; [|split]].
  - destruct (fetchClients_history world s) as (more & -> & Hall).
    rewrite requests_app. simpl.
    exists (length (Http.requests more)). f_equal. f_equal.
    clear -Hall. induction Hall as [|r rs -> _ IH]; simpl; [done|by f_equal].
  - intros data Hdata. rewrite Hdata in Hrows, Herror. by split.
  - intros err' Herr'. rewrite Herr' in Hrows, Herror. by split.
  - exact Hnotice.
Qed.

(** The course of a toggle, by how its request and its refresh end. *)
Lemma toggle_course (iid : string) (is_active : bool) (st : State) :
  let st' := toggleClient world iid is_active st in
  let request := Http.PostToggle iid (actionOf is_active) in
  let call :=
    awaited request (fun h => Http.toggle world h iid (actionOf is_active))
      (history st ++ [Http.ShowError None]) in
  loadingStates st' !! ("toggle-" +:+ iid) = Some false
  /\ (exists n m,
        Http.requests (history st')
        = Http.requests (history st)
          ++ replicate (S n) request ++ replicate (S m) Http.GetClients)
  /\ (exists h,
        (history st ++ [Http.ShowError None; Http.Net request]) `prefix_of` h
        /\ last h = Some (Http.ShowError None)
        /\ (forall err,
              call = Some (Http.Rejected err) ->
              Http.ShowError
                (Some (detailOr err ("No se pudo " +:+ verb is_active +:+ " el cliente")))
              ∈ h)
        /\ (forall data,
              awaited Http.GetClients (Http.clients world) h
              = Some (Http.Resolved data) ->
              error st' = None /\ clients st' = rowOf <$> default [] data)
        /\ (forall err',
              awaited Http.GetClients (Http.clients world) h
              = Some (Http.Rejected err') ->
              error st' = Some (detailOr err' msgNoClients)
              /\ clients st' = clients st))
  /\ (call = Some (Http.Resolved tt) ->
      successMessage st'
      = Some ("Cliente " +:+ participle is_active +:+ " exitosamente!")
      /\ last (history st') = Some (Http.DismissSuccessAfter 3000%N))
  /\ (forall err,
        call = Some (Http.Rejected err) ->
        successMessage st' = successMessage st).
Proof.
  simpl. unfold toggleClient.
  match goal with
  | |- context [fetchWithRetry ?req ?answer ?s] =>
      destruct (fetchWithRetry_call req answer s) as (more & -> & Hall)
  end.
  simpl.
  destruct (attempts_requests _ _ Hall) as [n Hn].
  set (request := Http.PostToggle iid (actionOf is_active)) in *.
  set (st1 := setError None (setLoadingState ("toggle-" +:+ iid) true st)).
  destruct (awaited request _ _) as [[[]|err]|] eqn:Hcall.
  - set (s := after (Http.Net request :: more) st1).
    destruct (refresh_decides ("toggle-" +:+ iid) s)
      as (_ & (m & Hm) & Hok & Hko & Hnotice).
    simpl in Hm, Hok, Hko, Hnotice.
    split; [apply lookup_insert_eq|]. split; [|split; [|split; [|done]]].
    + exists n, m. simpl. rewrite requests_app. simpl. rewrite app_nil_r, Hm.
      subst s. simpl. rewrite <- ?app_assoc, !requests_app. simpl.
      rewrite Hn. by rewrite <- !app_assoc.
    + exists (history s ++ [Http.ShowError None]). subst s. simpl.
      split.
      { rewrite <- !app_assoc. simpl.
        by apply prefix_app, prefix_cons, prefix_cons, prefix_nil. }
      split; [apply last_snoc|].
      split; [done|]. split; [exact Hok|exact Hko].
    + intros _. simpl. split; [done|apply last_snoc].
  - set (s := setError
                (Some (detailOr err ("No se pudo " +:+ verb is_active +:+ " el cliente")))
                (after (Http.Net request :: more) st1)).
    destruct (refresh_decides ("toggle-" +:+ iid) s)
      as (Hflag & (m & Hm) & Hok & Hko & Hnotice).
    simpl in Hm, Hok, Hko, Hnotice.
    split; [exact Hflag|]. split; [|split; [|split; [done|]]].
    + exists n, m. rewrite Hm. subst s. simpl.
      rewrite <- ?app_assoc, !requests_app. simpl.
      by rewrite Hn, app_nil_r, <- !app_assoc.
    + exists (history s ++ [Http.ShowError None]). subst s. simpl.
      split.
      { rewrite <- !app_assoc. simpl.
        by apply prefix_app, prefix_cons, prefix_cons, prefix_nil. }
      split; [apply last_snoc|].
      split.
      { intros err0 [= <-]. apply elem_of_app. left.
        apply elem_of_app. right. apply elem_of_cons. by left. }
      split; [exact Hok|exact Hko].
    + intros err0 _. exact Hnotice.
  - set (s := after (Http.Net request :: more) st1).
    destruct (refresh_decides ("toggle-" +:+ iid) s)
      as (_ & (m & Hm) & Hok & Hko & Hnotice).
    simpl in Hm, Hok, Hko, Hnotice.
    split; [apply lookup_insert_eq|]. split; [|split; [|split; [done|done]]].
    + exists n, m. simpl. rewrite requests_app. simpl. rewrite app_nil_r, Hm.
      subst s. simpl. rewrite <- ?app_assoc, !requests_app. simpl.
      rewrite Hn. by rewrite <- !app_assoc.
    + exists (history s ++ [Http.ShowError None]). subst s. simpl.
      split.
      { rewrite <- !app_assoc. simpl.
        by apply prefix_app, prefix_cons, prefix_cons, prefix_nil. }
      split; [apply last_snoc|].
      split; [done|]. split; [exact Hok|exact Hko].
Qed.

(** Whatever the backend does, a toggle sends its request, up to three
    times, and then asks for the list, up to three times.  The error on
    display at the end is decided by the refresh alone: none if the
    refresh brought a list, the refresh's own message otherwise.  A
    toggle's own error was shown, and cleared again by the refresh, before
    the list was asked for.  A toggle the backend accepts leaves the
    success notice, due to disappear after 3000 ms; one it refuses leaves
    the notice as it was.  In every case the toggle's loading flag ends up
    off.  The request and the refresh always end, accepted or refused. *)
Theorem toggle_outcome (iid : string) (is_active : bool) (st : State) :
  let st' := toggleClient world iid is_active st in
  let request := Http.PostToggle iid (actionOf is_active) in
  let call :=
    awaited request (fun h => Http.toggle world h iid (actionOf is_active))
      (history st ++ [Http.ShowError None]) in
  loadingStates st' !! ("toggle-" +:+ iid) = Some false
  /\ is_Some call
  /\ (exists n m,
        Http.requests (history st')
        = Http.requests (history st)
          ++ replicate (S n) request ++ replicate (S m) Http.GetClients)
  /\ (exists h,
        (history st ++ [Http.ShowError None; Http.Net request]) `prefix_of` h
        /\ last h = Some (Http.ShowError None)
        /\ is_Some (awaited Http.GetClients (Http.clients world) h)
        /\ (forall err,
              call = Some (Http.Rejected err) ->
              Http.ShowError
                (Some (detailOr err ("No se pudo " +:+ verb is_active +:+ " el cliente")))
              ∈ h)
        /\ (forall data,
              awaited Http.GetClients (Http.clients world) h
              = Some (Http.Resolved data) ->
              error st' = None /\ clients st' = rowOf <$> default [] data)
        /\ (forall err',
              awaited Http.GetClients (Http.clients world) h
              = Some (Http.Rejected err') ->
              error st' = Some (detailOr err' msgNoClients)
              /\ clients st' = clients st))
  /\ (call = Some (Http.Resolved tt) ->
      successMessage st'
      = Some ("Cliente " +:+ participle is_active +:+ " exitosamente!")
      /\ last (history st') = Some (Http.DismissSuccessAfter 3000%N))
  /\ (forall err,
        call = Some (Http.Rejected err) ->
        successMessage st' = successMessage st).
Proof.
  simpl.
  destruct (toggle_course iid is_active st)
    as (Hflag & Hrequests & (h & Hprefix & Hlast & Hshown & Hok & Hko)
        & Haccepted & Hrefused).
  split; [exact Hflag|]. split; [apply awaited_ends|].
  split; [exact Hrequests|]. split; [|by split].
  exists h. split; [exact Hprefix|]. split; [exact Hlast|].
  split; [apply awaited_ends|]. split; [exact Hshown|]. by split.
Qed.

(** A delete the user declines does nothing but ask.  A delete the user
    confirmed and the backend refused, at whichever attempt, removes no
    row by itself and never leaves its own message on display: that
    message was shown, and cleared again by the refresh, before the list
    was asked for.  The refresh always ends, and the rows and the message
    at the end are its own: the list it brought and no message, or the
    previous rows and the refresh's own message. *)
Theorem delete_declined_or_failed (iid clientName : string) (st : State) :
  let st' := deleteClient world iid clientName st in
  (Http.confirm world (history st) (Http.ConfirmDelete clientName) = false ->
   st' = after [Http.Asked (Http.ConfirmDelete clientName)] st)
  /\ (Http.confirm world (history st) (Http.ConfirmDelete clientName) = true ->
      forall err,
        awaited (Http.DeleteClient iid) (fun h => Http.delete world h iid)
          (history st
           ++ [Http.Asked (Http.ConfirmDelete clientName); Http.ShowError None])
        = Some (Http.Rejected err) ->
        exists h,
          (history st
           ++ [Http.Asked (Http.ConfirmDelete clientName); Http.ShowError None;
               Http.Net (Http.DeleteClient iid)]) `prefix_of` h
          /\ last h = Some (Http.ShowError None)
          /\ Http.ShowError (Some (detailOr err msgNotDeleted)) ∈ h
          /\ is_Some (awaited Http.GetClients (Http.clients world) h)
          /\ (forall data,
                awaited Http.GetClients (Http.clients world) h
                = Some (Http.Resolved data) ->
                clients st' = rowOf <$> default [] data /\ error st' = None)
          /\ (forall err',
                awaited Http.GetClients (Http.clients world) h
                = Some (Http.Rejected err') ->
                clients st' = clients st
                /\ error st' = Some (detailOr err' msgNoClients))).
Proof.
  simpl. split.
  - intros Hno. unfold deleteClient. by rewrite Hno.
  - intros Hyes err Hfail.
    destruct (delete_refused world iid clientName err st Hyes Hfail)
      as (h & Hprefix & Hlast & Hshown & Hok & Hko).
    exists h. split; [exact Hprefix|]. split; [exact Hlast|].
    split; [exact Hshown|]. split; [apply awaited_ends|]. by split.
Qed.


End FleetOutcomes.

Lemma toggle_outcome_witness :
  AdminPanel.successMessage
    (AdminPanel.toggleClient (backend gatewayDown None) "c1" false fleet)
  = Some "Cliente desactivado exitosamente!"
  /\ AdminPanel.successMessage (AdminPanel.toggleClient flaky "c1" false fleet)
     = None.
Proof.
  split.
  - destruct (proj1 (proj2 (proj2 (proj2 (proj2
                (toggle_outcome (backend gatewayDown None) "c1" false fleet)))))
                eq_refl)
      as (Hnotice & _).
    exact Hnotice.
  - exact (proj2 (proj2 (proj2 (proj2 (proj2
             (toggle_outcome flaky "c1" false fleet)))))
             gatewayDown eq_refl).
Defined.

Lemma delete_declined_or_failed_witness :
  AdminPanel.clients
    (AdminPanel.deleteClient (declining (backend gatewayDown None)) "c1" "Acme" fleet)
  = AdminPanel.clients fleet
  /\ AdminPanel.error (AdminPanel.deleteClient flaky "c1" "Acme" fleet)
     = Some "Bad gateway".
Proof.
  split.
  - rewrite (proj1 (delete_declined_or_failed (declining (backend gatewayDown None))
                      "c1" "Acme" fleet) eq_refl).
    reflexivity.
  - destruct (proj2 (delete_declined_or_failed flaky "c1" "Acme" fleet)
                eq_refl gatewayDown eq_refl)
      as (h & Hprefix & _ & _ & _ & _ & Hkept).
    apply (Hkept gatewayDown).
    destruct (awaited_last_answer Http.GetClients (Http.clients flaky) h)
      as (k & _ & ->).
    destruct Hprefix as [rest ->]. unfold flaky. simpl. reflexivity.
Defined.


(** ** An invariant of the rows *)

Section RowsInvariant.

Import AdminPanel.

Variable world : Http.World.

Lemma fetchClients_keeps_mirror st :
  rowsMirrorIds st -> rowsMirrorIds (fetchClients world st).
Proof.
  intros Hrows.
  destruct (proj2 (fetchClients_replaces_or_keeps world st))
    as [(records & _ & _ & Hnew)|[Hsame _]]; [done|].
  unfold rowsMirrorIds. by rewrite Hsame.
Qed.

Lemma mergePush_keeps_mirror data row :
  instance_id row = id row ->
  instance_id (mergePush data row) = id (mergePush data row).
Proof. unfold mergePush. by case_bool_decide. Qed.

(** Rows whose [instance_id] is their record's [id] stay so under every
    operation of the panel: push events, refresh, toggle, delete, e-mail
    update and resend, whatever the backend and the user answer. *)
(** The invariant only looks at [clients], which most updates leave
    alone. *)
Ltac rows :=
  try assumption;
  try (unfold rowsMirrorIds in *; simpl; assumption);
  try (unfold rowsMirrorIds; simpl; apply fetchClients_keeps_mirror;
       unfold rowsMirrorIds in *; simpl; assumption).

Theorem rows_keep_mirroring_ids (st : State) :
  rowsMirrorIds st ->
  (forall data, rowsMirrorIds (onmessage data st))
  /\ rowsMirrorIds (fetchClients world st)
  /\ (forall iid is_active, rowsMirrorIds (toggleClient world iid is_active st))
  /\ (forall iid clientName, rowsMirrorIds (deleteClient world iid clientName st))
  /\ rowsMirrorIds (updateClientEmail world st)
  /\ (forall iid clientEmail, rowsMirrorIds (resendEmail world iid clientEmail st)).
Proof.
  intros Hrows. repeat apply conj.
  - intros data. unfold rowsMirrorIds, onmessage. simpl.
    apply Forall_fmap. eapply Forall_impl; [exact Hrows|].
    intros row. apply mergePush_keeps_mirror.
  - by apply fetchClients_keeps_mirror.
  - intros iid is_active. unfold toggleClient.
    match goal with
    | |- context [fetchWithRetry ?r ?a ?s] =>
        destruct (fetchWithRetry_after r a s) as (more & Hstate & _);
        destruct (fetchWithRetry r a s) as [response st2]
    end.
    simpl in Hstate. subst st2.
    destruct response as [[[]|err]|]; rows.
  - intros iid clientName. unfold deleteClient.
    destruct (negb _); [exact Hrows|].
    match goal with
    | |- context [fetchWithRetry ?r ?a ?s] =>
        destruct (fetchWithRetry_after r a s) as (more & Hstate & _);
        destruct (fetchWithRetry r a s) as [response st2]
    end.
    simpl in Hstate. subst st2.
    destruct response as [[[]|err]|]; rows;
      unfold rowsMirrorIds in *; simpl;
      apply Forall_forall; intros row [_ Hin]%list_elem_of_filter;
      by apply (proj1 (Forall_forall _ _) Hrows).
  - unfold updateClientEmail.
    destruct (editingClient st) as [editing|]; [|exact Hrows].
    destruct (negb _); [exact Hrows|].
    match goal with
    | |- context [fetchWithRetry ?r ?a ?s] =>
        destruct (fetchWithRetry_after r a s) as (more & Hstate & _);
        destruct (fetchWithRetry r a s) as [response st2]
    end.
    simpl in Hstate. subst st2.
    destruct response as [[[]|err]|]; rows.
  - intros iid clientEmail. unfold resendEmail.
    destruct (negb _); [exact Hrows|].
    match goal with
    | |- context [fetchWithRetry ?r ?a ?s] =>
        destruct (fetchWithRetry_after r a s) as (more & Hstate & _);
        destruct (fetchWithRetry r a s) as [response st2]
    end.
    simpl in Hstate. subst st2.
    destruct response as [[[]|err]|]; rows.
Qed.

End RowsInvariant.

Lemma rows_keep_mirroring_ids_witness :
  rowsMirrorIds (AdminPanel.toggleClient (readOnly [bravoRecord]) "c1" false fleet)
  /\ rowsMirrorIds
       (AdminPanel.onmessage (Ws.mkPushEvent "c1" "close" None None) fleet).
Proof.
  assert (rowsMirrorIds fleet) as Hfleet by (repeat constructor).
  destruct (rows_keep_mirroring_ids (readOnly [bravoRecord]) fleet Hfleet)
    as (Hpush & _ & Htoggle & _).
  split; [apply Htoggle|apply Hpush].
Defined.

(** ** Push events in the admin panel *)

Section AdminPush.

Import AdminPanel.

Lemma onmessage_with (f : ClientRow -> ClientRow) d1 d2 st :
  (forall row, mergePush d2 (mergePush d1 row) = f row) ->
  onmessage d2 (onmessage d1 st) = setClients (f <$> clients st) st.
Proof.
  intros Hf. apply state_eq; simpl; try done.
  rewrite <- list_fmap_compose. apply list_fmap_ext. intros i row _. apply Hf.
Qed.

Lemma mergePush_hit data row :
  instance_id row = Ws.clientId data ->
  mergePush data row
  = mkClientRow (id row) (instance_id row) (name row) (email row)
      (unique_url row) (Ws.status data) (Ws.phone data).
Proof. intros Hhit. unfold mergePush. by rewrite bool_decide_eq_true_2. Qed.

Lemma mergePush_miss data row :
  instance_id row ≠ Ws.clientId data -> mergePush data row = row.
Proof. intros Hmiss. unfold mergePush. by rewrite bool_decide_eq_false_2. Qed.

Lemma mergePush_instance_id data row :
  instance_id (mergePush data row) = instance_id row.
Proof. unfold mergePush. by case_bool_decide. Qed.

(** The rows after a series of push events depend, for each client, only
    on the last event of that client: an event repeated changes nothing
    more, a later event for the same client replaces an earlier one, and
    events for two different clients can come in either order.  No event
    adds or removes a row. *)
Theorem admin_push_last_event_wins (d1 d2 : Ws.PushEvent) (st : State) :
  onmessage d1 (onmessage d1 st) = onmessage d1 st
  /\ (Ws.clientId d1 = Ws.clientId d2 ->
      onmessage d2 (onmessage d1 st) = onmessage d2 st)
  /\ (Ws.clientId d1 ≠ Ws.clientId d2 ->
      onmessage d2 (onmessage d1 st) = onmessage d1 (onmessage d2 st))
  /\ length (clients (onmessage d1 st)) = length (clients st)
  /\ instance_id <$> clients (onmessage d1 st) = instance_id <$> clients st.
Proof.
  split; [|split; [|split; [|split]]].
  - apply (onmessage_with (mergePush d1)). intros row.
    destruct (decide (instance_id row = Ws.clientId d1)) as [Hhit|Hmiss].
    + rewrite (mergePush_hit d1 (mergePush d1 row));
        [|by rewrite mergePush_instance_id].
      by rewrite !(mergePush_hit d1 row).
    + by rewrite !(mergePush_miss d1 row).
  - intros Hsame. apply (onmessage_with (mergePush d2)). intros row.
    destruct (decide (instance_id row = Ws.clientId d1)) as [Hhit|Hmiss].
    + rewrite (mergePush_hit d2 (mergePush d1 row));
        [|by rewrite mergePush_instance_id, <- Hsame].
      rewrite (mergePush_hit d1 row) by done.
      by rewrite (mergePush_hit d2 row) by congruence.
    + by rewrite (mergePush_miss d1 row).
  - intros Hother.
    rewrite (onmessage_with (fun row => mergePush d1 (mergePush d2 row)) d1 d2).
    + symmetry.
      by apply (onmessage_with (fun row => mergePush d1 (mergePush d2 row))).
    + intros row.
      destruct (decide (instance_id row = Ws.clientId d1)) as [Hhit1|Hmiss1].
      * rewrite (mergePush_miss d2 row) by congruence.
        rewrite (mergePush_miss d2 (mergePush d1 row)); [done|].
        rewrite mergePush_instance_id. congruence.
      * by rewrite (mergePush_miss d1 row), (mergePush_miss d1 (mergePush d2 row))
          by (by rewrite ?mergePush_instance_id).
  - simpl. by rewrite length_fmap.
  - simpl. rewrite <- list_fmap_compose. apply list_fmap_ext.
    intros i row _. simpl. apply mergePush_instance_id.
Qed.

End AdminPush.

Lemma admin_push_last_event_wins_witness :
  AdminPanel.onmessage (Ws.mkPushEvent "c1" "open" (Some "56911112222") None)
    (AdminPanel.onmessage (Ws.mkPushEvent "c1" "close" None None) fleet)
  = AdminPanel.onmessage (Ws.mkPushEvent "c1" "open" (Some "56911112222") None) fleet
  /\ AdminPanel.onmessage (Ws.mkPushEvent "c2" "open" None None)
       (AdminPanel.onmessage (Ws.mkPushEvent "c1" "close" None None) fleet)
     = AdminPanel.onmessage (Ws.mkPushEvent "c1" "close" None None)
         (AdminPanel.onmessage (Ws.mkPushEvent "c2" "open" None None) fleet).
Proof.
  split.
  - apply (proj1 (proj2 (admin_push_last_event_wins
                           (Ws.mkPushEvent "c1" "close" None None)
                           (Ws.mkPushEvent "c1" "open" (Some "56911112222") None)
                           fleet))).
    reflexivity.
  - apply (proj1 (proj2 (proj2 (admin_push_last_event_wins
                                  (Ws.mkPushEvent "c1" "close" None None)
                                  (Ws.mkPushEvent "c2" "open" None None)
                                  fleet)))).
    vm_compute. discriminate.
Defined.

(** ** Push events on the landing page *)

Section LandingPush.

Import ClientLanding.

Lemma or_else_idem a b : Js.or_else a (Js.or_else a b) = Js.or_else a b.
Proof. unfold Js.or_else. by destruct (Js.truthy a) eqn:Ha; rewrite ?Ha. Qed.

Lemma or_else_truthy a b :
  Js.truthy b = true -> Js.truthy (Js.or_else a b) = true.
Proof. unfold Js.or_else. by destruct (Js.truthy a) eqn:Ha. Qed.

Lemma onmessage_matching data st cd :
  clientData st = Some cd -> Ws.clientId data = id (client cd) ->
  onmessage data st
  = setClientData (Some (mergePush data cd))
      (if Js.truthy (Ws.qrCode data)
       then setErrorMessage None (setQrCode (Ws.qrCode data) st) else st).
Proof.
  intros Hcd Hid. unfold onmessage. rewrite Hcd.
  by rewrite bool_decide_eq_true_2.
Qed.

(** On the landing page an event delivered twice changes nothing more
    than once, and no event takes a known phone number away: once
    [connected_phone] is a non-empty string it stays one under every
    event. *)
Theorem landing_push_idempotent_and_phone_sticky (data : Ws.PushEvent) (st : State) :
  onmessage data (onmessage data st) = onmessage data st
  /\ (Js.truthy (landingPhone st) = true ->
      Js.truthy (landingPhone (onmessage data st)) = true).
Proof.
  split.
  - destruct (clientData st) as [cd|] eqn:Hcd; cycle 1.
    { assert (onmessage data st = st) as Hsame
        by (unfold onmessage; by rewrite Hcd).
      by rewrite !Hsame. }
    destruct (decide (Ws.clientId data = id (client cd))) as [Hid|Hid]; cycle 1.
    { assert (onmessage data st = st) as Hsame
        by (unfold onmessage; rewrite Hcd; by rewrite bool_decide_eq_false_2).
      by rewrite !Hsame. }
    rewrite (onmessage_matching data st cd Hcd Hid).
    erewrite onmessage_matching; [|by destruct (Js.truthy _)|done].
    apply state_ext; destruct (Js.truthy (Ws.qrCode data)); simpl; try done;
      unfold mergePush; simpl; by rewrite or_else_idem.
  - unfold landingPhone, onmessage.
    destruct (clientData st) as [cd|] eqn:Hcd; [|by rewrite Hcd].
    case_bool_decide; [|by rewrite Hcd].
    simpl. intros Hknown. by apply or_else_truthy.
Qed.

End LandingPush.

Lemma landing_push_idempotent_and_phone_sticky_witness :
  Js.truthy
    (landingPhone
       (ClientLanding.onmessage (Ws.mkPushEvent "c1" "close" None None) pairing))
  = true.
Proof.
  apply (proj2 (landing_push_idempotent_and_phone_sticky
                  (Ws.mkPushEvent "c1" "close" None None) pairing)).
  reflexivity.
Defined.

(** ** Rows, badges and buttons *)

Section Rows.

Import AdminPanel AdminRows.

Variable world : Http.World.

(** A row is treated as active in four places: the badge colour, the badge
    icon, the toggle button and the counter of connected clients.  The
    four agree, and a click on the button asks the backend for the
    opposite of what the row shows: to disconnect an active row, to
    connect any other.  The button reads [Desactivar] or [Activar]
    accordingly, except while a toggle of the row is running, when it is
    disabled and reads [Procesando...]. *)
Theorem row_shows_and_toggles_consistently (client : ClientRow) (st : State) :
  (shownActive client = true
   <-> getStatusVariant (status client) = "bg-success text-white")
  /\ (shownActive client = true <-> getStatusIcon (status client) = CheckCircle)
  /\ (shownActive client = true <-> argument (toggleButton st client) = false)
  /\ (toggling st client = false ->
      disabled (toggleButton st client) = false
      /\ (shownActive client = true
          <-> label (toggleButton st client) = "Desactivar"))
  /\ (toggling st client = true ->
      disabled (toggleButton st client) = true
      /\ label (toggleButton st client) = "Procesando...")
  /\ (exists more,
        Http.requests (history (clickToggle world client st))
        = Http.requests (history st)
          ++ Http.PostToggle (instance_id client)
               (if shownActive client then Http.disconnect else Http.connect)
             :: more)
  /\ connectedClients st <= totalClients st
  /\ whatsappConnected st <= totalClients st.
Proof.
  split; [|split; [|split; [|split; [|split; [|split; [|split]]]]]].
  - unfold shownActive, getStatusVariant.
    destruct (_ || _); [done|].
    split; [done|]. by repeat (destruct (_ || _)).
  - unfold shownActive, getStatusIcon.
    destruct (_ || _); [done|].
    split; [done|]. by repeat (destruct (_ || _)).
  - unfold toggleButton. by destruct (shownActive client).
  - intros Hidle. unfold toggleButton. rewrite Hidle.
    by destruct (shownActive client).
  - intros Hbusy. unfold toggleButton. rewrite Hbusy.
    by destruct (shownActive client).
  - unfold clickToggle, toggleClient, toggleButton.
    match goal with
    | |- context [fetchWithRetry ?r ?a ?s] =>
        destruct (fetchWithRetry_after r a s) as (more & Hstate & _);
        destruct (fetchWithRetry r a s) as [response st2]
    end.
    simpl in Hstate. subst st2.
    assert (forall s k v, history (setLoadingState k v s) = history s) as Hload by done.
    destruct response as [[[]|err]|]; simpl;
      match goal with
      | |- context [fetchClients world ?s] =>
          destruct (fetchClients_history world s) as (rest & Hrest & _)
      end;
      simpl in Hrest; rewrite ?Hrest; simpl;
      rewrite ?requests_app; simpl; rewrite ?requests_app; simpl;
      rewrite <- ?app_assoc; simpl;
      destruct (shownActive client); simpl; by eexists.
  - unfold connectedClients, totalClients. apply length_filter.
  - unfold whatsappConnected, totalClients. apply length_filter.
Qed.

End Rows.

Lemma row_shows_and_toggles_consistently_witness :
  AdminRows.label
    (AdminRows.toggleButton fleet
       (AdminPanel.mkClientRow "c1" "c1" "Acme" "acme@example.cl" "acme-law"
          "open" (Some "56911112222")))
  = "Desactivar".
Proof.
  destruct (row_shows_and_toggles_consistently nowhere
              (AdminPanel.mkClientRow "c1" "c1" "Acme" "acme@example.cl"
                 "acme-law" "open" (Some "56911112222")) fleet)
    as (_ & _ & _ & Hidle & _).
  destruct (Hidle eq_refl) as (_ & Hlabel). by apply Hlabel.
Defined.

(** ** Editing a client's address *)

Section EditEmail.

Import AdminPanel AdminRows.

Variable world : Http.World.


Lemma or_default_nonempty a d : d ≠ "" -> Js.or_default a d ≠ "".
Proof.
  intros Hd. unfold Js.or_default. destruct a as [s|]; [|done].
  destruct (String.eqb_spec s ""); done.
Qed.

Lemma truthy_Some msg : msg ≠ "" -> Js.truthy (Some msg) = true.
Proof. intros Hmsg. simpl. by destruct (String.eqb_spec msg ""). Qed.


End EditEmail.



(** ** How a fetch on the landing page ends *)

Section LandingSettles.

Import ClientLanding.

Variable world : Http.World.

Lemma onQrResponse_counter q st :
  retryCount st <= maxRetries -> retryCount (onQrResponse q st) <= maxRetries.
Proof.
  unfold onQrResponse, maxRetries. repeat case_match; simpl; lia.
Qed.

Lemma fetchClientData_settles unique_url fetchQr st :
  loading (fetchClientData unique_url world fetchQr st) = false
  /\ refreshing (fetchClientData unique_url world fetchQr st) = false
  /\ (retryCount st <= maxRetries ->
      retryCount (fetchClientData unique_url world fetchQr st) <= maxRetries).
Proof.
  funelim (fetchClientData unique_url world fetchQr st). clear Heqcall.
  repeat case_match; subst; simpl in *;
    (split; [done|split; [done|]]); intros Hmax; try done;
    try (by apply onQrResponse_counter).
  eapply H; [done..|]. simpl. lia.
Qed.

(** Whatever the backend does, a fetch on the landing page ends with the
    loading and refreshing flags off and with the retry counter still at
    most 3; the same holds for the first load and for a manual refresh.
    Without a slug in the URL nothing is sent and the invalid-link message
    is shown. *)
Theorem landing_fetch_settles (unique_url : option string) (st : State) :
  retryCount st <= maxRetries ->
  (forall fetchQr,
      let st' := fetchClientData unique_url world fetchQr st in
      loading st' = false /\ refreshing st' = false
      /\ retryCount st' <= maxRetries)
  /\ (let st' := loadData unique_url world st in
      loading st' = false /\ refreshing st' = false
      /\ retryCount st' <= maxRetries)
  /\ (let st' := handleRefresh unique_url world st in
      loading st' = false /\ refreshing st' = false
      /\ retryCount st' <= maxRetries)
  /\ (unique_url = None ->
      forall fetchQr,
        let st' := fetchClientData unique_url world fetchQr st in
        history st' = history st
        /\ errorMessage st' = Some msgInvalidLink
        /\ clientData st' = clientData st
        /\ qrCode st' = qrCode st).
Proof.
  intros Hmax. split; [|split; [|split]].
  - intros fetchQr. simpl.
    destruct (fetchClientData_settles unique_url fetchQr st) as (? & ? & Hc).
    auto.
  - unfold loadData. simpl.
    destruct (fetchClientData_settles unique_url true (setLoading true st))
      as (? & ? & Hc).
    auto.
  - unfold handleRefresh. simpl.
    destruct (fetchClientData_settles unique_url true
                (setRetryCount 0 (setRefreshing true st))) as (? & ? & Hc).
    repeat split; [done|]. apply Hc. simpl. unfold maxRetries. lia.
  - intros -> fetchQr. simpl.
    funelim (fetchClientData None world fetchQr st). done.
Qed.

End LandingSettles.

Lemma landing_fetch_settles_witness :
  ClientLanding.loading
    (ClientLanding.loadData (Some "acme-law") (backend instanceNotReady None)
       ClientLanding.initial)
  = false
  /\ ClientLanding.errorMessage
       (ClientLanding.fetchClientData None nowhere true ClientLanding.initial)
     = Some ClientLanding.msgInvalidLink.
Proof.
  assert (ClientLanding.retryCount ClientLanding.initial <= ClientLanding.maxRetries)
    as Hfresh by (vm_compute; lia).
  split.
  - destruct (proj1 (proj2 (landing_fetch_settles (backend instanceNotReady None)
                              (Some "acme-law") ClientLanding.initial Hfresh)))
      as (Hloading & _).
    exact Hloading.
  - destruct (proj2 (proj2 (proj2 (landing_fetch_settles nowhere None
                                     ClientLanding.initial Hfresh)))
                eq_refl true) as (_ & Hmsg & _).
    exact Hmsg.
Defined.

(** ** What the answer of the QR endpoint decides *)

Section LandingQrAnswer.

Import ClientLanding.

Variable world : Http.World.

Lemma fetchClientData_qr_answered unique_url fetchQr url c s q st :
  unique_url = Some url -> fetchQr = true ->
  Http.landing world (history st) url = Http.Resolved c ->
  Http.status_of world (history st ++ [Http.Net (Http.GetLanding url)]) (Http.id c)
  = Http.Resolved s ->
  Http.status s ≠ "open" ->
  Http.qr_of world
    (history st ++ [Http.Net (Http.GetLanding url);
                    Http.Net (Http.GetStatus (Http.id c))])
    (Http.id c)
  = Http.Resolved q ->
  fetchClientData unique_url world fetchQr st
  = finallyFetch
      (onQrResponse q
         (mkState (Some (newClientData c s)) (qrCode st) true None
            (refreshing st) (retryCount st)
            (history st ++ landingPass url c))).
Proof.
  funelim (fetchClientData unique_url world fetchQr st). clear Heqcall H.
  intros -> -> Hlanding Hstatus Hopen Hqr. simpl.
  rewrite Hlanding, Hstatus, (bool_decide_eq_false_2 _ Hopen). simpl.
  rewrite <- app_assoc. simpl. rewrite Hqr.
  unfold finallyFetch, onQrResponse, landingPass.
  repeat case_match; apply state_ext; simpl; rewrite <- ?app_assoc;
    reflexivity.
Qed.

(** When the landing record and a status other than [open] were fetched
    and the QR endpoint answers, one pass of three requests is all that
    happens.  A QR code in the answer is shown, clears the error and
    resets the retry counter.  Without a code, [state: 'open'] marks the
    client connected with the phone of the answer; anything else shows the
    answer's [error] text, or the default message, and is not retried,
    whatever that text says. *)
Theorem landing_qr_answer_decides (url : string) (c : Http.LandingData)
    (s : Http.StatusData) (q : Http.QrData) (st : State) :
  Http.landing world (history st) url = Http.Resolved c ->
  Http.status_of world (history st ++ [Http.Net (Http.GetLanding url)]) (Http.id c)
  = Http.Resolved s ->
  Http.status s ≠ "open" ->
  Http.qr_of world
    (history st ++ [Http.Net (Http.GetLanding url);
                    Http.Net (Http.GetStatus (Http.id c))])
    (Http.id c)
  = Http.Resolved q ->
  let st' := fetchClientData (Some url) world true st in
  history st' = history st ++ landingPass url c
  /\ (Js.truthy (Http.qr q) = true ->
      qrCode st' = Http.qr q /\ errorMessage st' = None
      /\ retryCount st' = 0
      /\ clientData st' = Some (newClientData c s))
  /\ (Js.truthy (Http.qr q) = false -> Http.state q = Some "open" ->
      qrCode st' = None /\ errorMessage st' = None
      /\ retryCount st' = retryCount st
      /\ clientData st'
         = Some (mkClientData (client (newClientData c s))
                   (mkWhatsapp true "open"
                      (Js.or_else (Http.qr_connected_phone q) None))))
  /\ (Js.truthy (Http.qr q) = false -> Http.state q ≠ Some "open" ->
      qrCode st' = None
      /\ errorMessage st' = Some (Js.or_default (Http.error q) msgNoQr)
      /\ retryCount st' = retryCount st
      /\ clientData st' = Some (newClientData c s)).
Proof.
  intros Hlanding Hstatus Hopen Hqr. simpl.
  rewrite (fetchClientData_qr_answered (Some url) true url c s q st
             eq_refl eq_refl Hlanding Hstatus Hopen Hqr).
  unfold onQrResponse. split; [|split; [|split]].
  - by repeat case_match.
  - by intros ->.
  - intros -> Hstate. by rewrite (bool_decide_eq_true_2 _ Hstate).
  - intros -> Hstate. by rewrite (bool_decide_eq_false_2 _ Hstate).
Qed.

End LandingQrAnswer.

Lemma landing_qr_answer_decides_witness :
  let world := backend instanceNotReady (Some 0) in
  let st' := ClientLanding.fetchClientData (Some "acme-law") world true
               ClientLanding.initial in
  ClientLanding.history st' = landingPass "acme-law" acme
  /\ ClientLanding.qrCode st' = Some "data:image/png;base64,BBBB".
Proof.
  cbv zeta.
  destruct (landing_qr_answer_decides (backend instanceNotReady (Some 0))
              "acme-law" acme (Http.mkStatusData "connecting")
              (Http.mkQrData (Some "data:image/png;base64,BBBB") None None None)
              ClientLanding.initial eq_refl eq_refl
              ltac:(discriminate) eq_refl)
    as (Hhistory & Hcode & _).
  split; [exact Hhistory|]. by destruct (Hcode eq_refl) as (-> & _).
Defined.

(** ** The retry budget of the landing page *)

Section LandingBudget.

Import ClientLanding.

Variable world : Http.World.

(** While the backend keeps reporting the instance missing, a fetch that
    starts with the counter at 3 or more makes a single pass, whereas the
    refresh button zeroes the counter first and so always runs three
    retries and a final pass, leaving the counter at 3; pressing it twice
    runs the full budget twice. *)
Theorem refresh_restores_retry_budget (url : string) (c : Http.LandingData)
    (s : Http.StatusData) (qrError : Http.AxiosError) (st : State) :
  (forall h, Http.landing world h url = Http.Resolved c) ->
  (forall h, Http.status_of world h (Http.id c) = Http.Resolved s) ->
  Http.status s ≠ "open" ->
  (forall h, Http.qr_of world h (Http.id c) = Http.Rejected qrError) ->
  instanceMissing (qrErrorMsg qrError) = true ->
  (maxRetries <= retryCount st ->
   history (fetchClientData (Some url) world true st)
   = history st ++ landingPass url c)
  /\ history (handleRefresh (Some url) world st)
     = history st ++ rounds maxRetries (landingRound url c) ++ landingPass url c
  /\ retryCount (handleRefresh (Some url) world st) = maxRetries
  /\ history (handleRefresh (Some url) world (handleRefresh (Some url) world st))
     = history st
       ++ (rounds maxRetries (landingRound url c) ++ landingPass url c)
       ++ (rounds maxRetries (landingRound url c) ++ landingPass url c).
Proof.
  intros Hlanding Hstatus Hopen Hqr Hmissing.
  assert (forall st0,
             history (handleRefresh (Some url) world st0)
             = history st0
               ++ rounds maxRetries (landingRound url c) ++ landingPass url c
             /\ retryCount (handleRefresh (Some url) world st0) = maxRetries)
    as Hrefresh.
  { intros st0. unfold handleRefresh.
    destruct (fetchClientData_exhausts world (Some url) true url c s qrError
                (setRetryCount 0 (setRefreshing true st0))
                eq_refl eq_refl Hlanding Hstatus Hopen Hqr Hmissing)
      as (Hhist & _ & _ & _ & Hcount).
    simpl in *. rewrite Hhist, Hcount. split; [|done].
    by replace (maxRetries - 0) with maxRetries by lia. }
  split; [|split; [|split]].
  - intros Hspent.
    destruct (fetchClientData_exhausts world (Some url) true url c s qrError st
                eq_refl eq_refl Hlanding Hstatus Hopen Hqr Hmissing)
      as (Hhist & _).
    rewrite Hhist. by replace (maxRetries - retryCount st) with 0 by lia.
  - apply Hrefresh.
  - apply Hrefresh.
  - destruct (Hrefresh (handleRefresh (Some url) world st)) as (-> & _).
    destruct (Hrefresh st) as (-> & _). by rewrite <- app_assoc.
Qed.

End LandingBudget.

Lemma refresh_restores_retry_budget_witness :
  let world := backend instanceNotReady None in
  let spent := ClientLanding.loadData (Some "acme-law") world
                 ClientLanding.initial in
  Http.qrRequests
    (ClientLanding.history
       (ClientLanding.handleRefresh (Some "acme-law") world spent))
  = Http.qrRequests (ClientLanding.history spent) + 4.
Proof.
  cbv zeta.
  destruct (refresh_restores_retry_budget (backend instanceNotReady None)
              "acme-law" acme (Http.mkStatusData "connecting") instanceNotReady
              (ClientLanding.loadData (Some "acme-law")
                 (backend instanceNotReady None) ClientLanding.initial)
              (fun _ => eq_refl) (fun _ => eq_refl) ltac:(discriminate)
              (fun _ => eq_refl) eq_refl)
    as (_ & Hhistory & _).
  rewrite Hhistory, qrRequests_app. reflexivity.
Defined.

(** ** Unlinking from the landing page, once past the question *)

Section LandingUnlink.

Import ClientLanding.

Variable unique_url : option string.
Variable world : Http.World.

(** Unlinking from the landing page.  Without a client identifier on
    display the only effect is one error toast: no question, no request.
    When the user accepts and the backend turns the request down, a toast
    reports it and nothing is refetched: client data, QR code and error
    banner stay as they were.  When the backend accepts, the success toast
    comes first and the data are fetched again, ending with both progress
    flags off. *)
Theorem landing_unlink_outcomes (st : State) :
  let st' := handleDisconnectWhatsApp unique_url world st in
  (Js.truthy (currentClientId st) = false ->
   st' = record (Http.ToastError msgNoClientId) st)
  /\ (forall cid error,
         currentClientId st = Some cid -> cid ≠ "" ->
         Http.confirm world (history st) Http.ConfirmUnlink = true ->
         Http.toggle world (history st ++ [Http.Asked Http.ConfirmUnlink]) cid
           Http.disconnect = Http.Rejected error ->
         history st'
         = history st
           ++ [Http.Asked Http.ConfirmUnlink;
               Http.Net (Http.PostToggle cid Http.disconnect);
               Http.ToastError msgUnlinkFailed]
         /\ clientData st' = clientData st /\ qrCode st' = qrCode st
         /\ errorMessage st' = errorMessage st /\ refreshing st' = false)
  /\ (forall cid,
         currentClientId st = Some cid -> cid ≠ "" ->
         Http.confirm world (history st) Http.ConfirmUnlink = true ->
         Http.toggle world (history st ++ [Http.Asked Http.ConfirmUnlink]) cid
           Http.disconnect = Http.Resolved tt ->
         (history st
          ++ [Http.Asked Http.ConfirmUnlink;
              Http.Net (Http.PostToggle cid Http.disconnect);
              Http.ToastSuccess msgUnlinked])
           `prefix_of` history st'
         /\ loading st' = false /\ refreshing st' = false).
Proof.
  simpl. unfold handleDisconnectWhatsApp. split; [|split].
  - destruct (currentClientId st) as [cid|]; [|done].
    simpl. destruct cid; [done|discriminate].
  - intros cid error -> Hcid Hyes Hno.
    rewrite (proj2 (String.eqb_neq cid "") Hcid), Hyes. simpl.
    rewrite Hno. simpl. rewrite <- !app_assoc. by repeat split.
  - intros cid -> Hcid Hyes Hok.
    rewrite (proj2 (String.eqb_neq cid "") Hcid), Hyes. simpl.
    rewrite Hok. simpl. split.
    + etrans; [|apply history_grows]. simpl. by rewrite <- !app_assoc.
    + match goal with
      | |- context [fetchClientData ?u ?w ?f ?s] =>
          destruct (fetchClientData_settles w u f s) as (Hl & _)
      end.
      done.
Qed.

End LandingUnlink.

Lemma landing_unlink_outcomes_witness :
  ClientLanding.clientData
    (ClientLanding.handleDisconnectWhatsApp (Some "acme-law")
       (accepting nowhere) linked)
  = ClientLanding.clientData linked
  /\ ClientLanding.loading
       (ClientLanding.handleDisconnectWhatsApp (Some "acme-law")
          (backend gatewayDown None) linked)
     = false.
Proof.
  split.
  - destruct (proj1 (proj2 (landing_unlink_outcomes (Some "acme-law")
                              (accepting nowhere) linked))
                "c1" notFound eq_refl ltac:(discriminate) eq_refl eq_refl)
      as (_ & Hdata & _).
    exact Hdata.
  - destruct (proj2 (proj2 (landing_unlink_outcomes (Some "acme-law")
                              (backend gatewayDown None) linked))
                "c1" eq_refl ltac:(discriminate) eq_refl eq_refl)
      as (_ & Hloading & _).
    exact Hloading.
Defined.

(** ** The QR page: what a render that shows a connected client can do *)

Section QrPageClosure.

Import QRAssistantPage.

Variable unique_url : option string.
Variable world : Http.World.

Lemma fetchQRCode_connected captured instance_id st :
  isConnected captured = true ->
  fetchQRCode world captured instance_id st = setQrCode None st.
Proof.
  funelim (fetchQRCode world captured instance_id st). clear Heqcall H.
  by intros ->.
Qed.

Lemma fetchQRCode_settles captured instance_id st :
  loading (fetchQRCode world captured instance_id st) = loading st
  /\ (isConnected captured = false ->
      refreshing (fetchQRCode world captured instance_id st) = false)
  /\ (retryCount st <= maxRetries ->
      retryCount (fetchQRCode world captured instance_id st) <= maxRetries).
Proof.
  funelim (fetchQRCode world captured instance_id st). clear Heqcall.
  unfold onQrResponse, maxRetries in *.
  repeat case_match; subst; simpl in *;
    (split; [try done|split; [try done|]]); try (intros; lia).
  - by destruct (H err ltac:(done)) as (-> & _).
  - intros Hmax.
    destruct (H err ltac:(done)) as (_ & _ & Hcount).
    apply Hcount. lia.
Qed.

Lemma qr_page_connected_fetch st :
  isConnected (clientData st) = true ->
  Http.qrRequests (history (fetchClientData unique_url world st))
  = Http.qrRequests (history st)
  /\ qrCode (fetchClientData unique_url world st) = None.
Proof.
  intros Hconnected. unfold fetchClientData.
  repeat case_match; simpl;
    try rewrite (fetchQRCode_connected _ _ _ Hconnected); simpl;
    rewrite ?qrRequests_app, ?qrRequests_cons, ?qrRequests_nil; simpl;
    split; try done; lia.
Qed.

(** On the QR page the callbacks of a render that shows the client as
    connected never ask for a QR code: the status poll, the refresh button
    and the refetch after an unlink fetch the record and the status but
    skip the QR request whatever the status says, and leave no QR code on
    display; the QR timer does nothing at all. *)
Theorem qr_page_connected_render_skips_qr (st : State) :
  isConnected (clientData st) = true ->
  (Http.qrRequests (history (fetchClientData unique_url world st))
   = Http.qrRequests (history st)
   /\ qrCode (fetchClientData unique_url world st) = None)
  /\ (Http.qrRequests (history (handleRefresh unique_url world st))
      = Http.qrRequests (history st)
      /\ qrCode (handleRefresh unique_url world st) = None)
  /\ Http.qrRequests (history (handleDisconnect unique_url world st))
     = Http.qrRequests (history st)
  /\ qrTick world st = st.
Proof.
  intros Hconnected. split; [|split; [|split]].
  - by apply qr_page_connected_fetch.
  - unfold handleRefresh.
    by destruct (qr_page_connected_fetch
                   (setRetryCount 0 (setRefreshing true st)) Hconnected).
  - unfold handleDisconnect.
    repeat case_match; simpl;
      rewrite ?qrRequests_app, ?qrRequests_cons, ?qrRequests_nil; simpl;
      try lia.
    match goal with
    | |- context [fetchClientData _ _ ?s] =>
        destruct (qr_page_connected_fetch s Hconnected) as (-> & _)
    end.
    simpl. rewrite ?qrRequests_app, ?qrRequests_cons, ?qrRequests_nil.
    simpl. lia.
  - unfold qrTick. by rewrite Hconnected.
Qed.

(** A fetch on the QR page always ends with the loading and refreshing
    flags off, and never raises the retry counter above 3; the QR timer
    leaves the loading flag alone and respects the same bound. *)
Theorem qr_page_fetch_settles (st : State) :
  retryCount st <= maxRetries ->
  (let st' := fetchClientData unique_url world st in
   loading st' = false /\ refreshing st' = false
   /\ retryCount st' <= maxRetries)
  /\ (let st' := handleRefresh unique_url world st in
      loading st' = false /\ refreshing st' = false
      /\ retryCount st' <= maxRetries)
  /\ (let st' := loadData unique_url world st in
      loading st' = false /\ refreshing st' = false
      /\ retryCount st' <= maxRetries)
  /\ (let st' := qrTick world st in
      loading st' = loading st /\ retryCount st' <= maxRetries).
Proof.
  assert (forall st0,
             retryCount st0 <= maxRetries ->
             loading (fetchClientData unique_url world st0) = false
             /\ refreshing (fetchClientData unique_url world st0) = false
             /\ retryCount (fetchClientData unique_url world st0) <= maxRetries)
    as Hfetch.
  { intros st0 Hmax. unfold fetchClientData.
    repeat case_match; simpl; (split; [done|split; [done|]]); try done.
    match goal with
    | |- context [fetchQRCode _ ?c ?i ?s] =>
        destruct (fetchQRCode_settles c i s) as (_ & _ & Hcount)
    end.
    by apply Hcount. }
  intros Hmax. split; [|split; [|split]]; simpl.
  - by apply Hfetch.
  - unfold handleRefresh. apply Hfetch. simpl. unfold maxRetries. lia.
  - unfold loadData.
    destruct (Hfetch (setLoading true st) Hmax) as (? & ? & ?). done.
  - unfold qrTick. case_match; [done|].
    match goal with
    | |- context [fetchQRCode _ ?c ?i ?s] =>
        destruct (fetchQRCode_settles c i s) as (Hl & _ & Hcount)
    end.
    auto.
Qed.

End QrPageClosure.

Lemma qr_page_connected_render_skips_qr_witness :
  Http.qrRequests
    (QRAssistantPage.history
       (QRAssistantPage.handleDisconnect (Some "acme-law")
          (backend instanceNotReady (Some 0)) qrPageLinked))
  = 0
  /\ QRAssistantPage.qrCode
       (QRAssistantPage.handleRefresh (Some "acme-law")
          (backend instanceNotReady (Some 0)) qrPageLinked)
     = None.
Proof.
  destruct (qr_page_connected_render_skips_qr (Some "acme-law")
              (backend instanceNotReady (Some 0)) qrPageLinked eq_refl)
    as (_ & (_ & Hcode) & Hunlink & _).
  split; [exact Hunlink|exact Hcode].
Defined.

Lemma qr_page_fetch_settles_witness :
  QRAssistantPage.loading
    (QRAssistantPage.loadData (Some "acme-law")
       (backend instanceNotReady None) QRAssistantPage.initial)
  = false
  /\ QRAssistantPage.retryCount
       (QRAssistantPage.loadData (Some "acme-law")
          (backend instanceNotReady None) QRAssistantPage.initial)
     <= QRAssistantPage.maxRetries.
Proof.
  destruct (qr_page_fetch_settles (Some "acme-law")
              (backend instanceNotReady None) QRAssistantPage.initial
              ltac:(vm_compute; lia))
    as (_ & _ & (Hloading & _ & Hcount) & _).
  split; [exact Hloading|exact Hcount].
Defined.

(** ** The QR page: what the answer of the QR endpoint decides *)

Section QrPageAnswer.

Import QRAssistantPage.

Variable unique_url : option string.
Variable world : Http.World.

Lemma fetchQRCode_answered captured instance_id q st :
  isConnected captured = false ->
  Http.qr_of world (history st) instance_id = Http.Resolved q ->
  fetchQRCode world captured instance_id st
  = setRefreshing false
      (onQrResponse q
         (record (Http.Net (Http.GetQr instance_id)) (setRefreshing true st))).
Proof.
  funelim (fetchQRCode world captured instance_id st). clear Heqcall H.
  intros -> Hq. simpl. by rewrite Hq.
Qed.

(** On the QR page, when the record and a status other than [open] were
    fetched by a render that does not show the client as connected and the
    QR endpoint answers, exactly three requests are made.  A QR code in the
    answer is shown, clears the error and resets the retry counter.  An
    answer without a code always becomes an error, its [error] text or the
    default message, also when it says [state: 'open']: the client data
    stay those just fetched and nothing is retried. *)
Theorem qr_page_answer_decides (c : Http.LandingData) (s : Http.StatusData)
    (q : Http.QrData) (st : State) :
  isConnected (clientData st) = false ->
  Http.landing world (history st) (inUrl unique_url) = Http.Resolved c ->
  Http.status_of world
    (history st ++ [Http.Net (Http.GetLanding (inUrl unique_url))]) (Http.id c)
  = Http.Resolved s ->
  Http.status s ≠ "open" ->
  Http.qr_of world
    (history st ++ [Http.Net (Http.GetLanding (inUrl unique_url));
                    Http.Net (Http.GetStatus (Http.id c))])
    (Http.id c)
  = Http.Resolved q ->
  let st' := fetchClientData unique_url world st in
  history st'
  = history st
    ++ [Http.Net (Http.GetLanding (inUrl unique_url));
        Http.Net (Http.GetStatus (Http.id c));
        Http.Net (Http.GetQr (Http.id c))]
  /\ clientData st' = Some (newClientData c s)
  /\ (Js.truthy (Http.qr q) = true ->
      qrCode st' = Http.qr q /\ errorMessage st' = None
      /\ retryCount st' = 0)
  /\ (Js.truthy (Http.qr q) = false ->
      qrCode st' = None
      /\ errorMessage st' = Some (Js.or_default (Http.error q) msgNoQr)
      /\ retryCount st' = retryCount st).
Proof.
  intros Hconnected Hlanding Hstatus Hopen Hqr. simpl.
  unfold fetchClientData. simpl.
  rewrite Hlanding, Hstatus, (bool_decide_eq_false_2 _ Hopen). simpl.
  erewrite fetchQRCode_answered;
    [|exact Hconnected|simpl; rewrite <- app_assoc; exact Hqr].
  unfold onQrResponse. split; [|split; [|split]].
  - case_match; simpl; by rewrite <- !app_assoc.
  - by case_match.
  - by intros ->.
  - by intros ->.
Qed.

End QrPageAnswer.

Lemma qr_page_answer_decides_witness :
  QRAssistantPage.qrCode
    (QRAssistantPage.fetchClientData (Some "acme-law")
       (backend instanceNotReady (Some 0)) QRAssistantPage.initial)
  = Some "data:image/png;base64,BBBB".
Proof.
  destruct (qr_page_answer_decides (Some "acme-law")
              (backend instanceNotReady (Some 0)) acme
              (Http.mkStatusData "connecting")
              (Http.mkQrData (Some "data:image/png;base64,BBBB") None None None)
              QRAssistantPage.initial eq_refl eq_refl eq_refl
              ltac:(discriminate) eq_refl)
    as (_ & _ & Hcode & _).
  by destruct (Hcode eq_refl) as (-> & _).
Defined.

(** ** The status display and its badge *)

Section StatusDisplay.

Import ConnectionStatus.

Lemma badge_lookup_miss variant :
  variant ≠ "default" -> variant ≠ "secondary" -> variant ≠ "destructive" ->
  variant ≠ "outline" ->
  Badge.badgeVariants !! variant = None.
Proof.
  intros. unfold Badge.badgeVariants. simpl.
  rewrite !lookup_insert_ne by done. apply lookup_empty.
Qed.

(** [ConnectionStatus] shows exactly one of its four states.  It reads
    [Conectado], with a phone text that is never empty, exactly when the
    status is [open], and [Desconectado] for every status other than
    [open], [connecting] and [pending].  The waiting badge is drawn exactly
    when the status is [pending], and since [Badge] knows no [warning]
    variant it is drawn with the classes of the default one, as is every
    variant [Badge] does not name and [Object.prototype] does not carry. *)
Theorem connection_status_display (status : string) (user : option User) :
  let view := ConnectionStatus status user in
  Nat.b2n (isConnected status) + Nat.b2n (isConnecting status)
  + Nat.b2n (isPending status) + Nat.b2n (isDisconnected status) = 1
  /\ (statusText view = "Conectado (" +:+ phoneOf user +:+ ")"
      <-> status = "open")
  /\ phoneOf user ≠ ""
  /\ (statusText view = "Desconectado" <-> isDisconnected status = true)
  /\ (assistantText view = "Activo" <-> status = "open")
  /\ (is_Some (pendingBadge view) <-> status = "pending")
  /\ (status = "pending" ->
      pendingBadge view = Some (Badge.Text "badge bg-primary text-white "))
  /\ (forall variant className,
         variant ≠ "default" -> variant ≠ "secondary" ->
         variant ≠ "destructive" -> variant ≠ "outline" ->
         variant ∉ Badge.objectPrototype ->
         Badge.Badge className (Some variant) = Badge.Badge className None).
Proof.
  simpl. unfold isDisconnected, isConnected, isConnecting, isPending.
  split; [|split; [|split; [|split; [|split; [|split; [|split]]]]]].
  - repeat case_bool_decide; subst; try done.
  - repeat case_bool_decide; subst; simpl; split; try done.
  - unfold phoneOf. apply or_default_nonempty. done.
  - repeat case_bool_decide; subst; simpl; split; try done.
  - repeat case_bool_decide; subst; simpl; split; try done.
  - repeat case_bool_decide; subst; simpl; split; try done;
      try (by intros [? ?]); by eexists.
  - by intros ->.
  - intros variant className ? ? ? ? Hproto. unfold Badge.Badge, Badge.get.
    simpl. rewrite badge_lookup_miss by done.
    by rewrite (bool_decide_eq_false_2 _ Hproto).
Qed.

End StatusDisplay.

Lemma connection_status_display_witness :
  ConnectionStatus.pendingBadge
    (ConnectionStatus.ConnectionStatus "pending" None)
  = Some (Badge.Text "badge bg-primary text-white ")
  /\ Badge.Badge None (Some "warning") = Badge.Badge None None.
Proof.
  destruct (connection_status_display "pending" None)
    as (_ & _ & _ & _ & _ & _ & Hbadge & Hvariant).
  split; [exact (Hbadge eq_refl)|].
  apply Hvariant; try discriminate.
  unfold Badge.objectPrototype. rewrite !not_elem_of_cons.
  repeat split; try discriminate. apply not_elem_of_nil.
Defined.

(** ** What the landing page draws after a fetch *)

Section LandingDisplay.

Import ClientLanding ClientLandingView.

Variable world : Http.World.

(** After a fetch that obtained a QR code, the landing page draws that
    code exactly when the record does not say [connected] and the status,
    read as [disconnected] when empty, is [connecting], [pending] or
    [disconnected].  A record that says [connected] gets the connected card
    instead, and a status [close] the closed notice; in both cases the code
    was fetched but is not drawn.  No error banner is drawn. *)
Theorem landing_draws_fetched_code_when_scannable (url : string)
    (c : Http.LandingData) (s : Http.StatusData) (q : Http.QrData)
    (code : string) (st : State) :
  Http.landing world (history st) url = Http.Resolved c ->
  Http.status_of world (history st ++ [Http.Net (Http.GetLanding url)]) (Http.id c)
  = Http.Resolved s ->
  Http.status s ≠ "open" ->
  Http.qr_of world
    (history st ++ [Http.Net (Http.GetLanding url);
                    Http.Net (Http.GetStatus (Http.id c))])
    (Http.id c)
  = Http.Resolved q ->
  Http.qr q = Some code -> code ≠ "" ->
  exists main,
    render (fetchClientData (Some url) world true st) = Page main
    /\ errorBanner main = None
    /\ ((exists heading, panel main = QrPanel (QRCodeDisplay.Scan heading code))
        <-> Http.connected c = false
            /\ QRCodeDisplay.scannable
                 (Js.or_default (Some (Http.status s)) "disconnected") = true)
    /\ (Http.connected c = true ->
        panel main = ConnectedCard (mkButton (negb (Js.truthy (Some (Http.id c))))
                                      "Desvincular WhatsApp"))
    /\ (Http.connected c = false -> Http.status s = "close" ->
        panel main = QrPanel (QRCodeDisplay.Closed QRCodeDisplay.msgClosed)).
Proof.
  intros Hlanding Hstatus Hopen Hqr Hcode Hnonempty.
  rewrite (fetchClientData_qr_answered world (Some url) true url c s q st
             eq_refl eq_refl Hlanding Hstatus Hopen Hqr).
  assert (Js.truthy (Http.qr q) = true) as Htruthy.
  { rewrite Hcode. by apply truthy_Some. }
  unfold onQrResponse. rewrite Htruthy.
  unfold render, connectedOrOpen, shownStatus, statusOf. simpl.
  eexists. split; [reflexivity|]. simpl.
  assert (bool_decide (Some (Http.status s) = Some "open") = false) as Hnot.
  { apply bool_decide_eq_false_2. intros [= ?]. done. }
  rewrite Hnot, orb_false_r, Hcode. clear Hnot.
  split; [done|].
  set (shown := if Http.status s =? "" then _ else _).
  destruct (Http.connected c); simpl.
  { split; [split; [by intros [? ?]|by intros [? _]]|]. by split. }
  unfold QRCodeDisplay.QRCodeDisplay.
  rewrite (truthy_Some code Hnonempty). simpl.
  rewrite andb_false_r, andb_true_r.
  split; [|split; [done|]].
  - case_bool_decide as Hclose.
    + split; [by intros [? ?]|]. intros [_ Hscan]. by rewrite Hclose in Hscan.
    + destruct (QRCodeDisplay.scannable shown).
      * split; [done|]. intros _. by eexists.
      * split; [by intros [? ?]|by intros [_ ?]].
  - intros _ Hclose. subst shown. by rewrite Hclose.
Qed.

(** The unlink button of the landing page is drawn only in the connected
    card, and whenever it can be clicked its handler starts by asking the
    user: the branch that only reports a missing client identifier cannot
    be reached through the button. *)
Theorem landing_unlink_button_asks (unique_url : option string) (st : State)
    (main : Main) (button : Button) :
  render st = Page main ->
  panel main = ConnectedCard button ->
  disabled button = false ->
  connectedOrOpen st = true
  /\ refreshing st = false
  /\ (history st ++ [Http.Asked Http.ConfirmUnlink])
       `prefix_of` history (handleDisconnectWhatsApp unique_url world st).
Proof.
  unfold render. destruct (loading st); [done|]. intros [= <-]. simpl.
  destruct (connectedOrOpen st); [|done]. intros [= <-]. simpl.
  intros [Hidle Hid]%orb_false_elim. apply negb_false_iff in Hid.
  split; [done|]. split; [done|].
  unfold handleDisconnectWhatsApp.
  destruct (currentClientId st) as [cid|]; [|done]. simpl in Hid.
  apply negb_true_iff in Hid. rewrite Hid. simpl.
  repeat case_match; simpl; rewrite <- ?app_assoc; simpl;
    try reflexivity;
    try (by apply prefix_app, prefix_cons, prefix_nil).
  etrans; [|apply history_grows]. simpl. rewrite <- ?app_assoc. simpl.
  by apply prefix_app, prefix_cons, prefix_nil.
Qed.

End LandingDisplay.

Lemma landing_draws_fetched_code_when_scannable_witness :
  exists main,
    ClientLandingView.render
      (ClientLanding.fetchClientData (Some "acme-law")
         (backend instanceNotReady (Some 0)) true ClientLanding.initial)
    = ClientLandingView.Page main
    /\ ClientLandingView.panel main
       = ClientLandingView.QrPanel
           (QRCodeDisplay.Scan QRCodeDisplay.headingOther
              "data:image/png;base64,BBBB").
Proof.
  destruct (landing_draws_fetched_code_when_scannable
              (backend instanceNotReady (Some 0)) "acme-law" acme
              (Http.mkStatusData "connecting")
              (Http.mkQrData (Some "data:image/png;base64,BBBB") None None None)
              "data:image/png;base64,BBBB" ClientLanding.initial
              eq_refl eq_refl ltac:(discriminate) eq_refl eq_refl
              ltac:(discriminate))
    as (main & Hrender & _ & Hscan & _).
  exists main. split; [exact Hrender|].
  destruct (proj2 Hscan (conj eq_refl eq_refl)) as (heading & Hpanel).
  rewrite Hpanel. revert Hpanel. revert Hrender. vm_compute.
  intros [= <-] [= <-]. reflexivity.
Defined.

Lemma landing_unlink_button_asks_witness :
  [Http.Asked Http.ConfirmUnlink]
    `prefix_of`
    ClientLanding.history
      (ClientLanding.handleDisconnectWhatsApp (Some "acme-law")
         (declining nowhere) linked).
Proof.
  exact (proj2 (proj2 (landing_unlink_button_asks (declining nowhere)
                         (Some "acme-law") linked _ _
                         eq_refl eq_refl eq_refl))).
Defined.

(** ** What the QR page draws *)

Section QrPageDisplay.

Import QRAssistantPage QRAssistantPageView.

Variable world : Http.World.

Lemma messageFor_nonempty error : messageFor error ≠ "".
Proof.
  unfold messageFor. by repeat case_match.
Qed.

Lemma fetchQRCode_keeps_client captured instance_id st :
  clientData (fetchQRCode world captured instance_id st) = clientData st.
Proof.
  funelim (fetchQRCode world captured instance_id st). clear Heqcall.
  unfold onQrResponse.
  repeat case_match; subst; simpl in *; try done.
  by rewrite (H err ltac:(done)).
Qed.

(** Without a slug the QR page draws the invalid-link screen whatever its
    state, although the mounting effect still asks the backend for the
    client [undefined]. *)
Theorem qr_page_without_slug (st : State) :
  render None st = InvalidLink
  /\ exists more,
      Http.requests (history (loadData None world st))
      = Http.requests (history st) ++ Http.GetLanding "undefined" :: more.
Proof.
  split; [done|]. unfold loadData, fetchClientData. simpl.
  repeat case_match; simpl; rewrite ?requests_app; simpl;
    try (by eexists; rewrite <- ?app_assoc).
  match goal with
  | |- context [fetchQRCode _ ?cap ?i ?s] =>
      destruct (fetchQRCode_history_grows world cap i s) as [k' ->]
  end.
  simpl. rewrite !requests_app. simpl. rewrite <- !app_assoc. simpl.
  by eexists.
Qed.

(** A fetch that fails at its first request never blanks a QR page that
    already shows a client: the page keeps the status display of that
    client and adds a banner with the message for the failure.  Only a
    page that has no client yet is replaced by the error screen. *)
Theorem qr_page_failed_poll_keeps_page (url : string) (error : Http.AxiosError)
    (st : State) :
  url ≠ "" ->
  Http.landing world (history st) url = Http.Rejected error ->
  let st' := fetchClientData (Some url) world st in
  (is_Some (clientData st) ->
   exists main,
     render (Some url) st' = Page main
     /\ errorBanner main = Some (messageFor error)
     /\ connection main
        = ConnectionStatus.ConnectionStatus (shownStatus st)
            (Some (connectedUser st)))
  /\ (clientData st = None ->
      render (Some url) st'
      = ErrorScreen (messageFor error) (mkButton false "Intentar de nuevo")).
Proof.
  intros Hurl Hlanding. cbv zeta.
  set (st' := fetchClientData (Some url) world st).
  assert (loading st' = false /\ refreshing st' = false
          /\ clientData st' = clientData st
          /\ errorMessage st' = Some (messageFor error))
    as (Hloading & Hrefreshing & Hdata & Herror).
  { subst st'. unfold fetchClientData. simpl in *. by rewrite Hlanding. }
  unfold render, shownStatus, connectedUser.
  rewrite (truthy_Some url Hurl), Hloading, Hrefreshing, Hdata, Herror.
  rewrite (truthy_Some _ (messageFor_nonempty error)). simpl. split.
  - intros [cd Hcd]. rewrite Hcd. simpl. eexists. by split.
  - by intros ->.
Qed.

(** The QR page chooses between the connected card and the QR panel by the
    record's [connected] flag alone, while the status line follows the
    status.  A record flagged connected gets the connected card whatever
    its status; a record not flagged connected whose status is [open] is
    told [Activo] above a panel saying that no QR code can be shown. *)
Theorem qr_page_card_follows_connected_flag (url : string)
    (c : Http.LandingData) (s : Http.StatusData) (st : State) :
  url ≠ "" ->
  Http.landing world (history st) url = Http.Resolved c ->
  Http.status_of world (history st ++ [Http.Net (Http.GetLanding url)]) (Http.id c)
  = Http.Resolved s ->
  exists main,
    render (Some url) (fetchClientData (Some url) world st) = Page main
    /\ (ConnectionStatus.assistantText (connection main) = "Activo"
        <-> Http.status s = "open")
    /\ (Http.connected c = true ->
        panel main
        = ConnectedCard noteConnected (mkButton false "Desconectar WhatsApp"))
    /\ (Http.connected c = false -> Http.status s = "open" ->
        panel main
        = QrPanel
            (QRCodeDisplay.Unavailable
               (if bool_decide (Http.client_status c = "pending")
                then msgPendingClient else QRCodeDisplay.msgUnavailable))
            (mkButton false "Actualizar Estado")).
Proof.
  intros Hurl Hlanding Hstatus.
  set (st' := fetchClientData (Some url) world st).
  assert (loading st' = false /\ refreshing st' = false
          /\ clientData st' = Some (newClientData c s)
          /\ (Http.status s = "open" ->
              qrCode st' = None /\ errorMessage st' = None))
    as (Hloading & Hrefreshing & Hdata & Hopen).
  { subst st'. unfold fetchClientData. simpl in *.
    rewrite Hlanding, Hstatus. case_bool_decide as Hs; simpl.
    - done.
    - by rewrite fetchQRCode_keeps_client. }
  unfold render. rewrite (truthy_Some url Hurl), Hloading, Hdata. simpl.
  rewrite andb_false_r. eexists. split; [reflexivity|]. simpl.
  unfold shownStatus, clientStatus. rewrite Hdata, Hrefreshing. simpl.
  split; [|split].
  - unfold ConnectionStatus.isConnected, ConnectionStatus.isPending.
    destruct (Http.status s =? "") eqn:Hempty.
    + apply String.eqb_eq in Hempty. rewrite Hempty. simpl. by split.
    + repeat case_bool_decide; simpl; split; try done.
  - by intros ->.
  - intros -> Hs. destruct (Hopen Hs) as (-> & ->). rewrite Hs. simpl.
    unfold QRCodeDisplay.QRCodeDisplay. simpl.
    destruct (decide (Http.client_status c = "pending")) as [Hp|Hp].
    + rewrite !bool_decide_eq_true_2; [done..|by rewrite Hp].
    + rewrite !bool_decide_eq_false_2; [done..|by intros [= ?]].
Qed.

End QrPageDisplay.

Lemma qr_page_failed_poll_keeps_page_witness :
  exists main,
    QRAssistantPageView.render (Some "acme-law")
      (QRAssistantPage.fetchClientData (Some "acme-law") nowhere qrPageLinked)
    = QRAssistantPageView.Page main
    /\ QRAssistantPageView.errorBanner main = Some QRAssistantPage.msgNotFound.
Proof.
  destruct (proj1 (qr_page_failed_poll_keeps_page nowhere "acme-law" notFound
                     qrPageLinked ltac:(discriminate) eq_refl)
              (ex_intro _ _ eq_refl))
    as (main & Hrender & Hbanner & _).
  exists main. split; [exact Hrender|exact Hbanner].
Defined.

Lemma qr_page_card_follows_connected_flag_witness :
  exists main,
    QRAssistantPageView.render (Some "acme-law")
      (QRAssistantPage.fetchClientData (Some "acme-law")
         (backend instanceNotReady None) QRAssistantPage.initial)
    = QRAssistantPageView.Page main
    /\ ConnectionStatus.assistantText (QRAssistantPageView.connection main)
       ≠ "Activo".
Proof.
  destruct (qr_page_card_follows_connected_flag (backend instanceNotReady None)
              "acme-law" acme (Http.mkStatusData "connecting")
              QRAssistantPage.initial ltac:(discriminate) eq_refl eq_refl)
    as (main & Hrender & Hactive & _).
  exists main. split; [exact Hrender|].
  intros Htext. by apply Hactive in Htext.
Defined.

(** ** The notice of AssistantInfo on the two pages *)

Section Notice.

(** The landing page never passes a client status to [AssistantInfo], so
    its notice follows the WhatsApp status and reads [Asistente Activo]
    exactly when that status is [open].  The QR page passes the client's
    status, read as [pending] when missing or empty, and a pending client
    is told [Servicio Pendiente] whatever the WhatsApp status, also when
    connected. *)
Theorem assistant_notice_by_page :
  (forall st main,
      ClientLandingView.render st = ClientLandingView.Page main ->
      AssistantInfo.title (ClientLandingView.info main) ≠ "Servicio Pendiente"
      /\ (AssistantInfo.title (ClientLandingView.info main) = "Asistente Activo"
          <-> ClientLandingView.shownStatus st = "open"))
  /\ (forall unique_url st main,
      QRAssistantPageView.render unique_url st = QRAssistantPageView.Page main ->
      (AssistantInfo.title (QRAssistantPageView.info main) = "Servicio Pendiente"
       <-> Js.or_default (QRAssistantPageView.clientStatus st) "pending"
           = "pending")
      /\ (Js.or_default (QRAssistantPageView.clientStatus st) "pending"
          ≠ "pending" ->
          (AssistantInfo.title (QRAssistantPageView.info main) = "Asistente Activo"
           <-> QRAssistantPageView.shownStatus st = "open"))).
Proof.
  split.
  - intros st main. unfold ClientLandingView.render.
    destruct (ClientLanding.loading st); [done|]. intros [= <-]. simpl.
    unfold AssistantInfo.getStatusMessage.
    repeat case_bool_decide; simpl; split; try done; split; try done;
      congruence.
  - intros unique_url st main. unfold QRAssistantPageView.render.
    destruct (negb _); [done|]. destruct (QRAssistantPage.loading st); [done|].
    destruct (_ && _); [done|]. intros [= <-]. simpl.
    unfold AssistantInfo.getStatusMessage.
    set (cs := Js.or_default _ "pending").
    set (ws := QRAssistantPageView.shownStatus st).
    destruct (decide (cs = "pending")) as [Hcs|Hcs].
    + rewrite bool_decide_eq_true_2 by (by rewrite Hcs). by simpl.
    + rewrite (bool_decide_eq_false_2 (Some cs = Some "pending"))
        by (by intros [= ?]).
      repeat case_bool_decide; simpl; split; try done; intros _; split;
        try done; congruence.
Qed.

End Notice.

Lemma assistant_notice_by_page_witness :
  exists main,
    QRAssistantPageView.render (Some "acme-law") qrPageLinked
    = QRAssistantPageView.Page main
    /\ AssistantInfo.title (QRAssistantPageView.info main) = "Asistente Activo".
Proof.
  eexists. split; [reflexivity|].
  apply (proj2 assistant_notice_by_page (Some "acme-law") qrPageLinked _ eq_refl);
    [discriminate|reflexivity].
Defined.

(** ** Debounced calls *)

Section Debounced.

Import Debounce.

Context {A : Type}.
Variable delay : N.

Lemma run_app (ref : Ref A) xs ys :
  run delay ref (xs ++ ys)
  = match run delay ref xs with
    | Some (ref', out) =>
        match run delay ref' ys with
        | Some (ref'', out') => Some (ref'', out ++ out')
        | None => None
        end
    | None => None
    end.
Proof.
  revert ref. induction xs as [|e xs IH]; intros ref; simpl.
  - by destruct (run delay ref ys) as [[? ?]|].
  - destruct (step delay ref e) as [[ref' out]|]; [|done].
    rewrite IH. destruct (run delay ref' xs) as [[ref'' outs]|]; [|done].
    destruct (run delay ref'' ys) as [[? ?]|]; [|done].
    by rewrite app_assoc.
Qed.

Lemma run_waits (ref : Ref A) waits :
  run delay ref (@Elapse A <$> waits)
  = Some ((fun timer => (timer.1, (timer.2 - elapsed waits)%N)) <$> ref, []).
Proof.
  revert ref. induction waits as [|ms waits IH]; intros ref; simpl.
  - destruct ref as [[a r]|]; simpl; [|done]. by rewrite N.sub_0_r.
  - rewrite IH. destruct ref as [[a r]|]; simpl; [|done].
    by rewrite N.sub_add_distr.
Qed.

Lemma pending_shape events a remaining fired :
  run delay None events = Some (Some (a, remaining), fired) ->
  exists pre waits,
    events = pre ++ Call a :: (@Elapse A <$> waits)
    /\ remaining = (delay - elapsed waits)%N.
Proof.
  revert a remaining fired.
  induction events as [|e events IH] using rev_ind; intros a remaining fired;
    [done|].
  rewrite run_app.
  destruct (run delay None events) as [[ref out]|] eqn:Hrun; [|done].
  destruct e as [b|ms|]; simpl.
  - intros [= -> <- _]. exists events, []. split; [done|]. simpl.
    by rewrite N.sub_0_r.
  - destruct ref as [[a' r]|]; simpl; [|done]. intros [= <- <- _].
    destruct (IH a' r out eq_refl) as (pre & waits & -> & ->).
    exists pre, (waits ++ [ms]). split.
    + by rewrite fmap_app, <- app_assoc.
    + unfold elapsed. rewrite foldr_app. simpl.
      fold (elapsed waits).
      assert (foldr N.add (ms + 0)%N waits = (elapsed waits + ms)%N) as ->.
      { clear. induction waits as [|w waits IH]; simpl; [lia|].
        rewrite IH. unfold elapsed. simpl. lia. }
      by rewrite N.sub_add_distr.
  - destruct ref as [[a' r]|]; simpl; [|done].
    destruct (r =? 0)%N; simpl; done.
Qed.

Lemma fired_bound (ref0 ref : Ref A) events fired :
  run delay ref0 events = Some (ref, fired) ->
  length fired + length (option_list ref)
  <= length (option_list ref0) + length (filter (fun e : Event A => isCall e = true) events).
Proof.
  revert ref0 ref fired.
  induction events as [|e events IH]; intros ref0 ref fired; simpl.
  - intros [= -> <-]. simpl. lia.
  - destruct (step delay ref0 e) as [[ref' out]|] eqn:Hstep; [|done].
    destruct (run delay ref' events) as [[ref'' outs]|] eqn:Hrun; [|done].
    intros [= -> <-]. specialize (IH _ _ _ Hrun).
    rewrite length_app.
    destruct e as [b|ms|]; simpl in Hstep.
    + injection Hstep as <- <-. rewrite filter_cons_True by done. simpl in *.
      destruct ref0; lia.
    + injection Hstep as <- <-. rewrite filter_cons_False by done. simpl in *.
      destruct ref0; simpl in *; lia.
    + destruct ref0 as [[a r]|]; [|done].
      destruct (r =? 0)%N; [|done]. injection Hstep as <- <-.
      rewrite filter_cons_False by done. simpl in *. lia.
Qed.

(** What a debounced function lets through.  Whenever the timer goes off,
    [fn] gets the arguments of the latest call, no other call or timer
    event came after that call, and at least the delay has passed since.
    A call that is followed by another call before its timer went off has
    no effect at all.  [fn] is never called more often than the debounced
    function. *)
Theorem debounce_delivers_latest_call :
  (forall events ref fired,
      run delay None (events ++ [Fire]) = Some (ref, fired) ->
      exists pre a waits fired0,
        events = pre ++ Call a :: (@Elapse A <$> waits)
        /\ (delay <= elapsed waits)%N
        /\ fired = fired0 ++ [a]
        /\ ref = None)
  /\ (forall (ref : Ref A) a b waits post,
      run delay ref (Call a :: (@Elapse A <$> waits) ++ Call b :: post)
      = run delay ref ((@Elapse A <$> waits) ++ Call b :: post))
  /\ (forall events ref fired,
      run delay None events = Some (ref, fired) ->
      length fired <= length (filter (fun e : Event A => isCall e = true) events)).
Proof.
  split; [|split].
  - intros events ref fired. rewrite run_app.
    destruct (run delay None events) as [[ref' out]|] eqn:Hrun; [|done].
    simpl. destruct ref' as [[a r]|]; [|done].
    destruct (r =? 0)%N eqn:Hr; [|done]. intros [= <- <-].
    destruct (pending_shape events a r out Hrun) as (pre & waits & -> & ->).
    exists pre, a, waits, out. apply N.eqb_eq in Hr.
    repeat split; try done. lia.
  - intros ref a b waits post.
    simpl. rewrite (run_app (Some (a, delay))), (run_app ref), !run_waits.
    simpl. destruct (run delay (Some (b, delay)) post) as [[? ?]|]; [|done].
    by destruct ref as [[? ?]|].
  - intros events ref fired Hrun.
    pose proof (fired_bound None ref events fired Hrun). simpl in *. lia.
Qed.

End Debounced.

Lemma debounce_delivers_latest_call_witness :
  AdminClicks.debouncedToggleClient
    [ AdminClicks.toggleClick fleet
        (AdminPanel.mkClientRow "c1" "c1" "Acme" "acme@example.cl" "acme-law"
           "open" (Some "56911112222"));
      Debounce.Elapse 100%N;
      AdminClicks.toggleClick fleet
        (AdminPanel.mkClientRow "c2" "c2" "Bravo" "bravo@example.cl" "bravo"
           "connecting" None);
      Debounce.Elapse 300%N;
      Debounce.Fire ]
  = Some [("c2", true)].
Proof.
  unfold AdminClicks.debouncedToggleClient.
  etrans; [|reflexivity].
  exact (f_equal (fmap snd)
           (proj1 (proj2 (debounce_delivers_latest_call AdminClicks.debounceDelay))
              None ("c1", false) ("c2", true) [100%N]
              [Debounce.Elapse 300%N; Debounce.Fire])).
Defined.

(** ** The QR code in the admin panel *)

Section AdminQrFetch.

Import AdminQr.

Variable world : Http.World.


End AdminQrFetch.


(** ** Which addresses the e-mail pattern accepts *)

Section EmailPattern.

Import Regex.

Lemma append_cons c s v : String c s +:+ v = String c (s +:+ v).
Proof. reflexivity. Qed.

Lemma append_nil_l v : "" +:+ v = v.
Proof. reflexivity. Qed.

Lemma append_nil_r s : s +:+ "" = s.
Proof.
  induction s as [|c s IH]; [done|]. rewrite append_cons. by f_equal.
Qed.

Lemma append_assoc a b c : (a +:+ b) +:+ c = a +:+ (b +:+ c).
Proof.
  induction a as [|x a IH]; [done|]. rewrite !append_cons. by f_equal.
Qed.

Lemma append_eq_nil u v : u +:+ v = "" -> u = "" /\ v = "".
Proof.
  destruct u as [|x u]; [done|]. rewrite append_cons. discriminate.
Qed.

Lemma append_eq_cons u v c s :
  u +:+ v = String c s ->
  (u = "" /\ v = String c s) \/ (exists u', u = String c u' /\ s = u' +:+ v).
Proof.
  destruct u as [|x u]; [by left|]. rewrite append_cons.
  intros [= -> <-]. right. by eexists.
Qed.

Lemma nullable_lang r : nullable r = true <-> lang r "".
Proof.
  split.
  - induction r; simpl; intros Hn; try done.
    + constructor.
    + apply andb_true_iff in Hn as [? ?].
      change "" with ("" +:+ ""). constructor; auto.
    + apply orb_true_iff in Hn as [?|?];
        [apply lang_alt_l|apply lang_alt_r]; auto.
    + constructor.
  - intros Hl. remember "" as s eqn:Hs. induction Hl; simpl; try done.
    + apply append_eq_nil in Hs as [-> ->]. by rewrite IHHl1, IHHl2.
    + by rewrite IHHl.
    + rewrite IHHl by done. by rewrite orb_true_r.
Qed.

Lemma star_cons r c s :
  lang (Star r) (String c s) ->
  exists u v, s = u +:+ v /\ lang r (String c u) /\ lang (Star r) v.
Proof.
  intros Hl. remember (Star r) as r' eqn:Hr. remember (String c s) as w eqn:Hw.
  revert c s Hw. induction Hl; intros c0 s0 Hw; try done.
  injection Hr as ->.
  apply append_eq_cons in Hw as [[-> ->]|(u' & -> & ->)].
  - by apply IHHl2.
  - by exists u', v.
Qed.

Lemma deriv_lang r c s : lang (deriv c r) s <-> lang r (String c s).
Proof.
  revert s. induction r as [| |p|r IHr r' IHr'|r IHr r' IHr'|r IHr];
    intros s; simpl.
  - split; inversion 1.
  - split; inversion 1.
  - destruct (p c) eqn:Hp; split; intros Hl.
    + inversion Hl; subst. by constructor.
    + inversion Hl; subst. constructor.
    + inversion Hl.
    + inversion Hl; subst. congruence.
  - assert (lang (Cat (deriv c r) r') s
            <-> exists u v, s = u +:+ v /\ lang r (String c u) /\ lang r' v)
      as Hcat.
    { split.
      - intros Hl. inversion Hl; subst. eexists _, _. split; [done|].
        split; [by apply IHr|done].
      - intros (u & v & -> & Hu & Hv). constructor; [by apply IHr|done]. }
    destruct (nullable r) eqn:Hn; split.
    + intros Hl. inversion Hl; subst.
      * match goal with H : lang (Cat _ _) _ |- _ =>
          apply Hcat in H as (u & v & -> & Hu & Hv) end.
        change (String c (u +:+ v)) with (String c u +:+ v). by constructor.
      * change (String c s) with ("" +:+ String c s).
        constructor; [by apply nullable_lang|by apply IHr'].
    + intros Hl. inversion Hl; subst.
      match goal with H : _ +:+ _ = String _ _ |- _ =>
        apply append_eq_cons in H as [[-> ->]|(u' & -> & ->)] end.
      * apply lang_alt_r. by apply IHr'.
      * apply lang_alt_l. apply Hcat. by eexists _, _.
    + intros Hl. apply Hcat in Hl as (u & v & -> & Hu & Hv).
      change (String c (u +:+ v)) with (String c u +:+ v). by constructor.
    + intros Hl. inversion Hl; subst.
      match goal with H : _ +:+ _ = String _ _ |- _ =>
        apply append_eq_cons in H as [[-> ->]|(u' & -> & ->)] end.
      * match goal with H : lang r "" |- _ => apply nullable_lang in H end.
        congruence.
      * apply Hcat. by eexists _, _.
  - split; intros Hl; inversion Hl; subst.
    + apply lang_alt_l. by apply IHr.
    + apply lang_alt_r. by apply IHr'.
    + apply lang_alt_l. by apply IHr.
    + apply lang_alt_r. by apply IHr'.
  - split.
    + intros Hl. inversion Hl; subst.
      change (String c (u +:+ v)) with (String c u +:+ v).
      constructor; [by apply IHr|done].
    + intros Hl. apply star_cons in Hl as (u & v & -> & Hu & Hv).
      constructor; [by apply IHr|done].
Qed.

Lemma matches_lang r s : matches r s = true <-> lang r s.
Proof.
  revert r. induction s as [|c s IH]; intros r; simpl.
  - apply nullable_lang.
  - rewrite IH. apply deriv_lang.
Qed.

Lemma lang_cat_inv r s w :
  lang (Cat r s) w <-> exists u v, w = u +:+ v /\ lang r u /\ lang s v.
Proof.
  split.
  - intros Hl. inversion Hl; subst. by eexists _, _.
  - intros (u & v & -> & Hu & Hv). by constructor.
Qed.

Lemma lang_class_inv p w :
  lang (Class p) w <-> exists c, w = String c "" /\ p c = true.
Proof.
  split.
  - intros Hl. inversion Hl; subst. by eexists.
  - intros (c & -> & Hp). by constructor.
Qed.

Lemma lang_chr a w : lang (chr a) w <-> w = String a "".
Proof.
  unfold chr. rewrite lang_class_inv. split.
  - intros (c & -> & Hc). apply Ascii.eqb_eq in Hc. by subst.
  - intros ->. eexists. split; [done|]. apply Ascii.eqb_refl.
Qed.

Lemma lang_star_class p w : lang (Star (Class p)) w <-> allOf p w = true.
Proof.
  split.
  - intros Hl. remember (Star (Class p)) as r eqn:Hr.
    induction Hl; try done. injection Hr as ->.
    apply lang_class_inv in Hl1 as (c & -> & Hc).
    rewrite append_cons, append_nil_l. simpl. rewrite Hc. by apply IHHl2.
  - induction w as [|c w IH]; simpl; [constructor|].
    intros [Hc Hw]%andb_true_iff.
    change (String c w) with (String c "" +:+ w).
    constructor; [by constructor|by apply IH].
Qed.

Lemma lang_plus_class p w :
  lang (Plus (Class p)) w <-> w ≠ "" /\ allOf p w = true.
Proof.
  unfold Plus. rewrite lang_cat_inv. split.
  - intros (u & v & -> & (c & -> & Hc)%lang_class_inv & Hv%lang_star_class).
    rewrite append_cons, append_nil_l. simpl. by rewrite Hc, Hv.
  - intros [Hne Hall]. destruct w as [|c w]; [done|]. simpl in Hall.
    apply andb_true_iff in Hall as [Hc Hw].
    exists (String c ""), w. split; [done|].
    split; [by constructor|by apply lang_star_class].
Qed.

Lemma lang_opt_class p w :
  lang (Opt (Class p)) w
  <-> allOf p w = true /\ String.length w <= 1.
Proof.
  unfold Opt. split.
  - intros Hl. inversion Hl; subst.
    + match goal with H : lang Eps _ |- _ => inversion H; subst end.
      simpl. split; [done|lia].
    + match goal with H : lang (Class _) _ |- _ =>
        apply lang_class_inv in H as (c & -> & Hc) end.
      simpl. rewrite Hc. split; [done|lia].
  - intros [Hall Hlen]. destruct w as [|c [|c' w]]; simpl in *.
    + apply lang_alt_l. constructor.
    + apply lang_alt_r. constructor. by apply andb_true_iff in Hall as [? _].
    + lia.
Qed.

Lemma lang_labels w :
  lang (Star (Cat (Plus (Class wordDash)) (chr "."%char))) w
  <-> exists labels, w = dotted labels /\ Forall isLabel labels.
Proof.
  split.
  - intros Hl.
    remember (Star (Cat (Plus (Class wordDash)) (chr "."%char))) as r eqn:Hr.
    induction Hl; try done.
    + by exists [].
    + injection Hr as ->.
      destruct (IHHl2 eq_refl) as (labels & -> & Hlabels).
      apply lang_cat_inv in Hl1
        as (l & dot & -> & Hl%lang_plus_class & ->%lang_chr).
      exists (l :: labels). split; [|by constructor].
      simpl. by rewrite append_assoc.
  - intros (labels & -> & Hlabels).
    induction Hlabels as [|l labels Hl _ IH]; simpl; [constructor|].
    rewrite <- append_assoc. constructor; [|done].
    apply lang_cat_inv. exists l, ".". split; [done|].
    split; [by apply lang_plus_class|by apply lang_chr].
Qed.

Lemma lang_tld w :
  lang (Cat (Class wordDash)
          (Cat (Class wordDash)
             (Cat (Opt (Class wordDash)) (Opt (Class wordDash))))) w
  <-> allOf wordDash w = true /\ 2 <= String.length w <= 4.
Proof.
  split.
  - intros (a & w1 & -> & (c1 & -> & H1)%lang_class_inv
            & (b & w2 & -> & (c2 & -> & H2)%lang_class_inv
               & (o1 & o2 & -> & [Ho1 Hn1]%lang_opt_class
                  & [Ho2 Hn2]%lang_opt_class)%lang_cat_inv)%lang_cat_inv)
             %lang_cat_inv.
    rewrite !append_cons, !append_nil_l. simpl. rewrite H1, H2. simpl.
    destruct o1 as [|x [|? ?]]; simpl in *; try lia;
      destruct o2 as [|y [|? ?]]; simpl in *; try lia;
      rewrite ?andb_true_r in *; rewrite ?Ho1, ?Ho2; split; try done; lia.
  - intros [Hall Hlen].
    destruct w as [|c1 [|c2 w]]; simpl in Hlen; try lia.
    simpl in Hall.
    apply andb_true_iff in Hall as [H1 [H2 Hrest]%andb_true_iff].
    apply lang_cat_inv. exists (String c1 ""), (String c2 w).
    split; [done|]. split; [by constructor|].
    apply lang_cat_inv. exists (String c2 ""), w.
    split; [done|]. split; [by constructor|].
    apply lang_cat_inv.
    destruct w as [|c3 w]; [exists "", ""|exists (String c3 ""), w];
      (split; [done|]); simpl in *.
    + split; apply lang_opt_class; simpl; (split; [done|lia]).
    + apply andb_true_iff in Hrest as [H3 H4].
      split; apply lang_opt_class; simpl; (split; [|lia]); [by rewrite H3|done].
Qed.

Lemma email_matches_shape (s : string) :
  matches email s = true <-> emailShape s.
Proof.
  rewrite matches_lang. unfold email, emailShape. split.
  - intros (name & rest & -> & [Hname Hchars]%lang_plus_class
            & (at_ & rest' & -> & ->%lang_chr
               & (domain & tld & -> & Hdomain & [Htld Hlen]%lang_tld)
                  %lang_cat_inv)%lang_cat_inv)%lang_cat_inv.
    unfold Plus in Hdomain.
    apply lang_cat_inv in Hdomain
      as (first & more & -> & (l & dot & -> & Hl%lang_plus_class & ->%lang_chr)
                                %lang_cat_inv
          & (labels & -> & Hlabels)%lang_labels).
    exists name, (l :: labels), tld. simpl.
    rewrite !append_assoc. repeat split; try done; try lia. by constructor.
  - intros (name & labels & tld & -> & Hname & Hchars & Hne & Hlabels
            & Htld & Hlen).
    apply lang_cat_inv. exists name, ("@" +:+ dotted labels +:+ tld).
    split; [done|]. split; [by apply lang_plus_class|].
    apply lang_cat_inv. exists "@", (dotted labels +:+ tld).
    split; [done|]. split; [by apply lang_chr|].
    apply lang_cat_inv. exists (dotted labels), tld.
    split; [done|]. split; [|by apply lang_tld].
    destruct Hlabels as [|l labels Hl Hlabels]; [done|].
    unfold Plus. apply lang_cat_inv. exists (l +:+ "."), (dotted labels).
    split; [by simpl; rewrite append_assoc|]. split.
    + apply lang_cat_inv. exists l, ".". split; [done|].
      split; [by apply lang_plus_class|by apply lang_chr].
    + apply lang_labels. by exists labels.
Qed.

End EmailPattern.

Section EditedAddress.

Import AdminPanel AdminRows.

Variable world : Http.World.

(** The pattern that guards an address accepts exactly the strings made
    of a non-empty local part of letters, digits, underscores, dashes and
    dots, one at sign, one or more non-empty labels of letters, digits,
    underscores and dashes, each followed by a dot, and a last label of the
    same characters that is two to four long.  The edit form sends an
    address of that shape to the backend as its first request, and an
    address of any other shape not at all: the error banner is all that
    changes. *)
Theorem edit_sends_well_shaped_addresses_only (client : ClientRow)
    (value : string) (st : State) :
  let st' :=
    updateClientEmail world (typeNewEmail value (openEditEmailForm client st)) in
  (Regex.matches Regex.email value = true <-> emailShape value)
  /\ (emailShape value ->
      exists more,
        Http.requests (history st')
        = Http.requests (history st)
          ++ Http.PutEmail (instance_id client) value :: more)
  /\ (~ emailShape value ->
      Http.requests (history st') = Http.requests (history st)
      /\ error st' = Some msgBadEmail
      /\ clients st' = clients st).
Proof.
  simpl. split; [apply email_matches_shape|]. split.
  - intros Hshape%email_matches_shape. unfold updateClientEmail. simpl.
    rewrite Hshape. simpl.
    match goal with
    | |- context [fetchWithRetry ?req ?answer ?s] =>
        destruct (fetchWithRetry_after req answer s) as (more & Hstate & _);
        destruct (fetchWithRetry req answer s) as [response st2]
    end.
    simpl in Hstate. subst st2.
    destruct response as [[[]|err]|]; simpl.
    + match goal with
      | |- context [fetchClients world ?s] =>
          destruct (fetchClients_history world s) as (more' & -> & _)
      end.
      simpl. rewrite <- !app_assoc. rewrite !requests_app. simpl.
      by eexists.
    + rewrite <- !app_assoc. rewrite !requests_app. simpl. by eexists.
    + match goal with
      | |- context [fetchClients world ?s] =>
          destruct (fetchClients_history world s) as (more' & -> & _)
      end.
      simpl. rewrite <- !app_assoc. rewrite !requests_app. simpl.
      by eexists.
  - intros Hshape. unfold updateClientEmail. simpl.
    destruct (Regex.matches Regex.email value) eqn:Hmatch.
    + exfalso. by apply Hshape, email_matches_shape.
    + simpl. rewrite requests_app. simpl. by rewrite app_nil_r.
Qed.

End EditedAddress.

Lemma edit_sends_well_shaped_addresses_only_witness :
  exists more,
    Http.requests
      (AdminPanel.history
         (AdminPanel.updateClientEmail (readOnly [])
            (AdminRows.typeNewEmail "legal@example.cl"
               (AdminRows.openEditEmailForm
                  (AdminPanel.mkClientRow "c1" "c1" "Acme" "acme@example.cl"
                     "acme-law" "open" None)
                  fleet))))
    = Http.PutEmail "c1" "legal@example.cl" :: more.
Proof.
  apply (proj1 (proj2 (edit_sends_well_shaped_addresses_only (readOnly [])
                         (AdminPanel.mkClientRow "c1" "c1" "Acme"
                            "acme@example.cl" "acme-law" "open" None)
                         "legal@example.cl" fleet))).
  exists "legal", ["example"], "cl". simpl.
  repeat split; try done; try lia.
  constructor; [by split|constructor].
Defined.
